(** * Social Network MVP (lab5/app/main.py): relational store and request handlers

    A shallow embedding of the FastAPI service of [src/lab5/app/main.py]:
    the SQLite schema of [init_db] as a record of tables, every SQL
    statement the handlers issue as a function on that record, and the
    handlers themselves in a small state-and-exception monad in which a
    [with _db.connect() as conn:] block commits on normal exit and rolls the
    database back when an exception leaves it.

    Conventions.
    - Python [str] is [string]; SQLite compares TEXT with the BINARY
      collation, which is [String.eqb] / [String.leb] on the stored bytes.
    - Python [int] and SQLite INTEGER are [Z].  The SQL statements are
      written for parameters that [sqlite3] can bind, the integers of
      [sqlite_int]: for any other integer [conn.execute] raises
      [OverflowError] before the statement runs, which the statements do
      not show.  A property about an integer the client chooses (a post id
      of the path, the offset of the feed) therefore assumes [sqlite_int]
      of it wherever the statement is reached.
    - A nullable column, and an [Optional[...]] field, is an [option].
    - What a request reads from the operating system (clock, random bytes)
      is passed to the handler as an [Env].
    - Built-ins of the Python runtime whose code is not part of the
      repository ([hashlib.sha256], [str.lower], [str.strip],
      [pathlib.Path.suffix]) are the fields of the class [PyRuntime]. *)

From Stdlib Require Import String Ascii ZArith List Bool Lia.
From Stdlib Require Import Sorted Permutation DecimalString.
Import ListNotations.

#[local] Open Scope string_scope.
#[local] Open Scope Z_scope.

Set Implicit Arguments.

(** ** Python runtime *)

Class PyRuntime : Type := {
  (** [hashlib.sha256(s.encode("utf-8")).hexdigest()] *)
  sha256_hexdigest : string -> string;
  (** [s.lower()] *)
  str_lower : string -> string;
  (** [s.strip()] *)
  str_strip : string -> string;
  (** [Path(s).suffix] *)
  path_suffix : string -> string
}.

(** [str(n)] / [f"{n}"] for an integer. *)
Definition str_of_int (n : Z) : string := NilZero.string_of_int (Z.to_int n).

(** The Python integers that [sqlite3] binds to a parameter of a statement:
    the signed 64-bit range of an SQLite INTEGER. *)
Definition sqlite_int (n : Z) : bool :=
  (- 2 ^ 63 <=? n) && (n <? 2 ^ 63).

(** [s.replace(old, new)] for a non-empty [old]: every non-overlapping
    occurrence, leftmost first.  [skip] counts the characters of a matched
    occurrence that are still to be dropped. *)
Fixpoint replace_from (skip : nat) (old new s : string) : string :=
  match s with
  | EmptyString => EmptyString
  | String c s' =>
      match skip with
      | S k => replace_from k old new s'
      | O =>
          if prefix old s
          then new ++ replace_from (String.length old - 1) old new s'
          else String c (replace_from O old new s')
      end
  end.

Definition str_replace (old new s : string) : string := replace_from 0 old new s.

(** [s.split(sep, 1)] for a one-character separator: [None] when [sep] does
    not occur (the list has one element and unpacking into two names raises
    [ValueError]), otherwise the text before and after the first [sep]. *)
Fixpoint split_once (sep : ascii) (s : string) : option (string * string) :=
  match s with
  | EmptyString => None
  | String c s' =>
      if Ascii.eqb c sep then Some (EmptyString, s')
      else match split_once sep s' with
           | Some (a, b) => Some (String c a, b)
           | None => None
           end
  end.

(** Truth value of a Python string: [bool(s)]. *)
Definition truthy (s : string) : bool := negb (s =? "")%string.

(** ** Schema ([init_db]) *)

Module Users.
Record row : Type := Row {
  id : Z;                       (* INTEGER PRIMARY KEY AUTOINCREMENT *)
  name : string;                (* TEXT NOT NULL *)
  email : string;               (* TEXT NOT NULL UNIQUE *)
  password_hash : string;       (* TEXT NOT NULL *)
  avatar_url : option string;   (* TEXT *)
  created_at : string           (* TEXT NOT NULL *)
}.
End Users.

Module Posts.
Record row : Type := Row {
  id : Z;                       (* INTEGER PRIMARY KEY AUTOINCREMENT *)
  author_id : Z;                (* REFERENCES users(id) ON DELETE CASCADE *)
  text : string;                (* TEXT NOT NULL *)
  image_url : option string;    (* TEXT *)
  created_at : string;          (* TEXT NOT NULL *)
  updated_at : option string    (* TEXT *)
}.
End Posts.

Module Comments.
Record row : Type := Row {
  id : Z;                       (* INTEGER PRIMARY KEY AUTOINCREMENT *)
  post_id : Z;                  (* REFERENCES posts(id) ON DELETE CASCADE *)
  author_id : Z;                (* REFERENCES users(id) ON DELETE CASCADE *)
  text : string;                (* TEXT NOT NULL *)
  created_at : string           (* TEXT NOT NULL *)
}.
End Comments.

Module Likes.
Record row : Type := Row {
  id : Z;                       (* INTEGER PRIMARY KEY AUTOINCREMENT *)
  post_id : Z;                  (* REFERENCES posts(id) ON DELETE CASCADE *)
  user_id : Z;                  (* REFERENCES users(id) ON DELETE CASCADE *)
  created_at : string           (* TEXT NOT NULL; UNIQUE(post_id, user_id) *)
}.
End Likes.

Module Media.
Record row : Type := Row {
  id : Z;                       (* INTEGER PRIMARY KEY AUTOINCREMENT *)
  owner_type : string;          (* TEXT NOT NULL, no foreign key *)
  owner_id : Z;                 (* INTEGER NOT NULL, no foreign key *)
  url : string;                 (* TEXT NOT NULL *)
  type : string;                (* TEXT NOT NULL *)
  created_at : string           (* TEXT NOT NULL *)
}.
End Media.

Module Sessions.
Record row : Type := Row {
  token : string;               (* TEXT PRIMARY KEY *)
  user_id : Z;                  (* REFERENCES users(id) ON DELETE CASCADE *)
  created_at : string           (* TEXT NOT NULL *)
}.
End Sessions.

(** The [sqlite_sequence] table: the largest rowid every AUTOINCREMENT table
    has ever handed out. *)
Record sequences : Type := Sequences {
  seq_users : Z;
  seq_posts : Z;
  seq_comments : Z;
  seq_likes : Z;
  seq_media : Z
}.

(** The database file [social.db]: every table in rowid order. *)
Record database : Type := Database {
  users : list Users.row;
  posts : list Posts.row;
  comments : list Comments.row;
  likes : list Likes.row;
  media : list Media.row;
  sessions : list Sessions.row;
  sqlite_sequence : sequences
}.

(** The database after [init_db] has run on a new file. *)
Definition empty_db : database :=
  Database [] [] [] [] [] [] (Sequences 0 0 0 0 0).

(** A connection.  [PRAGMA foreign_keys] is a setting of the connection, not
    of the database file, and SQLite starts every connection with it off. *)
Record connection : Type := Connection {
  foreign_keys : bool
}.

(** [DB.connect]: [sqlite3.connect(self.path)], a new connection each time. *)
Definition connect : connection := Connection false.

(** The rowid an AUTOINCREMENT table gives its next row: one more than the
    largest rowid in the table and the largest ever handed out. *)
Definition next_rowid (seq : Z) (ids : list Z) : Z :=
  fold_right Z.max seq ids + 1.

(** ** Exceptions, the world and the handler monad *)

Inductive exn : Type :=
| HTTPException (status_code : Z) (detail : string)
| IntegrityError                  (* sqlite3.IntegrityError *)
| TypeError.                      (* subscripting None *)

(** What the service can change: the database file and the upload directory
    (file name, contents). *)
Record world : Type := World {
  db : database;
  upload_dir : list (string * string)
}.

(** A computation that runs in a world and either returns or raises; the
    world it leaves behind is kept in both cases. *)
Definition H (A : Type) : Type := world -> (exn + A) * world.

Definition ret {A : Type} (a : A) : H A := fun w => (inr a, w).

Definition raise {A : Type} (e : exn) : H A := fun w => (inl e, w).

Definition bind {A B : Type} (c : H A) (k : A -> H B) : H B :=
  fun w =>
    match c w with
    | (inr a, w') => k a w'
    | (inl e, w') => (inl e, w')
    end.

Notation "x <- c ;; k" := (bind c (fun x => k))
  (at level 61, c at next level, right associativity).
Notation "c ;;; k" := (bind c (fun _ => k))
  (at level 61, right associativity).

(** [if cond: raise e] *)
Definition raise_if (cond : bool) (e : exn) : H unit :=
  if cond then raise e else ret tt.

(** [with _db.connect() as conn: body]: the connection's context manager
    commits when the body returns and rolls the database back when an
    exception leaves the body; files written meanwhile stay. *)
Definition with_connect {A : Type} (body : connection -> H A) : H A :=
  fun w =>
    match body connect w with
    | (inr a, w') => (inr a, w')
    | (inl e, w') => (inl e, World (db w) (upload_dir w'))
    end.

(** [try: c except sqlite3.IntegrityError: h] *)
Definition except_IntegrityError {A : Type} (c : H A) (h : H A) : H A :=
  fun w =>
    match c w with
    | (inl IntegrityError, w') => h w'
    | r => r
    end.

(** A statement that writes: [None] is a constraint violation, after which
    the statement has changed nothing. *)
Definition statement (A : Type) : Type := database -> option (A * database).

(** [conn.execute(stmt, params)] for a writing statement. *)
Definition execute {A : Type} (stmt : statement A) : H A :=
  fun w =>
    match stmt (db w) with
    | Some (a, d') => (inr a, World d' (upload_dir w))
    | None => (inl IntegrityError, w)
    end.

(** [conn.execute(select, params).fetchone()] / [.fetchall()]. *)
Definition fetch {A : Type} (q : database -> A) : H A :=
  fun w => (inr (q (db w)), w).

(** ** SQL statements *)

Definition has_user (d : database) (uid : Z) : bool :=
  existsb (fun u => Users.id u =? uid) (users d).

Definition has_post (d : database) (pid : Z) : bool :=
  existsb (fun p => Posts.id p =? pid) (posts d).

(** A foreign key is checked on a connection that enforces foreign keys. *)
Definition fk_ok (conn : connection) (parent_exists : bool) : bool :=
  negb (foreign_keys conn) || parent_exists.

(** [INSERT INTO users (name, email, password_hash, created_at)
    VALUES (?, ?, ?, ?)]; yields [cur.lastrowid]. *)
Definition INSERT_INTO_users (name email password_hash created_at : string)
  : statement Z :=
  fun d =>
    if existsb (fun u => Users.email u =? email)%string (users d)
    then None
    else
      let sq := sqlite_sequence d in
      let i := next_rowid (seq_users sq) (map Users.id (users d)) in
      Some (i, Database
                 (users d ++ [Users.Row i name email password_hash None created_at])
                 (posts d) (comments d) (likes d) (media d) (sessions d)
                 (Sequences i (seq_posts sq) (seq_comments sq)
                            (seq_likes sq) (seq_media sq))).

(** [INSERT INTO sessions (token, user_id, created_at) VALUES (?, ?, ?)] *)
Definition INSERT_INTO_sessions (conn : connection)
    (token : string) (user_id : Z) (created_at : string) : statement unit :=
  fun d =>
    if existsb (fun s => Sessions.token s =? token)%string (sessions d)
    then None
    else if negb (fk_ok conn (has_user d user_id)) then None
    else
      Some (tt, Database (users d) (posts d) (comments d) (likes d) (media d)
                  (sessions d ++ [Sessions.Row token user_id created_at])
                  (sqlite_sequence d)).

(** [INSERT INTO posts (author_id, text, image_url, created_at)
    VALUES (?, ?, ?, ?)]; yields [cur.lastrowid]. *)
Definition INSERT_INTO_posts (conn : connection) (author_id : Z)
    (text : string) (image_url : option string) (created_at : string)
  : statement Z :=
  fun d =>
    if negb (fk_ok conn (has_user d author_id)) then None
    else
      let sq := sqlite_sequence d in
      let i := next_rowid (seq_posts sq) (map Posts.id (posts d)) in
      Some (i, Database (users d)
                 (posts d ++ [Posts.Row i author_id text image_url created_at None])
                 (comments d) (likes d) (media d) (sessions d)
                 (Sequences (seq_users sq) i (seq_comments sq)
                            (seq_likes sq) (seq_media sq))).

(** [INSERT INTO media (owner_type, owner_id, url, type, created_at)
    VALUES (?, ?, ?, ?, ?)] *)
Definition INSERT_INTO_media (owner_type : string) (owner_id : Z)
    (url type created_at : string) : statement Z :=
  fun d =>
    let sq := sqlite_sequence d in
    let i := next_rowid (seq_media sq) (map Media.id (media d)) in
    Some (i, Database (users d) (posts d) (comments d) (likes d)
               (media d ++ [Media.Row i owner_type owner_id url type created_at])
               (sessions d)
               (Sequences (seq_users sq) (seq_posts sq) (seq_comments sq)
                          (seq_likes sq) i)).

(** [INSERT INTO comments (post_id, author_id, text, created_at)
    VALUES (?, ?, ?, ?)]; yields [cur.lastrowid]. *)
Definition INSERT_INTO_comments (conn : connection) (post_id author_id : Z)
    (text created_at : string) : statement Z :=
  fun d =>
    if negb (fk_ok conn (has_post d post_id) && fk_ok conn (has_user d author_id))
    then None
    else
      let sq := sqlite_sequence d in
      let i := next_rowid (seq_comments sq) (map Comments.id (comments d)) in
      Some (i, Database (users d) (posts d)
                 (comments d ++ [Comments.Row i post_id author_id text created_at])
                 (likes d) (media d) (sessions d)
                 (Sequences (seq_users sq) (seq_posts sq) i
                            (seq_likes sq) (seq_media sq))).

(** [SELECT 1 FROM likes WHERE post_id = ? AND user_id = ?]: is there a row *)
Definition has_like (d : database) (post_id user_id : Z) : bool :=
  existsb (fun l => (Likes.post_id l =? post_id) && (Likes.user_id l =? user_id))
          (likes d).

(** [INSERT INTO likes (post_id, user_id, created_at) VALUES (?, ?, ?)] *)
Definition INSERT_INTO_likes (conn : connection) (post_id user_id : Z)
    (created_at : string) : statement Z :=
  fun d =>
    if has_like d post_id user_id then None
    else if negb (fk_ok conn (has_post d post_id) && fk_ok conn (has_user d user_id))
    then None
    else
      let sq := sqlite_sequence d in
      let i := next_rowid (seq_likes sq) (map Likes.id (likes d)) in
      Some (i, Database (users d) (posts d) (comments d)
                 (likes d ++ [Likes.Row i post_id user_id created_at])
                 (media d) (sessions d)
                 (Sequences (seq_users sq) (seq_posts sq) (seq_comments sq)
                            i (seq_media sq))).

(** [UPDATE users SET avatar_url = ? WHERE id = ?] *)
Definition UPDATE_users_avatar (url : string) (uid : Z) : statement unit :=
  fun d =>
    Some (tt, Database
                (map (fun u =>
                        if Users.id u =? uid
                        then Users.Row (Users.id u) (Users.name u) (Users.email u)
                               (Users.password_hash u) (Some url) (Users.created_at u)
                        else u) (users d))
                (posts d) (comments d) (likes d) (media d) (sessions d)
                (sqlite_sequence d)).

(** [UPDATE posts SET text = ?, image_url = ?, updated_at = ? WHERE id = ?] *)
Definition UPDATE_posts (text : string) (image_url : option string)
    (updated_at : string) (pid : Z) : statement unit :=
  fun d =>
    Some (tt, Database (users d)
                (map (fun p =>
                        if Posts.id p =? pid
                        then Posts.Row (Posts.id p) (Posts.author_id p) text
                               image_url (Posts.created_at p) (Some updated_at)
                        else p) (posts d))
                (comments d) (likes d) (media d) (sessions d)
                (sqlite_sequence d)).

(** [DELETE FROM posts WHERE id = ?].  The [ON DELETE CASCADE] clauses of
    [comments.post_id] and [likes.post_id] act only on a connection that
    enforces foreign keys; [media] declares no foreign key. *)
Definition DELETE_FROM_posts (conn : connection) (pid : Z) : statement unit :=
  fun d =>
    let keep_c := fun c : Comments.row => negb (Comments.post_id c =? pid) in
    let keep_l := fun l : Likes.row => negb (Likes.post_id l =? pid) in
    Some (tt, Database (users d)
                (filter (fun p => negb (Posts.id p =? pid)) (posts d))
                (if foreign_keys conn then filter keep_c (comments d) else comments d)
                (if foreign_keys conn then filter keep_l (likes d) else likes d)
                (media d) (sessions d) (sqlite_sequence d)).

(** [DELETE FROM likes WHERE post_id = ? AND user_id = ?] *)
Definition DELETE_FROM_likes (post_id user_id : Z) : statement unit :=
  fun d =>
    Some (tt, Database (users d) (posts d) (comments d)
                (filter (fun l => negb ((Likes.post_id l =? post_id)
                                        && (Likes.user_id l =? user_id)))
                        (likes d))
                (media d) (sessions d) (sqlite_sequence d)).

(** [SELECT * FROM users WHERE email = ?] and [fetchone()] *)
Definition SELECT_user_by_email (email : string) (d : database)
  : option Users.row :=
  find (fun u => Users.email u =? email)%string (users d).

(** [SELECT * FROM users WHERE id = ?] and [fetchone()] *)
Definition SELECT_user_by_id (uid : Z) (d : database) : option Users.row :=
  find (fun u => Users.id u =? uid) (users d).

(** [SELECT * FROM posts WHERE id = ?] and [fetchone()] *)
Definition SELECT_post_by_id (pid : Z) (d : database) : option Posts.row :=
  find (fun p => Posts.id p =? pid) (posts d).

(** [SELECT u.* FROM sessions s JOIN users u ON u.id = s.user_id
    WHERE s.token = ?] and [fetchone()] *)
Definition SELECT_user_by_token (token : string) (d : database)
  : option Users.row :=
  hd_error
    (flat_map
       (fun s => filter (fun u => Users.id u =? Sessions.user_id s) (users d))
       (filter (fun s => Sessions.token s =? token)%string (sessions d))).

(** [(SELECT COUNT( * ) FROM likes l WHERE l.post_id = p.id)] *)
Definition likes_count_of (d : database) (pid : Z) : Z :=
  Z.of_nat (length (filter (fun l => Likes.post_id l =? pid) (likes d))).

(** [(SELECT COUNT( * ) FROM comments c WHERE c.post_id = p.id)] *)
Definition comments_count_of (d : database) (pid : Z) : Z :=
  Z.of_nat (length (filter (fun c => Comments.post_id c =? pid) (comments d))).

(** ** Requests, responses and the request environment *)

(** What one request reads from the operating system, in the order the
    handler reads it. *)
Record Env : Type := {
  APP_SECRET : option string;     (* os.environ.get("APP_SECRET") *)
  token_hex_8 : string;           (* secrets.token_hex(8) *)
  token_hex_16 : string;          (* secrets.token_hex(16) *)
  time_time : Z;                  (* int(time.time()) *)
  utcnow_1 : string;              (* first datetime.utcnow().isoformat() *)
  utcnow_2 : string               (* second datetime.utcnow().isoformat() *)
}.

Definition SECRET (e : Env) : string :=
  match APP_SECRET e with
  | Some s => s
  | None => "dev-secret-change-me"
  end.

Definition _now_ts (e : Env) : Z := time_time e.

(** The first and the second call of [_now_iso()] in a request. *)
Definition _now_iso (e : Env) : string := utcnow_1 e ++ "Z".
Definition _now_iso_again (e : Env) : string := utcnow_2 e ++ "Z".

(** *** Clock readings

    What [datetime.utcnow()] returns and how [isoformat()] writes it, for
    the requests whose time of arrival matters. *)

Module Datetime.

(** A naive [datetime]. *)
Record t : Type := Make {
  year : Z;
  month : Z;
  day : Z;
  hour : Z;
  minute : Z;
  second : Z;
  microsecond : Z
}.

Definition fields (d : t) : list Z :=
  [year d; month d; day d; hour d; minute d; second d; microsecond d].

Fixpoint lex_ltb (a b : list Z) : bool :=
  match a, b with
  | x :: a', y :: b' => (x <? y) || ((x =? y) && lex_ltb a' b')
  | _, _ => false
  end.

(** [a < b]: [a] is the earlier instant. *)
Definition ltb (a b : t) : bool := lex_ltb (fields a) (fields b).

(** [f"{n:0{width}d}"] for a non-negative [n]. *)
Definition zfill (width : nat) (n : Z) : string :=
  let digits := str_of_int n in
  string_of_list_ascii (repeat "0"%char (width - String.length digits))
  ++ digits.

(** [d.isoformat()]: YYYY-MM-DDTHH:MM:SS.ffffff when [microsecond] is not 0,
    and YYYY-MM-DDTHH:MM:SS, without a fraction, when it is 0. *)
Definition isoformat (d : t) : string :=
  zfill 4 (year d) ++ "-" ++ zfill 2 (month d) ++ "-" ++ zfill 2 (day d)
  ++ "T" ++ zfill 2 (hour d) ++ ":" ++ zfill 2 (minute d) ++ ":"
  ++ zfill 2 (second d)
  ++ (if microsecond d =? 0 then "" else "." ++ zfill 6 (microsecond d)).

End Datetime.

(** The one header the service reads. *)
Record Request : Type := {
  Authorization : option string
}.

(** [request.headers.get("Authorization", "").replace("Bearer ", "")] *)
Definition bearer_token (request : Request) : string :=
  str_replace "Bearer " ""
    (match Authorization request with Some v => v | None => "" end).

Record UploadFile : Type := {
  filename : string;
  file_read : string              (* file.file.read() *)
}.

(** The request bodies.  The framework checks the [Field] constraints of the
    models (lengths, e-mail syntax) before it calls a handler; a handler
    sees the fields as they are here. *)
Record RegisterIn : Type := {
  reg_name : string;
  reg_email : string;
  reg_password : string
}.

Record LoginIn : Type := {
  login_email : string;
  login_password : string
}.

Record TokenOut : Type := { token : string }.

Record CommentIn : Type := { comment_text : string }.

Module PostOut.
Record t : Type := Make {
  id : Z;
  author_id : Z;
  author_name : string;
  author_avatar_url : option string;
  text : string;
  image_url : option string;
  created_at : string;
  updated_at : option string;
  likes_count : Z;
  comments_count : Z;
  liked_by_me : bool
}.
End PostOut.

Module CommentOut.
Record t : Type := Make {
  id : Z;
  post_id : Z;
  author_id : Z;
  author_name : string;
  author_avatar_url : option string;
  text : string;
  created_at : string
}.
End CommentOut.

Module PostDetailOut.
Record t : Type := Make {
  post : PostOut.t;
  comments : list CommentOut.t;
  liked_by_me : bool
}.
End PostDetailOut.

Module UserOut.
Record t : Type := Make {
  id : Z;
  name : string;
  email : string;
  avatar_url : option string;
  created_at : string
}.
End UserOut.

(** The dictionary [{"status": "ok"}]. *)
Definition status_ok : list (string * string) := [("status", "ok")].

(** ** Joined rows and ordering *)

(** A row of [SELECT p.*, u.name AS author_name,
    u.avatar_url AS author_avatar_url, (...) AS likes_count,
    (...) AS comments_count, ... AS liked_by_me FROM posts p JOIN users u
    ON u.id = p.author_id]. *)
Record post_view : Type := {
  pv_post : Posts.row;
  pv_author_name : string;
  pv_author_avatar_url : option string;
  pv_likes_count : Z;
  pv_comments_count : Z;
  pv_liked_by_me : Z
}.

(** A row of [SELECT c.*, u.name AS author_name,
    u.avatar_url AS author_avatar_url FROM comments c JOIN users u
    ON u.id = c.author_id]. *)
Record comment_view : Type := {
  cv_comment : Comments.row;
  cv_author_name : string;
  cv_author_avatar_url : option string
}.

Section Ordering.
Variable A : Type.
(** [before a b]: [a] may stand in front of [b]. *)
Variable before : A -> A -> bool.

Fixpoint insert_in_order (x : A) (l : list A) : list A :=
  match l with
  | [] => [x]
  | y :: l' => if before x y then x :: l else y :: insert_in_order x l'
  end.

(** [ORDER BY].  SQL leaves the order of rows with equal keys open; here
    they keep the order of the scan. *)
Definition order_by (l : list A) : list A :=
  fold_right insert_in_order [] l.
End Ordering.

(** [FROM posts p JOIN users u ON u.id = p.author_id], with the aggregate
    columns; [liked] is the expression selected [AS liked_by_me]. *)
Definition posts_join_users (liked : Posts.row -> Z) (d : database)
    (ps : list Posts.row) : list post_view :=
  flat_map
    (fun p =>
       map (fun u =>
              {| pv_post := p;
                 pv_author_name := Users.name u;
                 pv_author_avatar_url := Users.avatar_url u;
                 pv_likes_count := likes_count_of d (Posts.id p);
                 pv_comments_count := comments_count_of d (Posts.id p);
                 pv_liked_by_me := liked p |})
           (filter (fun u => Users.id u =? Posts.author_id p) (users d)))
    ps.

(** [ORDER BY p.created_at DESC] *)
Definition created_at_desc (a b : post_view) : bool :=
  (Posts.created_at (pv_post b) <=? Posts.created_at (pv_post a))%string.

(** [LIMIT ? OFFSET ?] with a non-negative limit and offset. *)
Definition limit_offset {A : Type} (limit offset : Z) (rows : list A) : list A :=
  firstn (Z.to_nat limit) (skipn (Z.to_nat offset) rows).

(** The feed query of a resolved viewer: [EXISTS(SELECT 1 FROM likes l WHERE
    l.post_id = p.id AND l.user_id = ?) AS liked_by_me]. *)
Definition SELECT_feed_for (user_id limit offset : Z) (d : database)
  : list post_view :=
  limit_offset limit offset
    (order_by created_at_desc
       (posts_join_users
          (fun p => if has_like d (Posts.id p) user_id then 1 else 0)
          d (posts d))).

(** The feed query of an anonymous viewer: [0 AS liked_by_me]. *)
Definition SELECT_feed_anonymous (limit offset : Z) (d : database)
  : list post_view :=
  limit_offset limit offset
    (order_by created_at_desc (posts_join_users (fun _ => 0) d (posts d))).

(** The query of [_get_post_out]: the join [WHERE p.id = ?], [fetchone()].
    It selects no [liked_by_me] column. *)
Definition SELECT_post_view (pid : Z) (d : database) : option post_view :=
  hd_error
    (posts_join_users (fun _ => 0) d
       (filter (fun p => Posts.id p =? pid) (posts d))).

(** [ORDER BY c.created_at ASC] *)
Definition created_at_asc (a b : comment_view) : bool :=
  (Comments.created_at (cv_comment a) <=? Comments.created_at (cv_comment b))%string.

(** The comment query of [get_post], [fetchall()]. *)
Definition SELECT_comments_of (pid : Z) (d : database) : list comment_view :=
  order_by created_at_asc
    (flat_map
       (fun c =>
          map (fun u =>
                 {| cv_comment := c;
                    cv_author_name := Users.name u;
                    cv_author_avatar_url := Users.avatar_url u |})
              (filter (fun u => Users.id u =? Comments.author_id c) (users d)))
       (filter (fun c => Comments.post_id c =? pid) (comments d))).

(** ** Handlers *)

Section Handlers.
Context {rt : PyRuntime}.

(** *** Auth helpers *)

Definition _hash_password (password salt : string) : string :=
  let digest := sha256_hexdigest (salt ++ password) in
  salt ++ "$" ++ digest.

Definition _verify_password (password stored : string) : bool :=
  match split_once "$"%char stored with
  | None => false
  | Some (salt, digest) => (_hash_password password salt =? stored)%string
  end.

Definition _create_token (e : Env) (user_id : Z) : string :=
  let raw := str_of_int user_id ++ ":" ++ token_hex_16 e ++ ":"
             ++ str_of_int (_now_ts e) ++ ":" ++ SECRET e in
  sha256_hexdigest raw.

Definition _get_user_by_token (token : string) : H (option Users.row) :=
  with_connect (fun conn => fetch (SELECT_user_by_token token)).

Definition _require_user (request : Request) : H Users.row :=
  let token := bearer_token request in
  raise_if (negb (truthy token))
           (HTTPException 401 "Требуется авторизация") ;;;
  user <- _get_user_by_token token ;;
  match user with
  | None => raise (HTTPException 401 "Недействительный токен")
  | Some u => ret u
  end.

(** *** File helpers *)

(** [dest.write_bytes(contents)] *)
Definition write_bytes (name contents : string) : H unit :=
  fun w => (inr tt, World (db w) ((name, contents) :: upload_dir w)).

Definition allowed_suffixes : list string :=
  [".jpg"; ".jpeg"; ".png"; ".gif"; ".webp"].

Definition _save_upload (e : Env) (file : UploadFile) (prefix : string)
  : H string :=
  raise_if (negb (truthy (filename file)))
           (HTTPException 400 "Файл не выбран") ;;;
  let ext := str_lower (path_suffix (filename file)) in
  raise_if (negb (existsb (String.eqb ext) allowed_suffixes))
           (HTTPException 400 "Недопустимый формат изображения") ;;;
  let name := prefix ++ "_" ++ token_hex_8 e ++ ext in
  let contents := file_read file in
  raise_if (negb (truthy contents)) (HTTPException 400 "Пустой файл") ;;;
  write_bytes name contents ;;;
  ret ("/uploads/" ++ name).

(** *** helpers *)

Definition _get_post_out (post_id : Z) : H PostOut.t :=
  row <- with_connect (fun conn => fetch (SELECT_post_view post_id)) ;;
  match row with
  | None => raise (HTTPException 404 "Пост не найден")
  | Some row =>
      ret (PostOut.Make
             (Posts.id (pv_post row))
             (Posts.author_id (pv_post row))
             (pv_author_name row)
             (pv_author_avatar_url row)
             (Posts.text (pv_post row))
             (Posts.image_url (pv_post row))
             (Posts.created_at (pv_post row))
             (Posts.updated_at (pv_post row))
             (pv_likes_count row)
             (pv_comments_count row)
             false)
  end.

(** *** Endpoints *)

Definition init_db : H unit :=
  with_connect (fun conn =>
    (* PRAGMA foreign_keys = ON, on this connection *)
    let conn := Connection true in
    (* CREATE TABLE IF NOT EXISTS ...: the tables of [database] *)
    ret tt).

Definition register (e : Env) (payload : RegisterIn) : H TokenOut :=
  let salt := token_hex_8 e in
  let password_hash := _hash_password (reg_password payload) salt in
  let created_at := _now_iso e in
  token <- with_connect (fun conn =>
    user_id <- except_IntegrityError
      (execute (INSERT_INTO_users (reg_name payload)
                  (str_lower (reg_email payload)) password_hash created_at))
      (raise (HTTPException 400 "Email уже используется")) ;;
    let token := _create_token e user_id in
    execute (INSERT_INTO_sessions conn token user_id created_at) ;;;
    ret token) ;;
  ret {| token := token |}.

Definition login (e : Env) (payload : LoginIn) : H TokenOut :=
  token <- with_connect (fun conn =>
    user <- fetch (SELECT_user_by_email (str_lower (login_email payload))) ;;
    let invalid := HTTPException 400 "Неверный email или пароль" in
    match user with
    | None => raise invalid
    | Some user =>
        if negb (_verify_password (login_password payload)
                                  (Users.password_hash user))
        then raise invalid
        else
          let token := _create_token e (Users.id user) in
          execute (INSERT_INTO_sessions conn token (Users.id user)
                                        (_now_iso e)) ;;;
          ret token
    end) ;;
  ret {| token := token |}.

Definition me (user : Users.row) : H UserOut.t :=
  ret (UserOut.Make (Users.id user) (Users.name user) (Users.email user)
                    (Users.avatar_url user) (Users.created_at user)).

Definition update_avatar (e : Env) (file : UploadFile) (user : Users.row)
  : H UserOut.t :=
  url <- _save_upload e file
           ("user" ++ str_of_int (Users.id user) ++ "_avatar") ;;
  updated <- with_connect (fun conn =>
    execute (UPDATE_users_avatar url (Users.id user)) ;;;
    execute (INSERT_INTO_media "user" (Users.id user) url "image"
                               (_now_iso e)) ;;;
    fetch (SELECT_user_by_id (Users.id user))) ;;
  match updated with
  | None => raise TypeError     (* None["id"] *)
  | Some updated =>
      ret (UserOut.Make (Users.id updated) (Users.name updated)
                        (Users.email updated) (Users.avatar_url updated)
                        (Users.created_at updated))
  end.

Definition create_post (e : Env) (text : string) (image : option UploadFile)
    (user : Users.row) : H PostOut.t :=
  raise_if (negb (truthy (str_strip text)))
           (HTTPException 400 "Текст поста обязателен") ;;;
  image_url <- match image with
               | Some image =>
                   url <- _save_upload e image
                            ("post" ++ str_of_int (Users.id user)) ;;
                   ret (Some url)
               | None => ret None
               end ;;
  let created_at := _now_iso e in
  post_id <- with_connect (fun conn =>
    post_id <- execute (INSERT_INTO_posts conn (Users.id user)
                          (str_strip text) image_url created_at) ;;
    match image_url with
    | Some url =>
        if truthy url
        then execute (INSERT_INTO_media "post" post_id url "image"
                                        created_at) ;;; ret tt
        else ret tt
    | None => ret tt
    end ;;;
    ret post_id) ;;
  _get_post_out post_id.

Definition update_post (e : Env) (post_id : Z) (text : string)
    (image : option UploadFile) (remove_image : bool) (user : Users.row)
  : H PostOut.t :=
  raise_if (negb (truthy (str_strip text)))
           (HTTPException 400 "Текст поста обязателен") ;;;
  with_connect (fun conn =>
    post <- fetch (SELECT_post_by_id post_id) ;;
    match post with
    | None => raise (HTTPException 404 "Пост не найден")
    | Some post =>
        raise_if (negb (Posts.author_id post =? Users.id user))
                 (HTTPException 403 "Нет доступа") ;;;
        image_url <-
          match image with
          | Some image =>
              url <- _save_upload e image
                       ("post" ++ str_of_int (Users.id user)) ;;
              execute (INSERT_INTO_media "post" post_id url "image"
                                         (_now_iso e)) ;;;
              ret (Some url)
          | None =>
              if remove_image then ret None
              else ret (Posts.image_url post)
          end ;;
        execute (UPDATE_posts (str_strip text) image_url
                   (match image with
                    | Some _ => _now_iso_again e
                    | None => _now_iso e
                    end)
                   post_id)
    end) ;;;
  _get_post_out post_id.

Definition delete_post (post_id : Z) (user : Users.row)
  : H (list (string * string)) :=
  with_connect (fun conn =>
    post <- fetch (SELECT_post_by_id post_id) ;;
    match post with
    | None => raise (HTTPException 404 "Пост не найден")
    | Some post =>
        raise_if (negb (Posts.author_id post =? Users.id user))
                 (HTTPException 403 "Нет доступа") ;;;
        execute (DELETE_FROM_posts conn post_id)
    end) ;;;
  ret status_ok.

Definition post_out_of_view (row : post_view) : PostOut.t :=
  PostOut.Make
    (Posts.id (pv_post row))
    (Posts.author_id (pv_post row))
    (pv_author_name row)
    (pv_author_avatar_url row)
    (Posts.text (pv_post row))
    (Posts.image_url (pv_post row))
    (Posts.created_at (pv_post row))
    (Posts.updated_at (pv_post row))
    (pv_likes_count row)
    (pv_comments_count row)
    (negb (pv_liked_by_me row =? 0)).      (* bool(row["liked_by_me"]) *)

(** [limit] and [offset] are [None] when the query string does not give
    them, [request] when the handler is called without one. *)
Definition feed (limit offset : option Z) (request : option Request)
  : H (list PostOut.t) :=
  let limit := match limit with Some n => n | None => 20 end in
  let offset := match offset with Some n => n | None => 0 end in
  let limit := Z.max 1 (Z.min limit 50) in
  let offset := Z.max 0 offset in
  let token := match request with
               | Some request => bearer_token request
               | None => ""
               end in
  user <- (if truthy token then _get_user_by_token token else ret None) ;;
  rows <- with_connect (fun conn =>
    match user with
    | Some user => fetch (SELECT_feed_for (Users.id user) limit offset)
    | None => fetch (SELECT_feed_anonymous limit offset)
    end) ;;
  ret (map post_out_of_view rows).

Definition comment_out_of_view (row : comment_view) : CommentOut.t :=
  CommentOut.Make
    (Comments.id (cv_comment row))
    (Comments.post_id (cv_comment row))
    (Comments.author_id (cv_comment row))
    (cv_author_name row)
    (cv_author_avatar_url row)
    (Comments.text (cv_comment row))
    (Comments.created_at (cv_comment row)).

Definition get_post (post_id : Z) (request : Request) : H PostDetailOut.t :=
  post <- _get_post_out post_id ;;
  comments <- with_connect (fun conn => fetch (SELECT_comments_of post_id)) ;;
  let comment_list := map comment_out_of_view comments in
  let token := bearer_token request in
  liked_by_me <-
    (if truthy token
     then
       user <- _get_user_by_token token ;;
       match user with
       | Some user =>
           with_connect (fun conn =>
             fetch (fun d => has_like d post_id (Users.id user)))
       | None => ret false
       end
     else ret false) ;;
  ret (PostDetailOut.Make post comment_list liked_by_me).

Definition add_comment (e : Env) (post_id : Z) (payload : CommentIn)
    (user : Users.row) : H CommentOut.t :=
  raise_if (negb (truthy (str_strip (comment_text payload))))
           (HTTPException 400 "Текст комментария обязателен") ;;;
  let created_at := _now_iso e in
  comment_id <- with_connect (fun conn =>
    post <- fetch (SELECT_post_by_id post_id) ;;
    match post with
    | None => raise (HTTPException 404 "Пост не найден")
    | Some _ =>
        execute (INSERT_INTO_comments conn post_id (Users.id user)
                   (str_strip (comment_text payload)) created_at)
    end) ;;
  ret (CommentOut.Make comment_id post_id (Users.id user) (Users.name user)
         (Users.avatar_url user) (str_strip (comment_text payload))
         created_at).

Definition like_post (e : Env) (post_id : Z) (user : Users.row)
  : H (list (string * string)) :=
  with_connect (fun conn =>
    post <- fetch (SELECT_post_by_id post_id) ;;
    match post with
    | None => raise (HTTPException 404 "Пост не найден")
    | Some _ =>
        except_IntegrityError
          (execute (INSERT_INTO_likes conn post_id (Users.id user)
                                      (_now_iso e)))
          (raise (HTTPException 400 "Лайк уже поставлен"))
    end) ;;;
  ret status_ok.

Definition unlike_post (post_id : Z) (user : Users.row)
  : H (list (string * string)) :=
  with_connect (fun conn =>
    execute (DELETE_FROM_likes post_id (Users.id user))) ;;;
  ret status_ok.

(** [user: sqlite3.Row = Depends(_require_user)]: the framework resolves
    the caller before it runs the handler. *)
Definition Depends_require_user {A : Type} (request : Request)
    (handler : Users.row -> H A) : H A :=
  user <- _require_user request ;;
  handler user.

End Handlers.

(** *** Media *)

(** The file [UPLOAD_DIR / name], when the directory has one: what was last
    written under that name.  [name] is one path segment that names an entry
    of the directory. *)
Definition read_upload (name : string) (w : world) : option string :=
  option_map snd (find (fun f => (fst f =? name)%string) (upload_dir w)).

Definition get_media (filename : string) : H string :=
  fun w =>
    match read_upload filename w with
    | None => raise (HTTPException 404 "Файл не найден") w
    | Some contents => ret contents w          (* FileResponse(path) *)
    end.

(** ** An ASCII instance of the runtime

    Used to run the handlers on concrete requests.  The digest is a stand-in
    (the identity); [lower], [strip] and [suffix] are the Python functions
    restricted to ASCII text. *)

Definition ascii_lower_char (c : ascii) : ascii :=
  let n := nat_of_ascii c in
  if ((65 <=? n) && (n <=? 90))%nat then ascii_of_nat (n + 32) else c.

Fixpoint ascii_lower (s : string) : string :=
  match s with
  | EmptyString => EmptyString
  | String c s' => String (ascii_lower_char c) (ascii_lower s')
  end.

Definition is_space (c : ascii) : bool :=
  let n := nat_of_ascii c in
  ((n =? 32) || ((9 <=? n) && (n <=? 13)) || ((28 <=? n) && (n <=? 31)))%nat.

Fixpoint lstrip (s : string) : string :=
  match s with
  | EmptyString => EmptyString
  | String c s' => if is_space c then lstrip s' else s
  end.

Fixpoint rstrip (s : string) : string :=
  match s with
  | EmptyString => EmptyString
  | String c s' =>
      match rstrip s' with
      | EmptyString => if is_space c then EmptyString else String c EmptyString
      | r => String c r
      end
  end.

(** [s.strip()] for a string of ASCII characters. *)
Definition ascii_strip (s : string) : string := rstrip (lstrip s).

(** The text from the last dot of a file name that has one after its first
    character. *)
Fixpoint last_dot_suffix (s : string) : string :=
  match s with
  | EmptyString => EmptyString
  | String c s' =>
      match last_dot_suffix s' with
      | EmptyString => if Ascii.eqb c "."%char then s else EmptyString
      | r => r
      end
  end.

(** [Path(s).suffix] for a file name [s] without a path separator. *)
Definition ascii_suffix (s : string) : string :=
  match s with
  | EmptyString => EmptyString
  | String _ s' =>
      match last_dot_suffix s' with
      | String _ EmptyString => EmptyString
      | r => r
      end
  end.

Definition ascii_runtime : PyRuntime := {|
  sha256_hexdigest := fun s => s;
  str_lower := ascii_lower;
  str_strip := ascii_strip;
  path_suffix := ascii_suffix
|}.

(** * Vocabulary of the properties *)

Section Vocabulary.
Context {rt : PyRuntime}.

(** The row [register] inserts into [users]. *)
Definition registered_row (e : Env) (payload : RegisterIn) (d : database)
  : Users.row :=
  Users.Row
    (next_rowid (seq_users (sqlite_sequence d)) (map Users.id (users d)))
    (reg_name payload)
    (str_lower (reg_email payload))
    (_hash_password (reg_password payload) (token_hex_8 e))
    None
    (_now_iso e).

(** The URL [_save_upload] returns for a file it accepts. *)
Definition saved_url (e : Env) (file : UploadFile) (prefix : string)
  : string :=
  "/uploads/" ++ (prefix ++ "_" ++ token_hex_8 e
                  ++ str_lower (path_suffix (filename file))).

(** The image URL [update_post] writes: the three-way rule of the handler. *)
Definition next_image_url (e : Env) (image : option UploadFile)
    (remove_image : bool) (user : Users.row) (post : Posts.row)
  : option string :=
  match image with
  | Some file =>
      Some (saved_url e file ("post" ++ str_of_int (Users.id user)))
  | None => if remove_image then None else Posts.image_url post
  end.

(** The [_now_iso()] reading that becomes [updated_at]: the second one of
    the request when an image row was stamped before it. *)
Definition update_stamp (e : Env) (image : option UploadFile) : string :=
  match image with
  | Some _ => _now_iso_again e
  | None => _now_iso e
  end.

(** The row [UPDATE posts] leaves, from the row it found. *)
Definition updated_row (text : string) (image_url : option string)
    (stamp : string) (p : Posts.row) : Posts.row :=
  Posts.Row (Posts.id p) (Posts.author_id p) text image_url
            (Posts.created_at p) (Some stamp).

End Vocabulary.

(** The token [feed] reads from its optional request. *)
Definition viewer_token (request : option Request) : string :=
  match request with
  | Some request => bearer_token request
  | None => ""
  end.

(** The value [get_post] computes for [liked_by_me]. *)
Definition viewer_likes (post_id : Z) (request : Request) (d : database)
  : bool :=
  if truthy (bearer_token request)
  then match SELECT_user_by_token (bearer_token request) d with
       | Some user => has_like d post_id (Users.id user)
       | None => false
       end
  else false.

(** The view the join gives a post and its author. *)
Definition view_of_post (d : database) (p : Posts.row) (author : Users.row)
  : post_view :=
  {| pv_post := p;
     pv_author_name := Users.name author;
     pv_author_avatar_url := Users.avatar_url author;
     pv_likes_count := likes_count_of d (Posts.id p);
     pv_comments_count := comments_count_of d (Posts.id p);
     pv_liked_by_me := 0 |}.

(** ** Referential integrity of the store *)

(** What the handlers keep true of the database: user ids are unique (they
    are a primary key), and the author of every post and of every comment is
    a user (users are never deleted). *)
Definition db_ok (d : database) : Prop :=
  NoDup (map Users.id (users d))
  /\ (forall p, In p (posts d) -> has_user d (Posts.author_id p) = true)
  /\ (forall c, In c (comments d) -> has_user d (Comments.author_id c) = true).

(** [db_ok], and that the caller, when there is one, is still a user. *)
Definition db_ok_with (caller : option Z) (d : database) : Prop :=
  db_ok d
  /\ match caller with
     | Some uid => has_user d uid = true
     | None => True
     end.

(** A statement keeps [J] when the database it leaves satisfies [J]. *)
Definition keeps {A : Type} (J : database -> Prop) (stmt : statement A) : Prop :=
  forall d a d', J d -> stmt d = Some (a, d') -> J d'.

(** A computation preserves [J] when, started on a database that satisfies
    [J], it leaves one that does, whether it returns or raises. *)
Definition preserves {A : Type} (J : database -> Prop) (c : H A) : Prop :=
  forall w, J (db w) -> J (db (snd (c w))).

(** ** The service as a transition system *)

(** A request to one of the API routes, with what the handler reads from the
    operating system while it serves it. *)
Inductive api_call : Type :=
| POST_auth_register (e : Env) (payload : RegisterIn)
| POST_auth_login (e : Env) (payload : LoginIn)
| GET_users_me (request : Request)
| PUT_users_me_avatar (e : Env) (file : UploadFile) (request : Request)
| POST_posts (e : Env) (text : string) (image : option UploadFile)
             (request : Request)
| PUT_posts (e : Env) (post_id : Z) (text : string)
            (image : option UploadFile) (remove_image : bool)
            (request : Request)
| DELETE_posts (post_id : Z) (request : Request)
| GET_feed (limit offset : option Z) (request : option Request)
| GET_posts (post_id : Z) (request : Request)
| POST_posts_comments (e : Env) (post_id : Z) (payload : CommentIn)
                      (request : Request)
| POST_posts_like (e : Env) (post_id : Z) (request : Request)
| DELETE_posts_like (post_id : Z) (request : Request).

Section Service.
Context {rt : PyRuntime}.

(** The world after the service has answered a call. *)
Definition serve (call : api_call) (w : world) : world :=
  match call with
  | POST_auth_register e payload => snd (register e payload w)
  | POST_auth_login e payload => snd (login e payload w)
  | GET_users_me request => snd (Depends_require_user request me w)
  | PUT_users_me_avatar e file request =>
      snd (Depends_require_user request (update_avatar e file) w)
  | POST_posts e text image request =>
      snd (Depends_require_user request (create_post e text image) w)
  | PUT_posts e post_id text image remove_image request =>
      snd (Depends_require_user request
             (update_post e post_id text image remove_image) w)
  | DELETE_posts post_id request =>
      snd (Depends_require_user request (delete_post post_id) w)
  | GET_feed limit offset request => snd (feed limit offset request w)
  | GET_posts post_id request => snd (get_post post_id request w)
  | POST_posts_comments e post_id payload request =>
      snd (Depends_require_user request (add_comment e post_id payload) w)
  | POST_posts_like e post_id request =>
      snd (Depends_require_user request (like_post e post_id) w)
  | DELETE_posts_like post_id request =>
      snd (Depends_require_user request (unlike_post post_id) w)
  end.

(** The worlds the service can be in: it starts on the empty database that
    [init_db] creates and then answers calls. *)
Inductive reachable : world -> Prop :=
| reachable_init (files : list (string * string)) :
    reachable (snd (init_db (World empty_db files)))
| reachable_serve (call : api_call) (w : world) :
    reachable w -> reachable (serve call w).

End Service.

(** ** Characters of a string *)

(** [c in s] *)
Fixpoint has_char (c : ascii) (s : string) : bool :=
  match s with
  | EmptyString => false
  | String x s' => Ascii.eqb x c || has_char c s'
  end.

(** ** Keys and references of the store *)

(** The constraints of the schema beyond [db_ok], and what AUTOINCREMENT
    gives: e-mails, session tokens, post ids and (post, user) pairs of likes
    are unique; every session belongs to a user; no post, comment or like
    carries a post id above the largest one handed out. *)
Definition refs_ok (d : database) : Prop :=
  NoDup (map Users.email (users d))
  /\ NoDup (map Sessions.token (sessions d))
  /\ NoDup (map (fun l => (Likes.post_id l, Likes.user_id l)) (likes d))
  /\ NoDup (map Posts.id (posts d))
  /\ (forall s, In s (sessions d) -> has_user d (Sessions.user_id s) = true)
  /\ (forall p, In p (posts d) ->
        Posts.id p <= seq_posts (sqlite_sequence d))
  /\ (forall c, In c (comments d) ->
        Comments.post_id c <= seq_posts (sqlite_sequence d))
  /\ (forall l, In l (likes d) ->
        Likes.post_id l <= seq_posts (sqlite_sequence d)).

(** What no handler changes of a user row: everything but the avatar. *)
Definition user_identity (u : Users.row)
  : Z * string * string * string * string :=
  (Users.id u, Users.name u, Users.email u, Users.password_hash u,
   Users.created_at u).

(** Every statement the handlers issue keeps [J]. *)
Record statements_keep (J : database -> Prop) : Prop := {
  keep_INSERT_INTO_users :
    forall name email password_hash created_at,
      keeps J (INSERT_INTO_users name email password_hash created_at);
  keep_INSERT_INTO_sessions :
    forall conn token user_id created_at,
      keeps J (INSERT_INTO_sessions conn token user_id created_at);
  keep_INSERT_INTO_posts :
    forall conn author_id text image_url created_at,
      keeps J (INSERT_INTO_posts conn author_id text image_url created_at);
  keep_INSERT_INTO_media :
    forall owner_type owner_id url type created_at,
      keeps J (INSERT_INTO_media owner_type owner_id url type created_at);
  keep_INSERT_INTO_comments :
    forall conn post_id author_id text created_at,
      keeps J (INSERT_INTO_comments conn post_id author_id text created_at);
  keep_INSERT_INTO_likes :
    forall conn post_id user_id created_at,
      keeps J (INSERT_INTO_likes conn post_id user_id created_at);
  keep_UPDATE_users_avatar :
    forall url uid, keeps J (UPDATE_users_avatar url uid);
  keep_UPDATE_posts :
    forall text image_url updated_at pid,
      keeps J (UPDATE_posts text image_url updated_at pid);
  keep_DELETE_FROM_posts :
    forall conn pid, keeps J (DELETE_FROM_posts conn pid);
  keep_DELETE_FROM_likes :
    forall post_id user_id, keeps J (DELETE_FROM_likes post_id user_id)
}.

(** The exception of an answer, when it is one. *)
Definition error_of {A : Type} (r : exn + A) : option exn :=
  match r with
  | inl ex => Some ex
  | inr _ => None
  end.

Section Answers.
Context {rt : PyRuntime}.

(** The exception with which the service answers a call, when it does. *)
Definition call_error (call : api_call) (w : world) : option exn :=
  match call with
  | POST_auth_register e payload => error_of (fst (register e payload w))
  | POST_auth_login e payload => error_of (fst (login e payload w))
  | GET_users_me request =>
      error_of (fst (Depends_require_user request me w))
  | PUT_users_me_avatar e file request =>
      error_of (fst (Depends_require_user request (update_avatar e file) w))
  | POST_posts e text image request =>
      error_of (fst (Depends_require_user request
                       (create_post e text image) w))
  | PUT_posts e post_id text image remove_image request =>
      error_of (fst (Depends_require_user request
                       (update_post e post_id text image remove_image) w))
  | DELETE_posts post_id request =>
      error_of (fst (Depends_require_user request (delete_post post_id) w))
  | GET_feed limit offset request =>
      error_of (fst (feed limit offset request w))
  | GET_posts post_id request => error_of (fst (get_post post_id request w))
  | POST_posts_comments e post_id payload request =>
      error_of (fst (Depends_require_user request
                       (add_comment e post_id payload) w))
  | POST_posts_like e post_id request =>
      error_of (fst (Depends_require_user request (like_post e post_id) w))
  | DELETE_posts_like post_id request =>
      error_of (fst (Depends_require_user request (unlike_post post_id) w))
  end.

End Answers.

(** * A session of the service

    Alice and Bob register; Alice posts "hello" with a picture; Bob comments
    on the post and likes it.  The runtime is [ascii_runtime]. *)

Module Session.

Definition env (entropy clock : string) : Env :=
  {| APP_SECRET := None;
     token_hex_8 := "00" ++ entropy;
     token_hex_16 := entropy;
     time_time := 1700000000;
     utcnow_1 := clock;
     utcnow_2 := clock ++ ".500000" |}.

Definition bearer (tok : string) : Request :=
  {| Authorization := Some ("Bearer " ++ tok) |}.

Definition anonymous : Request := {| Authorization := None |}.

Definition alice_token : string := "1:aa:1700000000:dev-secret-change-me".
Definition bob_token : string := "2:bb:1700000000:dev-secret-change-me".

Definition alice : Users.row :=
  Users.Row 1 "Alice" "alice@example.com" "00aa$00aasecret1" None
            "2024-01-01T10:00:00Z".

Definition bob : Users.row :=
  Users.Row 2 "Bob" "bob@example.com" "00bb$00bbsecret2" None
            "2024-01-01T10:01:00Z".

Definition alice_signup : RegisterIn :=
  {| reg_name := "Alice"; reg_email := "Alice@Example.com";
     reg_password := "secret1" |}.

Definition bob_signup : RegisterIn :=
  {| reg_name := "Bob"; reg_email := "bob@example.com";
     reg_password := "secret2" |}.

Definition picture : UploadFile :=
  {| filename := "cat.PNG"; file_read := "bytes" |}.

Definition calls : list api_call :=
  [ POST_auth_register (env "aa" "2024-01-01T10:00:00") alice_signup;
    POST_auth_register (env "bb" "2024-01-01T10:01:00") bob_signup;
    POST_posts (env "cc" "2024-01-01T10:02:00") " hello " (Some picture)
      (bearer alice_token);
    POST_posts_comments (env "dd" "2024-01-01T10:03:00") 1
      {| comment_text := "nice" |} (bearer bob_token);
    POST_posts_like (env "ee" "2024-01-01T10:04:00") 1 (bearer bob_token) ].

Definition start : world := snd (init_db (World empty_db [])).

(** The world after the calls, in order. *)
Definition after (cs : list api_call) : world :=
  fold_left (fun w c => serve (rt := ascii_runtime) c w) cs start.

Definition now : world := after calls.

(** The post Alice created, as stored. *)
Definition hello : Posts.row :=
  Posts.Row 1 1 "hello" (Some "/uploads/post1_00cc.png")
            "2024-01-01T10:02:00Z" None.

(** The media row of its picture. *)
Definition hello_picture : Media.row :=
  Media.Row 1 "post" 1 "/uploads/post1_00cc.png" "image"
            "2024-01-01T10:02:00Z".

End Session.

(** * Further requests on the session *)

Module Requests.

Definition env : Env := Session.env "xx" "2024-01-01T11:00:00".

Definition as_alice : Request := Session.bearer Session.alice_token.
Definition as_bob : Request := Session.bearer Session.bob_token.

(** Alice logs in again. *)
Definition alice_credentials : LoginIn :=
  {| login_email := "ALICE@example.com"; login_password := "secret1" |}.

Definition alice_logs_in : (exn + TokenOut) * world :=
  login (rt := ascii_runtime) env alice_credentials Session.now.

(** The world after Alice's registration alone. *)
Definition alice_registered : world := Session.after (firstn 1 Session.calls).

(** Bob posts a text without a picture. *)
Definition bob_posts : (exn + PostOut.t) * world :=
  create_post (rt := ascii_runtime) env " hi " None Session.bob Session.now.

(** Alice comments on her own post. *)
Definition alice_comments : (exn + CommentOut.t) * world :=
  add_comment (rt := ascii_runtime) env 1 {| comment_text := " thanks " |}
    Session.alice Session.now.

(** Alice changes the text of her post and keeps the picture. *)
Definition alice_edits : (exn + PostOut.t) * world :=
  update_post (rt := ascii_runtime) env 1 "hello again" None false
    Session.alice Session.now.

(** Bob uploads an avatar. *)
Definition portrait : UploadFile :=
  {| filename := "bob.JPG"; file_read := "pixels" |}.

Definition bob_sets_avatar : (exn + UserOut.t) * world :=
  update_avatar (rt := ascii_runtime) env portrait Session.bob Session.now.

(** A text file is offered as an image. *)
Definition notes : UploadFile :=
  {| filename := "notes.txt"; file_read := "text" |}.

Definition notes_upload : (exn + string) * world :=
  _save_upload (rt := ascii_runtime) env notes "post2" Session.now.

Definition portrait_upload : (exn + string) * world :=
  _save_upload (rt := ascii_runtime) env portrait "post2" Session.now.

(** Bob likes the post a second time. *)
Definition bob_likes_again : api_call :=
  POST_posts_like env 1 as_bob.

End Requests.

(** * Requests around noon

    Alice registers, publishes two posts three tenths of a second apart,
    the first of them on the stroke of noon, and then comments twice on the
    first post, again three tenths of a second apart and the first time on
    a full second. *)

Module Noon.

Definition clock (h m s us : Z) : Datetime.t := Datetime.Make 2024 1 1 h m s us.

Definition env (entropy : string) (t : Datetime.t) : Env :=
  {| APP_SECRET := None;
     token_hex_8 := "00" ++ entropy;
     token_hex_16 := entropy;
     time_time := 1700000000;
     utcnow_1 := Datetime.isoformat t;
     utcnow_2 := Datetime.isoformat t |}.

Definition registration : Datetime.t := clock 11 59 59 250000.
Definition older_post : Datetime.t := clock 12 0 0 0.
Definition newer_post : Datetime.t := clock 12 0 0 300000.
Definition first_comment : Datetime.t := clock 12 1 0 0.
Definition second_comment : Datetime.t := clock 12 1 0 300000.

Definition as_alice : Request := Session.bearer Session.alice_token.

Definition calls : list api_call :=
  [ POST_auth_register (env "aa" registration) Session.alice_signup;
    POST_posts (env "bb" older_post) "older" None as_alice;
    POST_posts (env "cc" newer_post) "newer" None as_alice;
    POST_posts_comments (env "dd" first_comment) 1
      {| comment_text := "first" |} as_alice;
    POST_posts_comments (env "ee" second_comment) 1
      {| comment_text := "second" |} as_alice ].

Definition now : world := Session.after calls.

End Noon.

(** * Properties *)

Unset Implicit Arguments.

(** ** Running the monad *)

Ltac run_H :=
  unfold with_connect, bind, except_IntegrityError, execute, fetch, ret,
    raise, raise_if in *;
  cbn [fst snd db upload_dir] in *.

Lemma world_eta (w : world) : World (db w) (upload_dir w) = w.
Proof. destruct w; reflexivity. Qed.

Lemma bind_inr {A B : Type} (c : H A) (k : A -> H B) (w w' : world) (b : B) :
  bind c k w = (inr b, w') ->
  exists a w1, c w = (inr a, w1) /\ k a w1 = (inr b, w').
Proof.
  unfold bind. destruct (c w) as [[e|a] w1]; [discriminate|]. eauto.
Qed.

Lemma with_connect_inr {A : Type} (body : connection -> H A) (w w' : world)
    (a : A) :
  with_connect body w = (inr a, w') -> body connect w = (inr a, w').
Proof.
  unfold with_connect. destruct (body connect w) as [[e|a'] w1];
    [discriminate | trivial].
Qed.

Lemma ret_inr {A : Type} (a b : A) (w w' : world) :
  ret a w = (inr b, w') -> b = a /\ w' = w.
Proof. unfold ret. intros Heq. inversion Heq. auto. Qed.

Lemma raise_if_inr (cond : bool) (e : exn) (w w' : world) (u : unit) :
  raise_if cond e w = (inr u, w') -> cond = false /\ w' = w.
Proof.
  unfold raise_if, raise, ret. destruct cond; intros Heq; inversion Heq. auto.
Qed.

Lemma fetch_inr {A : Type} (q : database -> A) (w w' : world) (a : A) :
  fetch q w = (inr a, w') -> a = q (db w) /\ w' = w.
Proof. unfold fetch. intros Heq. inversion Heq. auto. Qed.

Lemma execute_inr {A : Type} (stmt : statement A) (w w' : world) (a : A) :
  execute stmt w = (inr a, w') ->
  stmt (db w) = Some (a, db w') /\ upload_dir w' = upload_dir w.
Proof.
  unfold execute. destruct (stmt (db w)) as [[a' d']|]; [|discriminate].
  intros Heq. inversion Heq. subst. auto.
Qed.

Lemma except_IntegrityError_inr {A : Type} (c : H A) (e : exn) (w w' : world)
    (a : A) :
  except_IntegrityError c (raise e) w = (inr a, w') -> c w = (inr a, w').
Proof.
  unfold except_IntegrityError, raise.
  destruct (c w) as [[[s m| |]|a'] w1]; intros Heq; inversion Heq; reflexivity.
Qed.

Lemma truthy_false_iff (s : string) : truthy s = false <-> s = "".
Proof.
  unfold truthy. destruct (String.eqb_spec s ""); cbn; split; congruence.
Qed.

Lemma existsb_find_none {A : Type} (f : A -> bool) (l : list A) :
  existsb f l = false <-> find f l = None.
Proof.
  induction l as [|x l IH]; cbn; [tauto|].
  destruct (f x); cbn; [split; discriminate | exact IH].
Qed.

Lemma find_map_preserving {A : Type} (f : A -> bool) (g : A -> A) (l : list A) :
  (forall a, f (g a) = f a) ->
  find f (map g l) = option_map g (find f l).
Proof.
  intros Hfg. induction l as [|x l IH]; cbn; [reflexivity|].
  rewrite Hfg. destruct (f x); [reflexivity | exact IH].
Qed.

(** ** Registration and login *)

Section Auth.
Context {rt : PyRuntime}.

Lemma next_rowid_fresh (seq : Z) (ids : list Z) (i : Z) :
  In i ids -> i < next_rowid seq ids.
Proof.
  unfold next_rowid. induction ids as [|j ids IH]; cbn; [tauto|].
  intros [-> | Hin]; [lia|]. specialize (IH Hin). lia.
Qed.

Lemma filter_none {A : Type} (f : A -> bool) (l : list A) :
  (forall a, In a l -> f a = false) -> filter f l = [].
Proof.
  induction l as [|x l IH]; cbn; intros Hf; [reflexivity|].
  rewrite (Hf x (or_introl eq_refl)). apply IH. intros a Ha. apply Hf. now right.
Qed.

Lemma existsb_false_forall {A : Type} (f : A -> bool) (l : list A) :
  existsb f l = false -> forall a, In a l -> f a = false.
Proof.
  intros Hex a Ha. destruct (f a) eqn:Hfa; [|reflexivity].
  assert (existsb f l = true) by (apply existsb_exists; eauto). congruence.
Qed.

(** What a successful [register] did. *)
Lemma register_inversion (e : Env) (payload : RegisterIn) (w w' : world)
    (out : TokenOut) :
  register e payload w = (inr out, w') ->
  let d := db w in
  let u := registered_row e payload d in
  token out = _create_token e (Users.id u)
  /\ existsb (fun x => Users.email x =? Users.email u)%string (users d) = false
  /\ existsb (fun s => Sessions.token s =? token out)%string (sessions d) = false
  /\ users (db w') = (users d ++ [u])%list
  /\ sessions (db w')
     = (sessions d ++ [Sessions.Row (token out) (Users.id u) (_now_iso e)])%list
  /\ posts (db w') = posts d /\ comments (db w') = comments d
  /\ likes (db w') = likes d /\ media (db w') = media d
  /\ upload_dir w' = upload_dir w.
Proof.
  unfold register, INSERT_INTO_users, INSERT_INTO_sessions, registered_row.
  run_H.
  destruct (existsb _ (users (db w))) eqn:Hemail; [discriminate|].
  cbn [sessions users fst snd db upload_dir].
  destruct (existsb _ (sessions (db w))) eqn:Htok; [discriminate|].
  cbn. intros Heq. inversion Heq; subst; clear Heq. cbn.
  repeat split; assumption.
Qed.

(** C2.  When [register] succeeds, the token it returns resolves through
    [_get_user_by_token] to the user row that this registration inserted. *)
Theorem register_token_resolves (e : Env) (payload : RegisterIn)
    (w w' : world) (out : TokenOut) :
  register e payload w = (inr out, w') ->
  _get_user_by_token (token out) w'
    = (inr (Some (registered_row e payload (db w))), w')
  /\ In (registered_row e payload (db w)) (users (db w'))
  /\ ~ In (Users.id (registered_row e payload (db w)))
          (map Users.id (users (db w))).
Proof.
  intros Hreg. apply register_inversion in Hreg. cbv zeta in Hreg.
  destruct Hreg as (Htok & _ & Hfresh & Hus & Hss & _).
  assert (Hnew : ~ In (Users.id (registered_row e payload (db w)))
                      (map Users.id (users (db w)))).
  { intros Hin. apply (next_rowid_fresh (seq_users (sqlite_sequence (db w))))
      in Hin. cbn in Hin. lia. }
  split; [|split; [rewrite Hus; apply in_or_app; right; now left | exact Hnew]].
  unfold _get_user_by_token, SELECT_user_by_token. run_H.
  f_equal. f_equal.
  rewrite Hus, Hss, filter_app. cbn [filter Sessions.token Sessions.user_id].
  rewrite (filter_none _ (sessions (db w)) (existsb_false_forall _ _ Hfresh)).
  rewrite String.eqb_refl. cbn [app flat_map Sessions.user_id].
  rewrite filter_app, app_nil_r. cbn [filter].
  rewrite Z.eqb_refl.
  rewrite filter_none; [reflexivity|].
  intros a Ha. apply Z.eqb_neq. intros Heq. apply Hnew.
  rewrite <- Heq. now apply in_map.
Qed.

(** C5.  When a user row already holds the normalized e-mail of the
    payload, [register] answers 400 "Email уже используется"
    ([DuplicateEmail]) whatever the name and the password, and leaves the
    world, hence the [users] table, as it was. *)
Theorem register_duplicate_email (e : Env) (payload : RegisterIn)
    (w : world) (u : Users.row) :
  In u (users (db w)) ->
  Users.email u = str_lower (reg_email payload) ->
  register e payload w
    = (inl (HTTPException 400 "Email уже используется"), w).
Proof.
  intros Hin Hemail.
  unfold register, INSERT_INTO_users. run_H.
  assert (Hex : existsb
                  (fun x => (Users.email x =? str_lower (reg_email payload))%string)
                  (users (db w)) = true).
  { apply existsb_exists. exists u. split; [exact Hin|].
    rewrite Hemail. apply String.eqb_refl. }
  rewrite Hex. cbn. now rewrite world_eta.
Qed.

(** C8.  A login with an e-mail that matches no user and a login with a
    known e-mail but a wrong password raise the same exception, 400
    "Неверный email или пароль", and both leave the world as it was. *)
Theorem login_failures_indistinguishable (e1 e2 : Env) (p1 p2 : LoginIn)
    (w : world) (u : Users.row) :
  SELECT_user_by_email (str_lower (login_email p1)) (db w) = None ->
  SELECT_user_by_email (str_lower (login_email p2)) (db w) = Some u ->
  _verify_password (login_password p2) (Users.password_hash u) = false ->
  login e1 p1 w = (inl (HTTPException 400 "Неверный email или пароль"), w)
  /\ login e2 p2 w = login e1 p1 w.
Proof.
  intros Hnone Hsome Hbad.
  unfold login. run_H. rewrite Hnone, Hsome, Hbad. cbn.
  rewrite world_eta. split; reflexivity.
Qed.

End Auth.

(** ** Likes *)

Section LikesProps.

Lemma like_post_first (e : Env) (post_id : Z) (user : Users.row) (w : world)
    (p : Posts.row) :
  SELECT_post_by_id post_id (db w) = Some p ->
  has_like (db w) post_id (Users.id user) = false ->
  exists w1,
    like_post e post_id user w = (inr status_ok, w1)
    /\ posts (db w1) = posts (db w)
    /\ likes (db w1)
       = (likes (db w)
          ++ [Likes.Row (next_rowid (seq_likes (sqlite_sequence (db w)))
                                   (map Likes.id (likes (db w))))
                        post_id (Users.id user) (_now_iso e)])%list.
Proof.
  intros Hpost Hlike.
  unfold like_post, INSERT_INTO_likes. run_H.
  rewrite Hpost, Hlike. cbn. eexists. split; [reflexivity|]. cbn. auto.
Qed.




End LikesProps.

(** ** Editing and deleting posts *)

Section PostsProps.
Context {rt : PyRuntime}.

(** C10.  In [update_post] the check of the text comes first: a text that
    is empty after [strip] is answered 400 "Текст поста обязателен"
    ([ValidationError]) for every post id and every user, whether or not
    the post exists or belongs to the user, and the world is unchanged. *)
Theorem update_post_blank_text_first (e : Env) (post_id : Z) (text : string)
    (image : option UploadFile) (remove_image : bool) (user : Users.row)
    (w : world) :
  str_strip text = "" ->
  update_post e post_id text image remove_image user w
    = (inl (HTTPException 400 "Текст поста обязателен"), w).
Proof.
  intros Hblank. unfold update_post. run_H. rewrite Hblank. reflexivity.
Qed.

Lemma delete_post_not_found (post_id : Z) (user : Users.row) (w : world) :
  SELECT_post_by_id post_id (db w) = None ->
  delete_post post_id user w = (inl (HTTPException 404 "Пост не найден"), w).
Proof.
  intros Hnone. unfold delete_post. run_H. rewrite Hnone.
  now rewrite world_eta.
Qed.

Lemma delete_post_forbidden (post_id : Z) (user : Users.row) (w : world)
    (p : Posts.row) :
  SELECT_post_by_id post_id (db w) = Some p ->
  Posts.author_id p <> Users.id user ->
  delete_post post_id user w = (inl (HTTPException 403 "Нет доступа"), w).
Proof.
  intros Hsome Hne. unfold delete_post. run_H. rewrite Hsome.
  apply Z.eqb_neq in Hne. rewrite Hne. cbn. now rewrite world_eta.
Qed.

Lemma delete_post_by_author (post_id : Z) (user : Users.row) (w : world)
    (p : Posts.row) :
  SELECT_post_by_id post_id (db w) = Some p ->
  Posts.author_id p = Users.id user ->
  delete_post post_id user w
  = (inr status_ok,
     World (Database (users (db w))
              (filter (fun q => negb (Posts.id q =? post_id)) (posts (db w)))
              (comments (db w)) (likes (db w)) (media (db w))
              (sessions (db w)) (sqlite_sequence (db w)))
           (upload_dir w)).
Proof.
  intros Hsome Heq. unfold delete_post, DELETE_FROM_posts. run_H.
  rewrite Hsome. apply Z.eqb_eq in Heq. rewrite Heq. reflexivity.
Qed.

Lemma update_post_not_found (e : Env) (post_id : Z) (text : string)
    (image : option UploadFile) (remove_image : bool) (user : Users.row)
    (w : world) :
  truthy (str_strip text) = true ->
  SELECT_post_by_id post_id (db w) = None ->
  update_post e post_id text image remove_image user w
    = (inl (HTTPException 404 "Пост не найден"), w).
Proof.
  intros Htext Hnone. unfold update_post. run_H. rewrite Htext. cbn.
  rewrite Hnone. now rewrite world_eta.
Qed.

Lemma update_post_forbidden (e : Env) (post_id : Z) (text : string)
    (image : option UploadFile) (remove_image : bool) (user : Users.row)
    (w : world) (p : Posts.row) :
  truthy (str_strip text) = true ->
  SELECT_post_by_id post_id (db w) = Some p ->
  Posts.author_id p <> Users.id user ->
  update_post e post_id text image remove_image user w
    = (inl (HTTPException 403 "Нет доступа"), w).
Proof.
  intros Htext Hsome Hne. unfold update_post. run_H.
  rewrite Htext. cbn. rewrite Hsome. apply Z.eqb_neq in Hne. rewrite Hne.
  cbn. now rewrite world_eta.
Qed.

Lemma delete_post_success_author (post_id : Z) (user : Users.row)
    (w w' : world) (r : list (string * string)) :
  delete_post post_id user w = (inr r, w') ->
  exists p, SELECT_post_by_id post_id (db w) = Some p
            /\ Posts.author_id p = Users.id user.
Proof.
  unfold delete_post. run_H.
  destruct (SELECT_post_by_id post_id (db w)) as [p|]; [|discriminate].
  destruct (Posts.author_id p =? Users.id user) eqn:Heq; [|discriminate].
  intros _. exists p. split; [reflexivity | now apply Z.eqb_eq].
Qed.

End PostsProps.

Section UpdatePost.
Context {rt : PyRuntime}.

Lemma _save_upload_inversion (e : Env) (file : UploadFile) (prefix : string)
    (w w' : world) (r : exn + string) :
  _save_upload e file prefix w = (r, w') ->
  db w' = db w
  /\ match r with
     | inr url => url = saved_url e file prefix
     | inl _ => upload_dir w' = upload_dir w
     end.
Proof.
  unfold _save_upload, write_bytes, saved_url. run_H.
  repeat match goal with
         | |- context [if negb ?b then _ else _] => destruct b; cbn
         end;
    intros Heq; inversion Heq; subst; auto.
Qed.

Lemma _get_post_out_world (post_id : Z) (w w' : world)
    (r : exn + PostOut.t) :
  _get_post_out post_id w = (r, w') -> w' = w.
Proof.
  unfold _get_post_out. run_H.
  destruct (SELECT_post_view post_id (db w)); intros Heq; inversion Heq;
    reflexivity.
Qed.

Lemma update_post_inversion (e : Env) (post_id : Z) (text : string)
    (image : option UploadFile) (remove_image : bool) (user : Users.row)
    (w w' : world) (out : PostOut.t) :
  update_post e post_id text image remove_image user w = (inr out, w') ->
  truthy (str_strip text) = true
  /\ exists p,
      SELECT_post_by_id post_id (db w) = Some p
      /\ Posts.author_id p = Users.id user
      /\ posts (db w')
         = map (fun q => if Posts.id q =? post_id
                         then updated_row (str_strip text)
                                (next_image_url e image remove_image user p)
                                (update_stamp e image) q
                         else q)
               (posts (db w))
      /\ users (db w') = users (db w)
      /\ comments (db w') = comments (db w)
      /\ likes (db w') = likes (db w)
      /\ sessions (db w') = sessions (db w)
      /\ _get_post_out post_id w' = (inr out, w').
Proof.
  unfold update_post. intros Hrun.
  apply bind_inr in Hrun as (? & w1 & Htext & Hrun).
  apply raise_if_inr in Htext as [Htext ->].
  apply negb_false_iff in Htext. split; [exact Htext|].
  apply bind_inr in Hrun as (? & w2 & Htx & Hout).
  pose proof (_get_post_out_world _ _ _ _ Hout) as ->.
  apply with_connect_inr in Htx.
  apply bind_inr in Htx as (post & w3 & Hsel & Htx).
  apply fetch_inr in Hsel as [-> ->].
  destruct (SELECT_post_by_id post_id (db w)) as [p|]; [|discriminate].
  exists p. split; [reflexivity|].
  apply bind_inr in Htx as (? & w4 & Hauth & Htx).
  apply raise_if_inr in Hauth as [Hauth ->].
  apply negb_false_iff, Z.eqb_eq in Hauth. split; [exact Hauth|].
  apply bind_inr in Htx as (image_url & w5 & Himg & Hupd).
  apply execute_inr in Hupd as [Hupd Hfiles].
  unfold UPDATE_posts in Hupd. injection Hupd as _ Hdb.
  assert (Himage : image_url = next_image_url e image remove_image user p
                   /\ users (db w5) = users (db w)
                   /\ posts (db w5) = posts (db w)
                   /\ comments (db w5) = comments (db w)
                   /\ likes (db w5) = likes (db w)
                   /\ sessions (db w5) = sessions (db w)).
  { destruct image as [file|]; cbn [next_image_url].
    - apply bind_inr in Himg as (url & w6 & Hsave & Himg).
      apply _save_upload_inversion in Hsave as [Hdb6 ->].
      apply bind_inr in Himg as (? & w7 & Hmedia & Hret).
      apply execute_inr in Hmedia as [Hmedia _].
      unfold INSERT_INTO_media in Hmedia. injection Hmedia as _ Hdb7.
      apply ret_inr in Hret as [-> ->].
      rewrite <- Hdb7, Hdb6. cbn. repeat split; reflexivity.
    - destruct remove_image; apply ret_inr in Himg as [-> ->];
        repeat split; reflexivity. }
  destruct Himage as (-> & Hu & Hp & Hc & Hl & Hs).
  rewrite <- Hdb. cbn [users posts comments likes sessions].
  rewrite Hu, Hp, Hc, Hl, Hs.
  repeat split; try reflexivity. exact Hout.
Qed.

End UpdatePost.

(** ** The joined post view *)

Lemma posts_join_users_In (liked : Posts.row -> Z) (d : database)
    (ps : list Posts.row) (v : post_view) :
  In v (posts_join_users liked d ps) ->
  In (pv_post v) ps
  /\ pv_likes_count v = likes_count_of d (Posts.id (pv_post v))
  /\ pv_comments_count v = comments_count_of d (Posts.id (pv_post v))
  /\ pv_liked_by_me v = liked (pv_post v)
  /\ exists u, In u (users d)
               /\ Users.id u = Posts.author_id (pv_post v)
               /\ pv_author_name v = Users.name u
               /\ pv_author_avatar_url v = Users.avatar_url u.
Proof.
  unfold posts_join_users. intros Hin.
  apply in_flat_map in Hin. destruct Hin as (p & Hp & Hin).
  apply in_map_iff in Hin. destruct Hin as (u & <- & Hu).
  apply filter_In in Hu. destruct Hu as [Hu Hid]. apply Z.eqb_eq in Hid.
  cbn. repeat split; try assumption. exists u. auto.
Qed.

Lemma hd_error_In {A : Type} (l : list A) (a : A) :
  hd_error l = Some a -> In a l.
Proof. destruct l; cbn; [discriminate|]. intros [= ->]. now left. Qed.

Section UpdatePostRule.
Context {rt : PyRuntime}.

(** C7.  After a successful [update_post] the stored post carries: the URL
    of the newly saved file when an image came with the request; no URL
    when none came and [remove_image] is set; the URL it had otherwise.
    In all three cases [updated_at] holds the [_now_iso()] reading of the
    update, and the returned view shows the same URL and stamp. *)
Theorem update_post_image_rule (e : Env) (post_id : Z) (text : string)
    (image : option UploadFile) (remove_image : bool) (user : Users.row)
    (w w' : world) (out : PostOut.t) :
  update_post e post_id text image remove_image user w = (inr out, w') ->
  exists p p',
    SELECT_post_by_id post_id (db w) = Some p
    /\ Posts.author_id p = Users.id user
    /\ SELECT_post_by_id post_id (db w') = Some p'
    /\ Posts.image_url p'
       = match image with
         | Some file =>
             Some (saved_url e file ("post" ++ str_of_int (Users.id user)))
         | None => if remove_image then None else Posts.image_url p
         end
    /\ Posts.updated_at p'
       = Some (match image with
               | Some _ => _now_iso_again e
               | None => _now_iso e
               end)
    /\ PostOut.image_url out = Posts.image_url p'
    /\ PostOut.updated_at out = Posts.updated_at p'.
Proof.
  intros Hrun. apply update_post_inversion in Hrun.
  destruct Hrun as (_ & p & Hsel & Hauth & Hposts & _ & _ & _ & _ & Hout).
  set (upd := fun q : Posts.row =>
                if Posts.id q =? post_id
                then updated_row (str_strip text)
                       (next_image_url e image remove_image user p)
                       (update_stamp e image) q
                else q) in Hposts.
  assert (Hid : forall q, (Posts.id (upd q) =? post_id) = (Posts.id q =? post_id)).
  { intros q. unfold upd. destruct (Posts.id q =? post_id) eqn:Hq;
      [exact Hq | exact Hq]. }
  assert (Hall : forall q, In q (posts (db w')) -> Posts.id q = post_id ->
                   Posts.image_url q = next_image_url e image remove_image user p
                   /\ Posts.updated_at q = Some (update_stamp e image)).
  { intros q Hq Hqid. rewrite Hposts in Hq. apply in_map_iff in Hq.
    destruct Hq as (q0 & <- & _).
    apply Z.eqb_eq in Hqid. rewrite Hid in Hqid. unfold upd. rewrite Hqid.
    split; reflexivity. }
  exists p, (upd p). split; [exact Hsel|]. split; [exact Hauth|].
  assert (Hsel' : SELECT_post_by_id post_id (db w') = Some (upd p)).
  { unfold SELECT_post_by_id in *. rewrite Hposts.
    rewrite (find_map_preserving _ upd _ Hid), Hsel. reflexivity. }
  split; [exact Hsel'|].
  apply find_some in Hsel. destruct Hsel as [_ Hpid].
  assert (Hupd : upd p = updated_row (str_strip text)
                           (next_image_url e image remove_image user p)
                           (update_stamp e image) p).
  { unfold upd. now rewrite Hpid. }
  rewrite Hupd. cbn [updated_row Posts.image_url Posts.updated_at].
  split; [reflexivity|]. split; [reflexivity|].
  unfold _get_post_out in Hout. run_H.
  destruct (SELECT_post_view post_id (db w')) as [v|] eqn:Hv; [|discriminate].
  injection Hout as <-. cbn [PostOut.image_url PostOut.updated_at].
  unfold SELECT_post_view in Hv. apply hd_error_In in Hv.
  apply posts_join_users_In in Hv. destruct Hv as (Hv & _).
  apply filter_In in Hv. destruct Hv as [Hv Hvid]. apply Z.eqb_eq in Hvid.
  destruct (Hall _ Hv Hvid) as [-> ->]. split; reflexivity.
Qed.

(** C6, for the requests that pass the text check and carry a post id that
    SQLite can bind.  [delete_post], and [update_post] with a text that is
    not empty after [strip], answer 404 "Пост не найден" when no post has
    the id and 403 "Нет доступа" when the post's [author_id] is not the
    caller's id, leaving the world as it was; and whenever either of them
    succeeds, the caller is the author. *)
Theorem update_delete_author_only (e : Env) (post_id : Z) (text : string)
    (image : option UploadFile) (remove_image : bool) (user : Users.row)
    (w : world) :
  sqlite_int post_id = true ->
  truthy (str_strip text) = true ->
  (SELECT_post_by_id post_id (db w) = None ->
     update_post e post_id text image remove_image user w
       = (inl (HTTPException 404 "Пост не найден"), w)
     /\ delete_post post_id user w
        = (inl (HTTPException 404 "Пост не найден"), w))
  /\ (forall p, SELECT_post_by_id post_id (db w) = Some p ->
        Posts.author_id p <> Users.id user ->
        update_post e post_id text image remove_image user w
          = (inl (HTTPException 403 "Нет доступа"), w)
        /\ delete_post post_id user w
           = (inl (HTTPException 403 "Нет доступа"), w))
  /\ (forall out w',
        update_post e post_id text image remove_image user w = (inr out, w') ->
        exists p, SELECT_post_by_id post_id (db w) = Some p
                  /\ Posts.author_id p = Users.id user)
  /\ (forall r w',
        delete_post post_id user w = (inr r, w') ->
        exists p, SELECT_post_by_id post_id (db w) = Some p
                  /\ Posts.author_id p = Users.id user).
Proof.
  intros _ Htext. repeat split.
  - now apply update_post_not_found.
  - now apply delete_post_not_found.
  - now apply update_post_forbidden with (p := p).
  - now apply delete_post_forbidden with (p := p).
  - intros out w' Hrun. apply update_post_inversion in Hrun.
    destruct Hrun as (_ & p & Hsel & Hauth & _). eauto.
  - intros r w' Hrun. eapply delete_post_success_author; eauto.
Qed.

(** C1, as the schema and the handler have it.  When the caller is the
    author of an existing post, [delete_post] answers [{"status": "ok"}],
    no post row with that id is left, so [get_post] answers 404 for it,
    and the [media] table, which has no foreign key, is exactly as before,
    as are [users] and [sessions]. *)
Theorem delete_post_removes_post_keeps_media (post_id : Z) (user : Users.row)
    (w : world) (p : Posts.row) :
  SELECT_post_by_id post_id (db w) = Some p ->
  Posts.author_id p = Users.id user ->
  exists w',
    delete_post post_id user w = (inr status_ok, w')
    /\ SELECT_post_by_id post_id (db w') = None
    /\ (forall request,
           get_post post_id request w'
           = (inl (HTTPException 404 "Пост не найден"), w'))
    /\ (forall q, In q (posts (db w')) <->
                  In q (posts (db w)) /\ Posts.id q <> post_id)
    /\ media (db w') = media (db w)
    /\ users (db w') = users (db w)
    /\ sessions (db w') = sessions (db w).
Proof.
  intros Hsel Hauth.
  rewrite (delete_post_by_author post_id user w p Hsel Hauth).
  eexists. split; [reflexivity|]. cbn [db posts media users sessions].
  assert (Hnone : find (fun q => Posts.id q =? post_id)
                    (filter (fun q => negb (Posts.id q =? post_id))
                            (posts (db w))) = None).
  { apply existsb_find_none. apply not_true_is_false. intros Hex.
    apply existsb_exists in Hex. destruct Hex as (q & Hq & Hqid).
    apply filter_In in Hq. destruct Hq as [_ Hkeep].
    rewrite Hqid in Hkeep. discriminate. }
  split; [exact Hnone|]. split.
  - intros request. unfold get_post, _get_post_out, SELECT_post_view. run_H.
    cbn [posts].
    rewrite (filter_none (fun q => Posts.id q =? post_id)
               (filter (fun q => negb (Posts.id q =? post_id)) (posts (db w))));
      [reflexivity|].
    intros q Hq. apply filter_In in Hq. destruct Hq as [_ Hkeep].
    now apply negb_true_iff in Hkeep.
  - split; [|repeat split; reflexivity].
    intros q. rewrite filter_In, negb_true_iff, Z.eqb_neq. reflexivity.
Qed.

End UpdatePostRule.

(** ** Ordering and paging *)

Section OrderingProps.
Variable A : Type.
Variable before : A -> A -> bool.
Hypothesis before_total : forall a b, before a b = true \/ before b a = true.

Let R (a b : A) : Prop := before a b = true.

Lemma insert_in_order_perm (x : A) (l : list A) :
  Permutation (x :: l) (insert_in_order before x l).
Proof.
  induction l as [|y l IH]; cbn; [reflexivity|].
  destruct (before x y); [reflexivity|].
  rewrite perm_swap. now constructor.
Qed.

Lemma order_by_perm (l : list A) : Permutation l (order_by before l).
Proof.
  induction l as [|x l IH]; cbn; [constructor|].
  rewrite <- insert_in_order_perm. now constructor.
Qed.

Lemma insert_in_order_hd (z x : A) (l : list A) :
  R z x -> HdRel R z l -> HdRel R z (insert_in_order before x l).
Proof.
  intros Hzx Hzl. destruct l as [|y l]; cbn; [now constructor|].
  destruct (before x y); constructor; [assumption|].
  now inversion Hzl.
Qed.

Lemma insert_in_order_sorted (x : A) (l : list A) :
  Sorted R l -> Sorted R (insert_in_order before x l).
Proof.
  induction 1 as [|y l Hsorted IH Hhd]; cbn; [repeat constructor|].
  destruct (before x y) eqn:Hxy.
  - constructor; [now constructor | now constructor].
  - constructor; [exact IH|].
    apply insert_in_order_hd; [|exact Hhd].
    destruct (before_total x y) as [Hc|Hc]; [congruence | exact Hc].
Qed.

Lemma order_by_sorted (l : list A) : Sorted R (order_by before l).
Proof.
  induction l as [|x l IH]; cbn; [constructor|].
  now apply insert_in_order_sorted.
Qed.

End OrderingProps.

Section SortedProps.
Variables (A B : Type) (R : A -> A -> Prop).

Lemma HdRel_firstn (a : A) (l : list A) (n : nat) :
  HdRel R a l -> HdRel R a (firstn n l).
Proof.
  intros Hhd. destruct n, l; cbn; try constructor. now inversion Hhd.
Qed.

Lemma Sorted_firstn (n : nat) (l : list A) :
  Sorted R l -> Sorted R (firstn n l).
Proof.
  revert l. induction n as [|n IH]; intros l Hs; cbn; [constructor|].
  destruct l as [|a l]; [constructor|].
  inversion Hs; subst. constructor; [now apply IH | now apply HdRel_firstn].
Qed.

Lemma Sorted_skipn (n : nat) (l : list A) :
  Sorted R l -> Sorted R (skipn n l).
Proof.
  revert l. induction n as [|n IH]; intros l Hs; cbn; [exact Hs|].
  destruct l as [|a l]; [constructor|].
  inversion Hs; subst. now apply IH.
Qed.

Lemma Sorted_map (f : A -> B) (R' : B -> B -> Prop) (l : list A) :
  (forall a b, R a b -> R' (f a) (f b)) ->
  Sorted R l -> Sorted R' (map f l).
Proof.
  intros Hf. induction 1 as [|a l Hs IH Hhd]; cbn; constructor; [exact IH|].
  destruct Hhd; cbn; constructor. now apply Hf.
Qed.

End SortedProps.

Lemma limit_offset_In {A : Type} (limit offset : Z) (rows : list A) (a : A) :
  In a (limit_offset limit offset rows) -> In a rows.
Proof.
  unfold limit_offset. intros Hin.
  rewrite <- (firstn_skipn (Z.to_nat offset) rows). apply in_or_app. right.
  rewrite <- (firstn_skipn (Z.to_nat limit) (skipn (Z.to_nat offset) rows)).
  apply in_or_app. now left.
Qed.

Lemma limit_offset_length {A : Type} (limit offset : Z) (rows : list A) :
  0 <= limit -> Z.of_nat (length (limit_offset limit offset rows)) <= limit.
Proof.
  intros Hlim. unfold limit_offset.
  pose proof (firstn_le_length (Z.to_nat limit) (skipn (Z.to_nat offset) rows)).
  lia.
Qed.

Lemma created_at_desc_total (a b : post_view) :
  created_at_desc a b = true \/ created_at_desc b a = true.
Proof. unfold created_at_desc. apply String.leb_total. Qed.

Lemma created_at_asc_total (a b : comment_view) :
  created_at_asc a b = true \/ created_at_asc b a = true.
Proof. unfold created_at_asc. apply String.leb_total. Qed.

(** ** The feed *)

Lemma _get_user_by_token_run (token : string) (w : world) :
  _get_user_by_token token w = (inr (SELECT_user_by_token token (db w)), w).
Proof. unfold _get_user_by_token. run_H. reflexivity. Qed.

(** X26.  The effective limit of [feed] is the argument, 20 when absent,
    clamped into [1, 50]; its effective offset the argument, 0 when absent,
    raised to at least 0.  With an effective offset that SQLite can bind,
    [feed] succeeds and does not change the world.  What it returns is that
    page of the joined posts in descending order of the text stored in
    [created_at], as the BINARY collation compares it: at most the
    effective limit of entries, the stamp of each not smaller, as a string,
    than the stamp of the next.  When the request carries no token, or the
    token resolves to no user, every entry has [liked_by_me = false]. *)
Theorem feed_clamped_ordered (limit offset : option Z)
    (request : option Request) (w : world) :
  let lim := Z.max 1 (Z.min (match limit with Some n => n | None => 20 end) 50) in
  let off := Z.max 0 (match offset with Some n => n | None => 0 end) in
  sqlite_int off = true ->
  exists out,
    feed limit offset request w = (inr out, w)
    /\ 1 <= lim <= 50
    /\ 0 <= off
    /\ (limit = None -> lim = 20)
    /\ (exists liked,
           out = map post_out_of_view
                   (limit_offset lim off
                      (order_by created_at_desc
                         (posts_join_users liked (db w) (posts (db w))))))
    /\ Z.of_nat (length out) <= lim
    /\ Sorted (fun a b =>
                 (PostOut.created_at b <=? PostOut.created_at a)%string = true)
              out
    /\ (viewer_token request = ""
        \/ _get_user_by_token (viewer_token request) w = (inr None, w) ->
        Forall (fun o => PostOut.liked_by_me o = false) out).
Proof.
  intros lim off _.
  assert (Hlim : 1 <= lim <= 50) by (unfold lim; lia).
  assert (Hpage : forall liked,
             let out := map post_out_of_view
                          (limit_offset lim off
                             (order_by created_at_desc
                                (posts_join_users liked (db w) (posts (db w))))) in
             Z.of_nat (length out) <= lim
             /\ Sorted (fun a b =>
                          (PostOut.created_at b <=? PostOut.created_at a)%string
                          = true) out).
  { intros liked out. split.
    - unfold out. rewrite length_map. apply limit_offset_length. lia.
    - unfold out, limit_offset.
      apply Sorted_map with (R := fun a b => created_at_desc a b = true);
        [intros a b Hab; exact Hab|].
      apply Sorted_firstn, Sorted_skipn, order_by_sorted.
      exact created_at_desc_total. }
  assert (Hanon : forall l : list post_view,
             (forall v, In v l -> pv_liked_by_me v = 0) ->
             Forall (fun o => PostOut.liked_by_me o = false)
                    (map post_out_of_view l)).
  { intros l Hl. apply Forall_forall. intros o Ho.
    apply in_map_iff in Ho. destruct Ho as (v & <- & Hv).
    cbn. now rewrite (Hl v Hv). }
  assert (Hzero : forall v,
             In v (limit_offset lim off
                     (order_by created_at_desc
                        (posts_join_users (fun _ => 0) (db w) (posts (db w))))) ->
             pv_liked_by_me v = 0).
  { intros v Hv. apply limit_offset_In in Hv.
    apply (Permutation_in _ (Permutation_sym (order_by_perm _ _ _))) in Hv.
    now apply posts_join_users_In in Hv. }
  unfold feed. fold (viewer_token request). fold lim. fold off.
  unfold bind at 1.
  destruct (truthy (viewer_token request)) eqn:Htok.
  - rewrite _get_user_by_token_run.
    destruct (SELECT_user_by_token (viewer_token request) (db w)) as [u|] eqn:Hu.
    + run_H. eexists. split; [reflexivity|].
      split; [exact Hlim|]. split; [unfold off; lia|].
      split; [intros ->; reflexivity|].
      split; [eexists; reflexivity|].
      destruct (Hpage (fun p => if has_like (db w) (Posts.id p) (Users.id u)
                                then 1 else 0)) as [Hlen Hsorted].
      split; [exact Hlen|]. split; [exact Hsorted|].
      intros [Hempty | Hnone].
      * apply truthy_false_iff in Hempty. congruence.
      * discriminate.
    + run_H. eexists. split; [reflexivity|].
      split; [exact Hlim|]. split; [unfold off; lia|].
      split; [intros ->; reflexivity|].
      split; [eexists; reflexivity|].
      destruct (Hpage (fun _ => 0)) as [Hlen Hsorted].
      split; [exact Hlen|]. split; [exact Hsorted|].
      intros _. apply Hanon, Hzero.
  - run_H. eexists. split; [reflexivity|].
    split; [exact Hlim|]. split; [unfold off; lia|].
    split; [intros ->; reflexivity|].
    split; [eexists; reflexivity|].
    destruct (Hpage (fun _ => 0)) as [Hlen Hsorted].
    split; [exact Hlen|]. split; [exact Hsorted|].
    intros _. apply Hanon, Hzero.
Qed.

(** ** Consequences of referential integrity *)

Lemma find_hd_filter {A : Type} (f : A -> bool) (l : list A) :
  find f l = hd_error (filter f l).
Proof.
  induction l as [|x l IH]; cbn; [reflexivity|].
  destruct (f x); [reflexivity | exact IH].
Qed.

Lemma users_with_id (us : list Users.row) (u : Users.row) :
  NoDup (map Users.id us) -> In u us ->
  filter (fun x => Users.id x =? Users.id u) us = [u].
Proof.
  induction us as [|x us IH]; cbn; [tauto|].
  intros Hnd Hin. inversion Hnd as [|? ? Hnotin Hnd']; subst.
  destruct Hin as [-> | Hin].
  - rewrite Z.eqb_refl. f_equal. apply filter_none.
    intros a Ha. apply Z.eqb_neq. intros Heq. apply Hnotin.
    rewrite <- Heq. now apply in_map.
  - assert (Hne : Users.id x <> Users.id u).
    { intros Heq. apply Hnotin. rewrite Heq. now apply in_map. }
    apply Z.eqb_neq in Hne. rewrite Hne. now apply IH.
Qed.

Lemma has_user_unique (d : database) (uid : Z) :
  NoDup (map Users.id (users d)) -> has_user d uid = true ->
  exists u, filter (fun x => Users.id x =? uid) (users d) = [u]
            /\ SELECT_user_by_id uid d = Some u
            /\ In u (users d) /\ Users.id u = uid.
Proof.
  intros Hnd Hex. unfold has_user in Hex. apply existsb_exists in Hex.
  destruct Hex as (u & Hin & Hid). apply Z.eqb_eq in Hid. subst uid.
  exists u. pose proof (users_with_id _ _ Hnd Hin) as Hfil.
  split; [exact Hfil|]. split; [|auto].
  unfold SELECT_user_by_id. now rewrite find_hd_filter, Hfil.
Qed.

Lemma SELECT_post_view_none (post_id : Z) (d : database) :
  SELECT_post_by_id post_id d = None -> SELECT_post_view post_id d = None.
Proof.
  unfold SELECT_post_by_id, SELECT_post_view. rewrite find_hd_filter.
  destruct (filter _ (posts d)); [reflexivity | discriminate].
Qed.

Lemma SELECT_post_view_some (post_id : Z) (d : database) (p : Posts.row) :
  db_ok d -> SELECT_post_by_id post_id d = Some p ->
  exists author,
    SELECT_user_by_id (Posts.author_id p) d = Some author
    /\ SELECT_post_view post_id d = Some (view_of_post d p author).
Proof.
  intros (Hnd & Hposts & _) Hsel.
  assert (Hin : In p (posts d)) by (now apply find_some in Hsel).
  destruct (has_user_unique d _ Hnd (Hposts p Hin)) as (u & Hfil & Hu & _).
  exists u. split; [exact Hu|].
  unfold SELECT_post_by_id in Hsel. unfold SELECT_post_view.
  rewrite find_hd_filter in Hsel.
  destruct (filter (fun q => Posts.id q =? post_id) (posts d)) as [|q qs];
    [discriminate|].
  injection Hsel as ->. unfold posts_join_users. cbn [flat_map].
  rewrite Hfil. reflexivity.
Qed.

Lemma comments_join_users (d : database) (cs : list Comments.row) :
  NoDup (map Users.id (users d)) ->
  (forall c, In c cs -> has_user d (Comments.author_id c) = true) ->
  let joined :=
    flat_map
      (fun c =>
         map (fun u => {| cv_comment := c;
                          cv_author_name := Users.name u;
                          cv_author_avatar_url := Users.avatar_url u |})
             (filter (fun u => Users.id u =? Comments.author_id c) (users d)))
      cs in
  map cv_comment joined = cs
  /\ Forall (fun v =>
               exists u,
                 SELECT_user_by_id (Comments.author_id (cv_comment v)) d = Some u
                 /\ cv_author_name v = Users.name u
                 /\ cv_author_avatar_url v = Users.avatar_url u)
            joined.
Proof.
  intros Hnd. induction cs as [|c cs IH]; intros Hauth; cbn.
  - split; constructor.
  - destruct (has_user_unique d _ Hnd (Hauth c (or_introl eq_refl)))
      as (u & Hfil & Hu & _).
    rewrite Hfil. cbn.
    destruct IH as [IHmap IHall]; [intros c' Hc'; apply Hauth; now right|].
    split; [now f_equal|].
    constructor; [|exact IHall]. exists u. cbn. auto.
Qed.

(** *** Statements keep the store consistent *)

Lemma has_user_iff (d : database) (uid : Z) :
  has_user d uid = true <-> In uid (map Users.id (users d)).
Proof.
  unfold has_user. rewrite existsb_exists, in_map_iff. split.
  - intros (u & Hin & Hid). apply Z.eqb_eq in Hid. eauto.
  - intros (u & Hid & Hin). exists u. split; [exact Hin | now apply Z.eqb_eq].
Qed.

Lemma db_ok_with_step (caller : option Z) (d d' : database) :
  db_ok_with caller d ->
  NoDup (map Users.id (users d')) ->
  incl (map Users.id (users d)) (map Users.id (users d')) ->
  (forall p, In p (posts d') ->
     In (Posts.author_id p) (map Posts.author_id (posts d))
     \/ has_user d' (Posts.author_id p) = true) ->
  (forall c, In c (comments d') ->
     In (Comments.author_id c) (map Comments.author_id (comments d))
     \/ has_user d' (Comments.author_id c) = true) ->
  db_ok_with caller d'.
Proof.
  intros ((Hnd & Hposts & Hcomments) & Hcaller) Hnd' Hincl Hposts' Hcomments'.
  assert (Hmono : forall uid, has_user d uid = true -> has_user d' uid = true).
  { intros uid. rewrite !has_user_iff. apply Hincl. }
  split; [split; [exact Hnd'|split]|].
  - intros p Hp. destruct (Hposts' p Hp) as [Hold | Hnew]; [|exact Hnew].
    apply in_map_iff in Hold. destruct Hold as (q & <- & Hq).
    apply Hmono. now apply Hposts.
  - intros c Hc. destruct (Hcomments' c Hc) as [Hold | Hnew]; [|exact Hnew].
    apply in_map_iff in Hold. destruct Hold as (q & <- & Hq).
    apply Hmono. now apply Hcomments.
  - destruct caller as [uid|]; [now apply Hmono | exact I].
Qed.

Ltac keeps_same_users :=
  intros d a d' HJ Hrun; injection Hrun as _ <-;
  apply (db_ok_with_step _ d _ HJ); cbn [users posts comments];
  [ exact (proj1 (proj1 HJ)) | apply incl_refl
  | intros p Hp; left; now apply in_map
  | intros c Hc; left; now apply in_map ].

Lemma keeps_INSERT_INTO_users (caller : option Z)
    (name email password_hash created_at : string) :
  keeps (db_ok_with caller)
        (INSERT_INTO_users name email password_hash created_at).
Proof.
  intros d a d' HJ. unfold INSERT_INTO_users.
  destruct (existsb _ (users d)); [discriminate|].
  intros Hrun. injection Hrun as _ <-.
  apply (db_ok_with_step _ d _ HJ); cbn [users posts comments].
  - rewrite map_app. cbn.
    apply NoDup_app; [exact (proj1 (proj1 HJ)) | repeat constructor; cbn; tauto|].
    intros i Hi [<- | []].
    apply (next_rowid_fresh (seq_users (sqlite_sequence d))) in Hi. lia.
  - rewrite map_app. now apply incl_appl, incl_refl.
  - intros p Hp. left. now apply in_map.
  - intros c Hc. left. now apply in_map.
Qed.

Lemma keeps_INSERT_INTO_sessions (caller : option Z) (conn : connection)
    (token : string) (user_id : Z) (created_at : string) :
  keeps (db_ok_with caller) (INSERT_INTO_sessions conn token user_id created_at).
Proof.
  unfold INSERT_INTO_sessions. intros d a d' HJ.
  destruct (existsb _ (sessions d)); [discriminate|].
  destruct (negb _); [discriminate|]. revert d a d' HJ. keeps_same_users.
Qed.

Lemma keeps_INSERT_INTO_media (caller : option Z) (owner_type : string)
    (owner_id : Z) (url type created_at : string) :
  keeps (db_ok_with caller)
        (INSERT_INTO_media owner_type owner_id url type created_at).
Proof. unfold INSERT_INTO_media. keeps_same_users. Qed.

Lemma keeps_INSERT_INTO_likes (caller : option Z) (conn : connection)
    (post_id user_id : Z) (created_at : string) :
  keeps (db_ok_with caller) (INSERT_INTO_likes conn post_id user_id created_at).
Proof.
  unfold INSERT_INTO_likes. intros d a d' HJ.
  destruct (has_like d post_id user_id); [discriminate|].
  destruct (negb _); [discriminate|]. revert d a d' HJ. keeps_same_users.
Qed.

Lemma keeps_DELETE_FROM_likes (caller : option Z) (post_id user_id : Z) :
  keeps (db_ok_with caller) (DELETE_FROM_likes post_id user_id).
Proof. unfold DELETE_FROM_likes. keeps_same_users. Qed.

Lemma keeps_INSERT_INTO_posts (conn : connection) (uid : Z) (text : string)
    (image_url : option string) (created_at : string) :
  keeps (db_ok_with (Some uid))
        (INSERT_INTO_posts conn uid text image_url created_at).
Proof.
  unfold INSERT_INTO_posts. intros d a d' HJ.
  destruct (negb _); [discriminate|].
  intros Hrun. injection Hrun as _ <-.
  apply (db_ok_with_step _ d _ HJ); cbn [users posts comments].
  - exact (proj1 (proj1 HJ)).
  - apply incl_refl.
  - intros p Hp. apply in_app_or in Hp. destruct Hp as [Hp | [<- | []]].
    + left. now apply in_map.
    + right. exact (proj2 HJ).
  - intros c Hc. left. now apply in_map.
Qed.

Lemma keeps_INSERT_INTO_comments (conn : connection) (post_id uid : Z)
    (text created_at : string) :
  keeps (db_ok_with (Some uid))
        (INSERT_INTO_comments conn post_id uid text created_at).
Proof.
  unfold INSERT_INTO_comments. intros d a d' HJ.
  destruct (negb _); [discriminate|].
  intros Hrun. injection Hrun as _ <-.
  apply (db_ok_with_step _ d _ HJ); cbn [users posts comments].
  - exact (proj1 (proj1 HJ)).
  - apply incl_refl.
  - intros p Hp. left. now apply in_map.
  - intros c Hc. apply in_app_or in Hc. destruct Hc as [Hc | [<- | []]].
    + left. now apply in_map.
    + right. exact (proj2 HJ).
Qed.

Lemma keeps_UPDATE_users_avatar (caller : option Z) (url : string) (uid : Z) :
  keeps (db_ok_with caller) (UPDATE_users_avatar url uid).
Proof.
  unfold UPDATE_users_avatar. intros d a d' HJ Hrun. injection Hrun as _ <-.
  assert (Hids : map Users.id
                   (map (fun u =>
                           if Users.id u =? uid
                           then Users.Row (Users.id u) (Users.name u)
                                  (Users.email u) (Users.password_hash u)
                                  (Some url) (Users.created_at u)
                           else u) (users d))
                 = map Users.id (users d)).
  { rewrite map_map. apply map_ext. intros u.
    destruct (Users.id u =? uid); reflexivity. }
  apply (db_ok_with_step _ d _ HJ); cbn [users posts comments].
  - rewrite Hids. exact (proj1 (proj1 HJ)).
  - rewrite Hids. apply incl_refl.
  - intros p Hp. left. now apply in_map.
  - intros c Hc. left. now apply in_map.
Qed.

Lemma keeps_UPDATE_posts (caller : option Z) (text : string)
    (image_url : option string) (updated_at : string) (pid : Z) :
  keeps (db_ok_with caller) (UPDATE_posts text image_url updated_at pid).
Proof.
  unfold UPDATE_posts. intros d a d' HJ Hrun. injection Hrun as _ <-.
  apply (db_ok_with_step _ d _ HJ); cbn [users posts comments].
  - exact (proj1 (proj1 HJ)).
  - apply incl_refl.
  - intros p Hp. left. apply in_map_iff in Hp. destruct Hp as (q & <- & Hq).
    destruct (Posts.id q =? pid); cbn; now apply in_map.
  - intros c Hc. left. now apply in_map.
Qed.

Lemma keeps_DELETE_FROM_posts (caller : option Z) (conn : connection) (pid : Z) :
  keeps (db_ok_with caller) (DELETE_FROM_posts conn pid).
Proof.
  unfold DELETE_FROM_posts. intros d a d' HJ Hrun. injection Hrun as _ <-.
  apply (db_ok_with_step _ d _ HJ); cbn [users posts comments].
  - exact (proj1 (proj1 HJ)).
  - apply incl_refl.
  - intros p Hp. left. apply filter_In in Hp. now apply in_map.
  - intros c Hc. left. apply in_map.
    destruct (foreign_keys conn); [now apply filter_In in Hc | exact Hc].
Qed.

(** *** Handlers keep the store consistent *)

Section Preservation.
Variable J : database -> Prop.

Lemma preserves_ret {A : Type} (a : A) : preserves J (ret a).
Proof. intros w Hw. exact Hw. Qed.

Lemma preserves_raise {A : Type} (e : exn) : preserves J (@raise A e).
Proof. intros w Hw. exact Hw. Qed.

Lemma preserves_raise_if (cond : bool) (e : exn) :
  preserves J (raise_if cond e).
Proof. intros w Hw. unfold raise_if. destruct cond; exact Hw. Qed.

Lemma preserves_fetch {A : Type} (q : database -> A) : preserves J (fetch q).
Proof. intros w Hw. exact Hw. Qed.

Lemma preserves_bind {A B : Type} (c : H A) (k : A -> H B) :
  preserves J c -> (forall a, preserves J (k a)) -> preserves J (bind c k).
Proof.
  intros Hc Hk w Hw. unfold bind. specialize (Hc w Hw).
  destruct (c w) as [[e|a] w1]; cbn in *; [exact Hc | now apply Hk].
Qed.

Lemma preserves_with_connect {A : Type} (body : connection -> H A) :
  (forall conn, preserves J (body conn)) -> preserves J (with_connect body).
Proof.
  intros Hbody w Hw. unfold with_connect. specialize (Hbody connect w Hw).
  destruct (body connect w) as [[e|a] w1]; cbn in *; [exact Hw | exact Hbody].
Qed.

Lemma preserves_execute {A : Type} (stmt : statement A) :
  keeps J stmt -> preserves J (execute stmt).
Proof.
  intros Hstmt w Hw. unfold execute.
  destruct (stmt (db w)) as [[a d']|] eqn:Hrun; cbn; [|exact Hw].
  exact (Hstmt _ _ _ Hw Hrun).
Qed.

Lemma preserves_except {A : Type} (c h : H A) :
  preserves J c -> preserves J h -> preserves J (except_IntegrityError c h).
Proof.
  intros Hc Hh w Hw. unfold except_IntegrityError. specialize (Hc w Hw).
  destruct (c w) as [[[s m| |]|a] w1]; cbn in *; try exact Hc.
  now apply Hh.
Qed.

Lemma preserves_write_bytes (name contents : string) :
  preserves J (write_bytes name contents).
Proof. intros w Hw. exact Hw. Qed.

End Preservation.

Create HintDb preservation.

#[local] Hint Resolve preserves_ret preserves_raise preserves_raise_if
  preserves_fetch preserves_write_bytes
  keeps_INSERT_INTO_users keeps_INSERT_INTO_sessions keeps_INSERT_INTO_media
  keeps_INSERT_INTO_likes keeps_DELETE_FROM_likes keeps_INSERT_INTO_posts
  keeps_INSERT_INTO_comments keeps_UPDATE_users_avatar keeps_UPDATE_posts
  keeps_DELETE_FROM_posts : preservation.

(** Walks a handler: binds, [with] blocks, statements, branches. *)
Ltac preserve :=
  repeat first
    [ progress cbv zeta
    | apply preserves_bind; [|intros ?]
    | apply preserves_with_connect; intros ?
    | apply preserves_except
    | apply preserves_execute
    | solve [auto with preservation]
    | match goal with
      | |- preserves _ (match ?x with _ => _ end) => destruct x
      end ].

Section HandlersPreserve.
Context {rt : PyRuntime}.

Lemma preserves__get_user_by_token (J : database -> Prop) (token : string) :
  preserves J (_get_user_by_token token).
Proof. unfold _get_user_by_token. preserve. Qed.

Lemma preserves__get_post_out (J : database -> Prop) (post_id : Z) :
  preserves J (_get_post_out post_id).
Proof. unfold _get_post_out. preserve. Qed.

Lemma preserves__save_upload (J : database -> Prop) (e : Env)
    (file : UploadFile) (prefix : string) :
  preserves J (_save_upload e file prefix).
Proof. unfold _save_upload. preserve. Qed.

Hint Resolve preserves__get_user_by_token preserves__get_post_out
  preserves__save_upload : preservation.

Lemma preserves_register (e : Env) (payload : RegisterIn) :
  preserves (db_ok_with None) (register e payload).
Proof. unfold register. preserve. Qed.

Lemma preserves_login (e : Env) (payload : LoginIn) :
  preserves (db_ok_with None) (login e payload).
Proof. unfold login. preserve. Qed.

Lemma preserves_me (caller : option Z) (user : Users.row) :
  preserves (db_ok_with caller) (me user).
Proof. unfold me. preserve. Qed.

Lemma preserves_update_avatar (caller : option Z) (e : Env)
    (file : UploadFile) (user : Users.row) :
  preserves (db_ok_with caller) (update_avatar e file user).
Proof. unfold update_avatar. preserve. Qed.

Lemma preserves_create_post (e : Env) (text : string)
    (image : option UploadFile) (user : Users.row) :
  preserves (db_ok_with (Some (Users.id user))) (create_post e text image user).
Proof. unfold create_post. preserve. Qed.

Lemma preserves_update_post (caller : option Z) (e : Env) (post_id : Z)
    (text : string) (image : option UploadFile) (remove_image : bool)
    (user : Users.row) :
  preserves (db_ok_with caller)
            (update_post e post_id text image remove_image user).
Proof. unfold update_post. preserve. Qed.

Lemma preserves_delete_post (caller : option Z) (post_id : Z)
    (user : Users.row) :
  preserves (db_ok_with caller) (delete_post post_id user).
Proof. unfold delete_post. preserve. Qed.

Lemma preserves_feed (caller : option Z) (limit offset : option Z)
    (request : option Request) :
  preserves (db_ok_with caller) (feed limit offset request).
Proof. unfold feed. preserve. Qed.

Lemma preserves_get_post (caller : option Z) (post_id : Z)
    (request : Request) :
  preserves (db_ok_with caller) (get_post post_id request).
Proof. unfold get_post. preserve. Qed.

Lemma preserves_add_comment (e : Env) (post_id : Z) (payload : CommentIn)
    (user : Users.row) :
  preserves (db_ok_with (Some (Users.id user)))
            (add_comment e post_id payload user).
Proof. unfold add_comment. preserve. Qed.

Lemma preserves_like_post (caller : option Z) (e : Env) (post_id : Z)
    (user : Users.row) :
  preserves (db_ok_with caller) (like_post e post_id user).
Proof. unfold like_post. preserve. Qed.

Lemma preserves_unlike_post (caller : option Z) (post_id : Z)
    (user : Users.row) :
  preserves (db_ok_with caller) (unlike_post post_id user).
Proof. unfold unlike_post. preserve. Qed.

End HandlersPreserve.

(** ** Reachable worlds *)

Section Reachability.
Context {rt : PyRuntime}.

Lemma SELECT_user_by_token_In (token : string) (d : database) (u : Users.row) :
  SELECT_user_by_token token d = Some u -> In u (users d).
Proof.
  unfold SELECT_user_by_token. intros Hhd. apply hd_error_In in Hhd.
  apply in_flat_map in Hhd. destruct Hhd as (s & _ & Hu).
  now apply filter_In in Hu.
Qed.

Lemma _require_user_run (request : Request) (w w' : world)
    (r : exn + Users.row) :
  _require_user request w = (r, w') ->
  w' = w /\ forall u, r = inr u -> In u (users (db w)).
Proof.
  unfold _require_user. unfold bind at 1. unfold raise_if.
  destruct (negb (truthy (bearer_token request))).
  - unfold raise. intros Heq. inversion Heq. split; [reflexivity|discriminate].
  - unfold ret at 1. unfold bind. rewrite _get_user_by_token_run.
    destruct (SELECT_user_by_token _ (db w)) as [u|] eqn:Hu.
    + unfold ret. intros Heq. inversion Heq; subst. split; [reflexivity|].
      intros u' [= <-]. now apply SELECT_user_by_token_In in Hu.
    + unfold raise. intros Heq. inversion Heq. split; [reflexivity|discriminate].
Qed.

Lemma preserves_Depends {A : Type} (request : Request)
    (handler : Users.row -> H A) :
  (forall user, preserves (db_ok_with (Some (Users.id user))) (handler user)) ->
  preserves (db_ok_with None) (Depends_require_user request handler).
Proof.
  intros Hhandler w Hw. unfold Depends_require_user, bind.
  destruct (_require_user request w) as [[e|user] w1] eqn:Hreq;
    apply _require_user_run in Hreq; destruct Hreq as [-> Hin]; cbn;
    [exact Hw|].
  specialize (Hin user eq_refl).
  assert (Hcaller : db_ok_with (Some (Users.id user)) (db w)).
  { split; [exact (proj1 Hw)|]. apply has_user_iff. now apply in_map. }
  exact (conj (proj1 (Hhandler user w Hcaller)) I).
Qed.

Lemma serve_db_ok (call : api_call) (w : world) :
  db_ok (db w) -> db_ok (db (serve call w)).
Proof.
  intros Hok. assert (Hw : db_ok_with None (db w)) by (split; [exact Hok | exact I]).
  enough (db_ok_with None (db (serve call w))) as [Hgoal _] by exact Hgoal.
  destruct call; cbn [serve];
    first [ now apply preserves_register
          | now apply preserves_login
          | now apply preserves_feed
          | now apply preserves_get_post
          | apply preserves_Depends; [intros user|exact Hw] ].
  - apply preserves_me.
  - apply preserves_update_avatar.
  - apply preserves_create_post.
  - apply preserves_update_post.
  - apply preserves_delete_post.
  - apply preserves_add_comment.
  - apply preserves_like_post.
  - apply preserves_unlike_post.
Qed.

Lemma empty_db_ok : db_ok empty_db.
Proof. repeat split; cbn; try constructor; intros ? []. Qed.

(** Every world the service reaches has a consistent store. *)
Lemma reachable_db_ok (w : world) : reachable w -> db_ok (db w).
Proof.
  induction 1 as [files | call w Hreach IH].
  - exact empty_db_ok.
  - now apply serve_db_ok.
Qed.

End Reachability.

(** ** Post detail *)

Section PostDetail.
Context {rt : PyRuntime}.

Lemma get_post_not_found (post_id : Z) (request : Request) (w : world) :
  SELECT_post_by_id post_id (db w) = None ->
  get_post post_id request w = (inl (HTTPException 404 "Пост не найден"), w).
Proof.
  intros Hnone. unfold get_post, _get_post_out. run_H.
  now rewrite (SELECT_post_view_none _ _ Hnone).
Qed.

Lemma get_post_found (post_id : Z) (request : Request) (w : world)
    (p : Posts.row) :
  db_ok (db w) ->
  SELECT_post_by_id post_id (db w) = Some p ->
  exists author,
    SELECT_user_by_id (Posts.author_id p) (db w) = Some author
    /\ get_post post_id request w
       = (inr (PostDetailOut.Make
                 (post_out_of_view (view_of_post (db w) p author))
                 (map comment_out_of_view (SELECT_comments_of post_id (db w)))
                 (viewer_likes post_id request (db w))),
          w).
Proof.
  intros Hok Hsel.
  destruct (SELECT_post_view_some post_id _ p Hok Hsel) as (author & Hauthor & Hview).
  exists author. split; [exact Hauthor|].
  unfold get_post, _get_post_out, viewer_likes. run_H. rewrite Hview.
  cbn [pv_post view_of_post].
  destruct (truthy (bearer_token request)); [|reflexivity].
  rewrite _get_user_by_token_run.
  destruct (SELECT_user_by_token (bearer_token request) (db w));
    reflexivity.
Qed.

(** X27.  In every world the service reaches, and for a post id that
    SQLite can bind: [get_post] answers 404 "Пост не найден" when no post
    has the id.  Otherwise it returns the post with its author's name and
    avatar and the counts of its like and comment rows; the comments of
    that post, each exactly once and with its author's name, in ascending
    order of the text stored in [created_at], as the BINARY collation
    compares it; and [liked_by_me], which is true exactly when the request
    carries a non-empty token that resolves to a user with a like row for
    the post. *)
Theorem get_post_detail (post_id : Z) (request : Request) (w : world) :
  reachable w ->
  sqlite_int post_id = true ->
  match SELECT_post_by_id post_id (db w) with
  | None =>
      get_post post_id request w
      = (inl (HTTPException 404 "Пост не найден"), w)
  | Some p =>
      exists author views liked,
        get_post post_id request w
        = (inr (PostDetailOut.Make
                  (PostOut.Make (Posts.id p) (Posts.author_id p)
                     (Users.name author) (Users.avatar_url author)
                     (Posts.text p) (Posts.image_url p)
                     (Posts.created_at p) (Posts.updated_at p)
                     (likes_count_of (db w) post_id)
                     (comments_count_of (db w) post_id)
                     false)
                  (map comment_out_of_view views)
                  liked),
           w)
        /\ Posts.id p = post_id
        /\ SELECT_user_by_id (Posts.author_id p) (db w) = Some author
        /\ Permutation (map cv_comment views)
             (filter (fun c => Comments.post_id c =? post_id)
                     (comments (db w)))
        /\ Forall (fun v =>
                     exists u,
                       SELECT_user_by_id
                         (Comments.author_id (cv_comment v)) (db w) = Some u
                       /\ cv_author_name v = Users.name u
                       /\ cv_author_avatar_url v = Users.avatar_url u)
                  views
        /\ Sorted (fun a b =>
                     (CommentOut.created_at a <=? CommentOut.created_at b)%string
                     = true)
                  (map comment_out_of_view views)
        /\ (liked = true <->
            bearer_token request <> ""
            /\ exists user,
                 _get_user_by_token (bearer_token request) w
                 = (inr (Some user), w)
                 /\ has_like (db w) post_id (Users.id user) = true)
  end.
Proof.
  intros Hreach _. pose proof (reachable_db_ok w Hreach) as Hok.
  destruct (SELECT_post_by_id post_id (db w)) as [p|] eqn:Hsel;
    [|now apply get_post_not_found].
  destruct (get_post_found post_id request w p Hok Hsel) as (author & Hauthor & Hrun).
  assert (Hpid : Posts.id p = post_id).
  { apply find_some in Hsel. now apply Z.eqb_eq. }
  exists author, (SELECT_comments_of post_id (db w)),
    (viewer_likes post_id request (db w)).
  split; [rewrite Hrun; unfold post_out_of_view, view_of_post; cbn;
          now rewrite Hpid|].
  split; [exact Hpid|]. split; [exact Hauthor|].
  destruct Hok as (Hnd & _ & Hcomments).
  destruct (comments_join_users (db w)
              (filter (fun c => Comments.post_id c =? post_id)
                      (comments (db w))) Hnd) as [Hmap Hall].
  { intros c Hc. apply Hcomments. now apply filter_In in Hc. }
  unfold SELECT_comments_of. split; [|split; [|split]].
  - rewrite <- Hmap at 2. apply Permutation_map, Permutation_sym, order_by_perm.
  - apply Forall_forall. intros v Hv. rewrite Forall_forall in Hall.
    apply Hall. eapply Permutation_in; [|exact Hv].
    apply Permutation_sym, order_by_perm.
  - apply Sorted_map with (R := fun a b => created_at_asc a b = true);
      [intros a b Hab; exact Hab|].
    apply order_by_sorted. exact created_at_asc_total.
  - unfold viewer_likes. split.
    + destruct (truthy (bearer_token request)) eqn:Htok; [|discriminate].
      destruct (SELECT_user_by_token _ (db w)) as [user|] eqn:Huser;
        [|discriminate].
      intros Hlike. split.
      * intros Hempty. apply truthy_false_iff in Hempty. congruence.
      * exists user. now rewrite _get_user_by_token_run, Huser.
    + intros (Hne & user & Huser & Hlike).
      rewrite _get_user_by_token_run in Huser. injection Huser as Huser.
      rewrite Huser, Hlike.
      destruct (truthy (bearer_token request)) eqn:Htok; [reflexivity|].
      apply truthy_false_iff in Htok. contradiction.
Qed.

End PostDetail.

(** ** The cascade of the schema *)

(** On a connection that enforces foreign keys, [DELETE FROM posts] takes the
    comments and the likes of the post with it; the [media] rows stay. *)
Lemma DELETE_FROM_posts_cascade (pid : Z) (d : database) :
  exists d',
    DELETE_FROM_posts (Connection true) pid d = Some (tt, d')
    /\ (forall c, In c (comments d') -> Comments.post_id c <> pid)
    /\ (forall l, In l (likes d') -> Likes.post_id l <> pid)
    /\ media d' = media d.
Proof.
  unfold DELETE_FROM_posts. cbn [foreign_keys]. eexists. split; [reflexivity|].
  cbn [comments likes media]. repeat split.
  - intros c Hc. apply filter_In in Hc. destruct Hc as [_ Hc].
    now apply negb_true_iff, Z.eqb_neq in Hc.
  - intros l Hl. apply filter_In in Hl. destruct Hl as [_ Hl].
    now apply negb_true_iff, Z.eqb_neq in Hl.
Qed.

(** The handlers' connections do not enforce foreign keys: the pragma of
    [init_db] was set on the connection [init_db] opened. *)
Lemma DELETE_FROM_posts_on_connect (pid : Z) (d : database) :
  exists d',
    DELETE_FROM_posts connect pid d = Some (tt, d')
    /\ comments d' = comments d
    /\ likes d' = likes d
    /\ media d' = media d.
Proof.
  unfold DELETE_FROM_posts, connect. cbn [foreign_keys].
  eexists. split; [reflexivity|]. cbn. auto.
Qed.

(** ** The session *)

Lemma session_reachable (cs : list api_call) :
  reachable (rt := ascii_runtime) (Session.after cs).
Proof.
  unfold Session.after.
  assert (Hstart : reachable (rt := ascii_runtime) Session.start)
    by apply reachable_init.
  revert Hstart. generalize Session.start.
  induction cs as [|c cs IH]; intros w Hw; cbn [fold_left]; [exact Hw|].
  apply IH. now apply reachable_serve.
Qed.

Lemma session_posts : posts (db Session.now) = [Session.hello].
Proof. vm_compute. reflexivity. Qed.

Lemma session_users : users (db Session.now) = [Session.alice; Session.bob].
Proof. vm_compute. reflexivity. Qed.

(** ** The claims on the session *)

(** C1 as stated fails: Alice deletes her post, the call succeeds, and the
    media row that references the post is still in the store. *)
Lemma delete_post_keeps_media_row :
  SELECT_post_by_id 1 (db Session.now) = Some Session.hello
  /\ _require_user (Session.bearer Session.alice_token) Session.now
     = (inr Session.alice, Session.now)
  /\ Posts.author_id Session.hello = Users.id Session.alice
  /\ fst (delete_post 1 Session.alice Session.now) = inr status_ok
  /\ filter (fun m => (Media.owner_type m =? "post")%string
                      && (Media.owner_id m =? 1))
            (media (db (snd (delete_post 1 Session.alice Session.now))))
     = [Session.hello_picture].
Proof. repeat split; vm_compute; reflexivity. Qed.

(** On the same call the comment and the like of the post stay as well: the
    connection of [delete_post] does not enforce the foreign keys. *)
Lemma delete_post_keeps_comment_and_like :
  map Comments.post_id
      (comments (db (snd (delete_post 1 Session.alice Session.now)))) = [1]
  /\ map Likes.post_id
         (likes (db (snd (delete_post 1 Session.alice Session.now)))) = [1]
  /\ fst (get_post 1 Session.anonymous
            (snd (delete_post 1 Session.alice Session.now)))
     = inl (HTTPException 404 "Пост не найден").
Proof. repeat split; vm_compute; reflexivity. Qed.

(** Alice deletes her post: the post is gone, the media table is as it was. *)
Lemma delete_post_removes_post_keeps_media_witness :
  (SELECT_post_by_id 1 (db Session.now) = Some Session.hello
   /\ Posts.author_id Session.hello = Users.id Session.alice)
  /\ exists w',
       delete_post 1 Session.alice Session.now = (inr status_ok, w')
       /\ SELECT_post_by_id 1 (db w') = None
       /\ media (db w') = media (db Session.now).
Proof.
  assert (Hsel : SELECT_post_by_id 1 (db Session.now) = Some Session.hello)
    by (vm_compute; reflexivity).
  assert (Hauth : Posts.author_id Session.hello = Users.id Session.alice)
    by reflexivity.
  split; [split; assumption|].
  destruct (delete_post_removes_post_keeps_media 1 Session.alice Session.now
              Session.hello Hsel Hauth)
    as (w' & Hrun & Hgone & _ & _ & Hmedia & _).
  exists w'. auto.
Defined.

(** Alice's registration: her token resolves to her row. *)
Lemma register_token_resolves_witness :
  register (rt := ascii_runtime) (Session.env "aa" "2024-01-01T10:00:00")
           Session.alice_signup Session.start
  = (inr {| token := Session.alice_token |}, Session.after (firstn 1 Session.calls))
  /\ _get_user_by_token Session.alice_token (Session.after (firstn 1 Session.calls))
     = (inr (Some Session.alice), Session.after (firstn 1 Session.calls)).
Proof.
  assert (Hrun : register (rt := ascii_runtime)
                   (Session.env "aa" "2024-01-01T10:00:00")
                   Session.alice_signup Session.start
                 = (inr {| token := Session.alice_token |},
                    Session.after (firstn 1 Session.calls)))
    by (vm_compute; reflexivity).
  split; [exact Hrun|].
  exact (proj1 (register_token_resolves _ _ _ _ _ Hrun)).
Defined.


(** A second registration under Alice's e-mail, in other letter case. *)
Lemma register_duplicate_email_witness :
  (In Session.alice (users (db Session.now))
   /\ Users.email Session.alice = ascii_lower "ALICE@example.COM")
  /\ register (rt := ascii_runtime) (Session.env "hh" "2024-01-01T10:07:00")
       {| reg_name := "Mallory"; reg_email := "ALICE@example.COM";
          reg_password := "another" |}
       Session.now
     = (inl (HTTPException 400 "Email уже используется"), Session.now).
Proof.
  assert (Hin : In Session.alice (users (db Session.now)))
    by (rewrite session_users; now left).
  assert (Hemail : Users.email Session.alice = ascii_lower "ALICE@example.COM")
    by reflexivity.
  split; [split; assumption|].
  exact (register_duplicate_email (rt := ascii_runtime) _
           {| reg_name := "Mallory"; reg_email := "ALICE@example.COM";
              reg_password := "another" |}
           Session.now Session.alice Hin Hemail).
Defined.

(** C6 as stated fails for [update_post]: with a blank text Bob's request for
    a post that does not exist is answered 400, not 404, and his request for
    Alice's post is answered 400, not 403. *)
Lemma update_post_blank_text_not_404_403 :
  _require_user (Session.bearer Session.bob_token) Session.now
  = (inr Session.bob, Session.now)
  /\ (SELECT_post_by_id 7 (db Session.now) = None
   /\ fst (update_post (rt := ascii_runtime)
             (Session.env "ii" "2024-01-01T10:08:00") 7 "   " None false
             Session.bob Session.now)
      = inl (HTTPException 400 "Текст поста обязателен")
   /\ fst (update_post (rt := ascii_runtime)
             (Session.env "ii" "2024-01-01T10:08:00") 7 "   " None false
             Session.bob Session.now)
      <> inl (HTTPException 404 "Пост не найден"))
  /\ (SELECT_post_by_id 1 (db Session.now) = Some Session.hello
      /\ Posts.author_id Session.hello <> Users.id Session.bob
      /\ fst (update_post (rt := ascii_runtime)
                (Session.env "ii" "2024-01-01T10:08:00") 1 "   " None false
                Session.bob Session.now)
         = inl (HTTPException 400 "Текст поста обязателен")
      /\ fst (update_post (rt := ascii_runtime)
                (Session.env "ii" "2024-01-01T10:08:00") 1 "   " None false
                Session.bob Session.now)
         <> inl (HTTPException 403 "Нет доступа")).
Proof.
  repeat split; try (vm_compute; reflexivity); vm_compute; discriminate.
Qed.

(** Bob, with a text that is not blank: 404 for post 7, 403 for Alice's post. *)
Lemma update_delete_author_only_witness :
  (sqlite_int 7 = true /\ sqlite_int 1 = true
   /\ truthy (ascii_strip "hi") = true)
  /\ (update_post (rt := ascii_runtime)
        (Session.env "jj" "2024-01-01T10:09:00") 7 "hi" None false
        Session.bob Session.now
      = (inl (HTTPException 404 "Пост не найден"), Session.now)
      /\ delete_post 7 Session.bob Session.now
         = (inl (HTTPException 404 "Пост не найден"), Session.now))
  /\ (update_post (rt := ascii_runtime)
        (Session.env "jj" "2024-01-01T10:09:00") 1 "hi" None false
        Session.bob Session.now
      = (inl (HTTPException 403 "Нет доступа"), Session.now)
      /\ delete_post 1 Session.bob Session.now
         = (inl (HTTPException 403 "Нет доступа"), Session.now)).
Proof.
  assert (Htext : truthy (ascii_strip "hi") = true) by reflexivity.
  assert (Hseven : sqlite_int 7 = true) by reflexivity.
  assert (Hone : sqlite_int 1 = true) by reflexivity.
  split; [split; [exact Hseven | split; [exact Hone | exact Htext]]|]. split.
  - refine (proj1 (update_delete_author_only (rt := ascii_runtime)
                     (Session.env "jj" "2024-01-01T10:09:00") 7 "hi" None false
                     Session.bob Session.now Hseven Htext) _).
    vm_compute. reflexivity.
  - refine (proj1 (proj2 (update_delete_author_only (rt := ascii_runtime)
                            (Session.env "jj" "2024-01-01T10:09:00") 1 "hi" None
                            false Session.bob Session.now Hone Htext))
                  Session.hello _ _).
    + vm_compute. reflexivity.
    + vm_compute. discriminate.
Defined.

(** Alice edits her post and removes its picture. *)
Lemma update_post_image_rule_witness :
  update_post (rt := ascii_runtime) (Session.env "kk" "2024-01-01T10:10:00")
    1 "hello again" None true Session.alice Session.now
  = (inr (PostOut.Make 1 1 "Alice" None "hello again" None
            "2024-01-01T10:02:00Z" (Some "2024-01-01T10:10:00Z") 1 1 false),
     snd (update_post (rt := ascii_runtime)
            (Session.env "kk" "2024-01-01T10:10:00")
            1 "hello again" None true Session.alice Session.now))
  /\ exists p',
       SELECT_post_by_id 1
         (db (snd (update_post (rt := ascii_runtime)
                     (Session.env "kk" "2024-01-01T10:10:00")
                     1 "hello again" None true Session.alice Session.now)))
       = Some p'
       /\ Posts.image_url p' = None
       /\ Posts.updated_at p' = Some "2024-01-01T10:10:00Z".
Proof.
  assert (Hrun :
    update_post (rt := ascii_runtime) (Session.env "kk" "2024-01-01T10:10:00")
      1 "hello again" None true Session.alice Session.now
    = (inr (PostOut.Make 1 1 "Alice" None "hello again" None
              "2024-01-01T10:02:00Z" (Some "2024-01-01T10:10:00Z") 1 1 false),
       snd (update_post (rt := ascii_runtime)
              (Session.env "kk" "2024-01-01T10:10:00")
              1 "hello again" None true Session.alice Session.now)))
    by (vm_compute; reflexivity).
  split; [exact Hrun|].
  destruct (update_post_image_rule _ _ _ _ _ _ _ _ _ Hrun)
    as (p & p' & _ & _ & Hsel' & Hurl & Hstamp & _).
  exists p'. repeat split; assumption.
Defined.

(** An unknown e-mail, and Alice's e-mail with Bob's password. *)
Lemma login_failures_indistinguishable_witness :
  (SELECT_user_by_email (ascii_lower "nobody@example.com") (db Session.now) = None
   /\ SELECT_user_by_email (ascii_lower "Alice@Example.com") (db Session.now)
      = Some Session.alice
   /\ _verify_password (rt := ascii_runtime) "secret2"
        (Users.password_hash Session.alice) = false)
  /\ login (rt := ascii_runtime) (Session.env "ll" "2024-01-01T10:11:00")
       {| login_email := "nobody@example.com"; login_password := "secret1" |}
       Session.now
     = (inl (HTTPException 400 "Неверный email или пароль"), Session.now)
  /\ login (rt := ascii_runtime) (Session.env "mm" "2024-01-01T10:12:00")
       {| login_email := "Alice@Example.com"; login_password := "secret2" |}
       Session.now
     = login (rt := ascii_runtime) (Session.env "ll" "2024-01-01T10:11:00")
         {| login_email := "nobody@example.com"; login_password := "secret1" |}
         Session.now.
Proof.
  assert (Hnone : SELECT_user_by_email (ascii_lower "nobody@example.com")
                    (db Session.now) = None) by (vm_compute; reflexivity).
  assert (Hsome : SELECT_user_by_email (ascii_lower "Alice@Example.com")
                    (db Session.now) = Some Session.alice)
    by (vm_compute; reflexivity).
  assert (Hbad : _verify_password (rt := ascii_runtime) "secret2"
                   (Users.password_hash Session.alice) = false)
    by (vm_compute; reflexivity).
  split; [repeat split; assumption|].
  exact (login_failures_indistinguishable (rt := ascii_runtime)
           (Session.env "ll" "2024-01-01T10:11:00")
           (Session.env "mm" "2024-01-01T10:12:00")
           {| login_email := "nobody@example.com"; login_password := "secret1" |}
           {| login_email := "Alice@Example.com"; login_password := "secret2" |}
           Session.now Session.alice Hnone Hsome Hbad).
Defined.

(** Bob sends a blank text for a post that does not exist. *)
Lemma update_post_blank_text_first_witness :
  ascii_strip "   " = ""
  /\ update_post (rt := ascii_runtime) (Session.env "nn" "2024-01-01T10:13:00")
       7 "   " None false Session.bob Session.now
     = (inl (HTTPException 400 "Текст поста обязателен"), Session.now).
Proof.
  assert (Hblank : ascii_strip "   " = "") by reflexivity.
  split; [exact Hblank|].
  exact (update_post_blank_text_first (rt := ascii_runtime)
           (Session.env "nn" "2024-01-01T10:13:00") 7 "   " None false
           Session.bob Session.now Hblank).
Defined.

(** ** The claims around noon *)

Lemma noon_reachable : reachable (rt := ascii_runtime) Noon.now.
Proof. apply session_reachable. Qed.

(** C4 on the code.  The post Alice published at 12:00:00.000000 is stamped
    without a fraction, the one she published three tenths of a second
    later with one, and [ORDER BY created_at DESC] compares the two stamps
    as text: [feed] lists the older post first. *)
Theorem feed_lists_older_post_first :
  Datetime.ltb Noon.older_post Noon.newer_post = true
  /\ _now_iso (Noon.env "bb" Noon.older_post) = "2024-01-01T12:00:00Z"
  /\ _now_iso (Noon.env "cc" Noon.newer_post) = "2024-01-01T12:00:00.300000Z"
  /\ reachable (rt := ascii_runtime) Noon.now
  /\ feed None None None Noon.now
     = (inr [PostOut.Make 1 1 "Alice" None "older" None
               "2024-01-01T12:00:00Z" None 0 2 false;
             PostOut.Make 2 1 "Alice" None "newer" None
               "2024-01-01T12:00:00.300000Z" None 0 0 false],
        Noon.now).
Proof.
  split; [reflexivity|]. split; [reflexivity|]. split; [reflexivity|].
  split; [exact noon_reachable|]. vm_compute. reflexivity.
Qed.

(** C9 on the code.  Alice's first comment, written at 12:01:00.000000, is
    stamped without a fraction, her second, three tenths of a second later,
    with one, and [ORDER BY c.created_at ASC] compares the two stamps as
    text: [get_post] lists the later comment first. *)
Theorem get_post_lists_later_comment_first :
  Datetime.ltb Noon.first_comment Noon.second_comment = true
  /\ _now_iso (Noon.env "dd" Noon.first_comment) = "2024-01-01T12:01:00Z"
  /\ _now_iso (Noon.env "ee" Noon.second_comment)
     = "2024-01-01T12:01:00.300000Z"
  /\ reachable (rt := ascii_runtime) Noon.now
  /\ get_post 1 Session.anonymous Noon.now
     = (inr (PostDetailOut.Make
               (PostOut.Make 1 1 "Alice" None "older" None
                  "2024-01-01T12:00:00Z" None 0 2 false)
               [CommentOut.Make 2 1 1 "Alice" None "second"
                  "2024-01-01T12:01:00.300000Z";
                CommentOut.Make 1 1 1 "Alice" None "first"
                  "2024-01-01T12:01:00Z"]
               false),
        Noon.now).
Proof.
  split; [reflexivity|]. split; [reflexivity|]. split; [reflexivity|].
  split; [exact noon_reachable|]. vm_compute. reflexivity.
Qed.

(** * Further properties of the handlers *)

(** ** Password hashes *)

Lemma split_once_app (sep : ascii) (a b : string) :
  has_char sep a = false ->
  split_once sep (a ++ String sep b) = Some (a, b).
Proof.
  induction a as [|c a IH]; cbn.
  - intros _. now rewrite Ascii.eqb_refl.
  - intros Hno. apply orb_false_iff in Hno. destruct Hno as [Hc Ha].
    rewrite Hc, (IH Ha). reflexivity.
Qed.

Lemma split_once_some (sep : ascii) (s a b : string) :
  split_once sep s = Some (a, b) ->
  s = (a ++ String sep b)%string /\ has_char sep a = false.
Proof.
  revert a. induction s as [|c s IH]; cbn; intros a; [discriminate|].
  destruct (Ascii.eqb c sep) eqn:Hc.
  - intros [= <- <-]. apply Ascii.eqb_eq in Hc. subst c. auto.
  - destruct (split_once sep s) as [[a' b']|]; [|discriminate].
    intros [= <- <-]. destruct (IH a' eq_refl) as [-> Hno].
    cbn. rewrite Hc. auto.
Qed.

Section PasswordProps.
Context {rt : PyRuntime}.

Lemma _verify_password_of_hash (password salt : string) :
  has_char "$" salt = false ->
  _verify_password password (_hash_password password salt) = true.
Proof.
  intros Hsalt. unfold _verify_password, _hash_password. cbn zeta.
  change (salt ++ "$" ++ sha256_hexdigest (salt ++ password))%string
    with (salt ++ String "$" (sha256_hexdigest (salt ++ password)))%string.
  rewrite (split_once_app _ _ _ Hsalt). apply String.eqb_refl.
Qed.

(** X1.  A hash made by [_hash_password] with a salt that has no "$"
    verifies the password it was made from. *)
Theorem hash_then_verify (password salt : string) :
  has_char "$" salt = false ->
  _verify_password password (_hash_password password salt) = true.
Proof. apply _verify_password_of_hash. Qed.

(** X2.  [_verify_password] accepts a stored value only when it is what
    [_hash_password] makes of the password and the text before the first
    "$"; a stored value without "$" verifies no password. *)
Theorem verify_only_hashes (password stored : string) :
  _verify_password password stored = true ->
  exists salt,
    has_char "$" salt = false
    /\ stored = _hash_password password salt.
Proof.
  unfold _verify_password.
  destruct (split_once "$" stored) as [[salt digest]|] eqn:Hsplit;
    [|discriminate].
  intros Heq. apply String.eqb_eq in Heq.
  apply split_once_some in Hsplit. destruct Hsplit as [_ Hno].
  exists salt. auto.
Qed.

End PasswordProps.

(** ** The bearer token of a request *)

Lemma replace_Bearer_without_B (s : string) :
  has_char "B" s = false -> str_replace "Bearer " "" s = s.
Proof.
  unfold str_replace. induction s as [|c s IH]; [reflexivity|].
  cbn [has_char]. intros Hno. apply orb_false_iff in Hno.
  destruct Hno as [Hc Hs]. cbn [replace_from prefix].
  destruct (ascii_dec "B" c) as [<- | _]; [discriminate Hc|].
  f_equal. now apply IH.
Qed.

Lemma prefix_app (a b : string) : prefix a (a ++ b) = true.
Proof.
  induction a as [|c a IH]; cbn; [now destruct b|].
  destruct (ascii_dec c c) as [_|Hne]; [exact IH | now elim Hne].
Qed.

Lemma replace_from_match (old new : string) (c : ascii) (s : string) :
  prefix old (String c s) = true ->
  replace_from 0 old new (String c s)
  = (new ++ replace_from (String.length old - 1) old new s)%string.
Proof. intros Hp. cbn [replace_from]. now rewrite Hp. Qed.

Lemma bearer_token_of_header (tok : string) :
  has_char "B" tok = false ->
  bearer_token {| Authorization := Some ("Bearer " ++ tok) |} = tok
  /\ bearer_token {| Authorization := Some tok |} = tok.
Proof.
  intros Hno. unfold bearer_token. cbn [Authorization]. split.
  - unfold str_replace.
    change ("Bearer " ++ tok)%string with (String "B" ("earer " ++ tok)).
    rewrite replace_from_match
      by (exact (prefix_app "Bearer " tok)).
    change (String.length "Bearer " - 1)%nat with 6%nat.
    change ("earer " ++ tok)%string
      with (String "e" (String "a" (String "r" (String "e"
             (String "r" (String " " tok)))))).
    cbn [replace_from append].
    now apply replace_Bearer_without_B.
  - now apply replace_Bearer_without_B.
Qed.

(** X3.  [_require_user] reads the token by deleting every "Bearer " from the
    header: for a token without the letter B that resolves to a user, the
    header "Bearer <token>" and the bare header "<token>" both authenticate
    as that user, and the world is unchanged. *)
Theorem bearer_header_authenticates (tok : string) (u : Users.row)
    (w : world) :
  tok <> "" ->
  has_char "B" tok = false ->
  _get_user_by_token tok w = (inr (Some u), w) ->
  _require_user {| Authorization := Some ("Bearer " ++ tok) |} w = (inr u, w)
  /\ _require_user {| Authorization := Some tok |} w = (inr u, w).
Proof.
  intros Hne Hno Hres.
  destruct (bearer_token_of_header tok Hno) as [Hprefixed Hbare].
  assert (Htruthy : truthy tok = true).
  { destruct (truthy tok) eqn:Ht; [reflexivity|].
    apply truthy_false_iff in Ht. contradiction. }
  unfold _require_user. rewrite Hprefixed, Hbare. cbv zeta.
  unfold bind, raise_if. rewrite Htruthy. cbn [negb]. unfold ret at 1 3.
  rewrite Hres. split; reflexivity.
Qed.

(** X4.  [_require_user] never changes the world.  Without a token (no
    header, or nothing left of it once "Bearer " is deleted) it raises 401
    "Требуется авторизация"; with a token that no session row carries it
    raises 401 "Недействительный токен"; and a user it returns is a row of
    [users] that [_get_user_by_token] finds for the token. *)
Theorem require_user_outcome (request : Request) (w : world) :
  snd (_require_user request w) = w
  /\ (bearer_token request = "" ->
      fst (_require_user request w)
      = inl (HTTPException 401 "Требуется авторизация"))
  /\ (Authorization request = None ->
      fst (_require_user request w)
      = inl (HTTPException 401 "Требуется авторизация"))
  /\ (bearer_token request <> "" ->
      existsb (fun s => Sessions.token s =? bearer_token request)%string
              (sessions (db w)) = false ->
      fst (_require_user request w)
      = inl (HTTPException 401 "Недействительный токен"))
  /\ (forall u, fst (_require_user request w) = inr u ->
        In u (users (db w))
        /\ _get_user_by_token (bearer_token request) w = (inr (Some u), w)).
Proof.
  assert (Hempty : bearer_token request = "" ->
            _require_user request w
            = (inl (HTTPException 401 "Требуется авторизация"), w)).
  { intros Htok. unfold _require_user. cbv zeta. rewrite Htok. reflexivity. }
  assert (Hrun : truthy (bearer_token request) = true ->
            _require_user request w
            = (match SELECT_user_by_token (bearer_token request) (db w) with
               | Some u => inr u
               | None => inl (HTTPException 401 "Недействительный токен")
               end, w)).
  { intros Htok. unfold _require_user. cbv zeta. unfold bind, raise_if.
    rewrite Htok. cbn [negb]. unfold ret at 1.
    rewrite _get_user_by_token_run.
    destruct (SELECT_user_by_token _ (db w)); reflexivity. }
  destruct (truthy (bearer_token request)) eqn:Htruthy.
  - specialize (Hrun eq_refl).
    assert (Hne : bearer_token request <> "").
    { intros Heq. apply truthy_false_iff in Heq. congruence. }
    rewrite Hrun. cbn [fst snd]. split; [reflexivity|].
    split; [contradiction|]. split.
    { intros Hnone. exfalso. apply Hne. unfold bearer_token. now rewrite Hnone. }
    split.
    + intros _ Hnosession. unfold SELECT_user_by_token.
      rewrite filter_none; [reflexivity|].
      now apply existsb_false_forall.
    + intros u Hu.
      destruct (SELECT_user_by_token _ (db w)) as [u'|] eqn:Hsel;
        [|discriminate].
      injection Hu as ->. split; [now apply SELECT_user_by_token_In in Hsel|].
      now rewrite _get_user_by_token_run, Hsel.
  - apply truthy_false_iff in Htruthy. rewrite (Hempty Htruthy). cbn [fst snd].
    split; [reflexivity|]. split; [reflexivity|]. split; [reflexivity|].
    split; [contradiction | discriminate].
Qed.

(** ** Logging in *)

Section LoginProps.
Context {rt : PyRuntime}.

Lemma login_inversion (e : Env) (payload : LoginIn) (w w' : world)
    (out : TokenOut) :
  login e payload w = (inr out, w') ->
  exists u,
    SELECT_user_by_email (str_lower (login_email payload)) (db w) = Some u
    /\ _verify_password (login_password payload) (Users.password_hash u) = true
    /\ token out = _create_token e (Users.id u)
    /\ existsb (fun s => Sessions.token s =? token out)%string
               (sessions (db w)) = false
    /\ sessions (db w')
       = (sessions (db w)
          ++ [Sessions.Row (token out) (Users.id u) (_now_iso e)])%list
    /\ users (db w') = users (db w)
    /\ posts (db w') = posts (db w)
    /\ comments (db w') = comments (db w)
    /\ likes (db w') = likes (db w)
    /\ media (db w') = media (db w)
    /\ upload_dir w' = upload_dir w.
Proof.
  unfold login, INSERT_INTO_sessions. run_H.
  destruct (SELECT_user_by_email _ (db w)) as [u|]; [|discriminate].
  destruct (_verify_password _ _) eqn:Hverify; cbn; [|discriminate].
  destruct (existsb _ (sessions (db w))) eqn:Hfresh; [discriminate|].
  cbn. intros Heq. inversion Heq; subst; clear Heq. cbn.
  exists u. repeat split; try reflexivity; assumption.
Qed.

Lemma login_success (e : Env) (payload : LoginIn) (w : world)
    (u : Users.row) :
  SELECT_user_by_email (str_lower (login_email payload)) (db w) = Some u ->
  _verify_password (login_password payload) (Users.password_hash u) = true ->
  existsb (fun s => Sessions.token s =? _create_token e (Users.id u))%string
          (sessions (db w)) = false ->
  exists w',
    login e payload w = (inr {| token := _create_token e (Users.id u) |}, w').
Proof.
  intros Hsel Hverify Hfresh.
  unfold login, INSERT_INTO_sessions. run_H.
  rewrite Hsel, Hverify. cbn. rewrite Hfresh. cbn. eexists. reflexivity.
Qed.

(** The token of a session appended to the store resolves to the user of
    that session when no older session carries the token and exactly the
    row [u] has the session's user id. *)
Lemma appended_session_resolves (d d' : database) (tok : string)
    (u : Users.row) (created : string) :
  existsb (fun s => Sessions.token s =? tok)%string (sessions d) = false ->
  sessions d' = (sessions d ++ [Sessions.Row tok (Users.id u) created])%list ->
  filter (fun x => Users.id x =? Users.id u) (users d') = [u] ->
  SELECT_user_by_token tok d' = Some u.
Proof.
  intros Hfresh Hsessions Husers. unfold SELECT_user_by_token.
  rewrite Hsessions, filter_app.
  rewrite (filter_none _ (sessions d) (existsb_false_forall _ _ Hfresh)).
  cbn [filter app Sessions.token]. rewrite String.eqb_refl.
  cbn [flat_map Sessions.user_id]. rewrite Husers. reflexivity.
Qed.

(** X5.  In every world the service reaches, the token of a successful [login]
    resolves to the user row whose e-mail is the normalized e-mail of the
    payload, and the password of the payload verifies against that row. *)
Theorem login_token_resolves (e : Env) (payload : LoginIn) (w w' : world)
    (out : TokenOut) :
  reachable w ->
  login e payload w = (inr out, w') ->
  exists u,
    SELECT_user_by_email (str_lower (login_email payload)) (db w) = Some u
    /\ _verify_password (login_password payload) (Users.password_hash u) = true
    /\ _get_user_by_token (token out) w' = (inr (Some u), w').
Proof.
  intros Hreach Hrun. apply login_inversion in Hrun.
  destruct Hrun as (u & Hsel & Hverify & _ & Hfresh & Hsessions & Husers & _).
  exists u. split; [exact Hsel|]. split; [exact Hverify|].
  rewrite _get_user_by_token_run. f_equal. f_equal.
  apply (appended_session_resolves (db w) (db w') _ u _ Hfresh Hsessions).
  rewrite Husers. apply users_with_id.
  - exact (proj1 (reachable_db_ok w Hreach)).
  - unfold SELECT_user_by_email in Hsel. now apply find_some in Hsel.
Qed.

(** X6.  After a successful [register] with a salt that has no "$", a [login]
    with an e-mail that normalizes to the same string and with the same
    password succeeds as soon as its new token is not yet a session token,
    and that token resolves to the row the registration inserted. *)
Theorem register_then_login (e e' : Env) (payload : RegisterIn)
    (credentials : LoginIn) (w w' : world) (out : TokenOut) :
  register e payload w = (inr out, w') ->
  has_char "$" (token_hex_8 e) = false ->
  str_lower (login_email credentials) = str_lower (reg_email payload) ->
  login_password credentials = reg_password payload ->
  existsb (fun s =>
             Sessions.token s
             =? _create_token e' (Users.id (registered_row e payload (db w))))%string
          (sessions (db w')) = false ->
  exists out' w'',
    login e' credentials w' = (inr out', w'')
    /\ _get_user_by_token (token out') w''
       = (inr (Some (registered_row e payload (db w))), w'').
Proof.
  intros Hreg Hsalt Hemail Hpassword Hfresh.
  apply register_inversion in Hreg. cbv zeta in Hreg.
  destruct Hreg as (_ & Hnew_email & _ & Husers & _).
  set (u := registered_row e payload (db w)) in *.
  assert (Hsel : SELECT_user_by_email (str_lower (login_email credentials))
                   (db w') = Some u).
  { unfold SELECT_user_by_email. rewrite Husers, Hemail.
    rewrite find_hd_filter, filter_app.
    rewrite (filter_none
               (fun x => (Users.email x =? str_lower (reg_email payload))%string)
               (users (db w)))
      by exact (existsb_false_forall _ _ Hnew_email).
    cbn. now rewrite String.eqb_refl. }
  assert (Hverify : _verify_password (login_password credentials)
                      (Users.password_hash u) = true).
  { rewrite Hpassword. now apply _verify_password_of_hash. }
  destruct (login_success e' credentials w' u Hsel Hverify Hfresh)
    as (w'' & Hlogin).
  exists {| token := _create_token e' (Users.id u) |}, w''.
  split; [exact Hlogin|].
  apply login_inversion in Hlogin.
  destruct Hlogin as (u' & Hsel' & _ & _ & Hfresh' & Hsessions & Husers' & _).
  rewrite Hsel in Hsel'. injection Hsel' as <-.
  rewrite _get_user_by_token_run. f_equal. f_equal.
  apply (appended_session_resolves (db w') (db w'') _ u _ Hfresh' Hsessions).
  rewrite Husers', Husers, filter_app. cbn [filter]. rewrite Z.eqb_refl.
  rewrite filter_none; [reflexivity|].
  intros a Ha. apply Z.eqb_neq. intros Heq.
  apply (in_map Users.id) in Ha. rewrite Heq in Ha.
  apply (next_rowid_fresh (seq_users (sqlite_sequence (db w)))) in Ha.
  unfold u, registered_row in Ha. cbn in Ha. lia.
Qed.

End LoginProps.

(** ** What every call keeps *)

Section GenericPreservation.
Context {rt : PyRuntime}.
Variable J : database -> Prop.

Hypothesis keep_users :
  forall name email password_hash created_at,
    keeps J (INSERT_INTO_users name email password_hash created_at).
Hypothesis keep_sessions :
  forall conn token user_id created_at,
    keeps J (INSERT_INTO_sessions conn token user_id created_at).
Hypothesis keep_posts :
  forall conn author_id text image_url created_at,
    keeps J (INSERT_INTO_posts conn author_id text image_url created_at).
Hypothesis keep_media :
  forall owner_type owner_id url type created_at,
    keeps J (INSERT_INTO_media owner_type owner_id url type created_at).
Hypothesis keep_comments :
  forall conn post_id author_id text created_at,
    keeps J (INSERT_INTO_comments conn post_id author_id text created_at).
Hypothesis keep_likes :
  forall conn post_id user_id created_at,
    keeps J (INSERT_INTO_likes conn post_id user_id created_at).
Hypothesis keep_avatar :
  forall url uid, keeps J (UPDATE_users_avatar url uid).
Hypothesis keep_update_posts :
  forall text image_url updated_at pid,
    keeps J (UPDATE_posts text image_url updated_at pid).
Hypothesis keep_delete_posts :
  forall conn pid, keeps J (DELETE_FROM_posts conn pid).
Hypothesis keep_delete_likes :
  forall post_id user_id, keeps J (DELETE_FROM_likes post_id user_id).

Lemma any__require_user (request : Request) :
  preserves J (_require_user request).
Proof. unfold _require_user, _get_user_by_token. preserve. Qed.

Lemma any_Depends {A : Type} (request : Request)
    (handler : Users.row -> H A) :
  (forall user, preserves J (handler user)) ->
  preserves J (Depends_require_user request handler).
Proof.
  intros Hhandler. unfold Depends_require_user.
  apply preserves_bind; [apply any__require_user | exact Hhandler].
Qed.

Lemma any_register (e : Env) (payload : RegisterIn) :
  preserves J (register e payload).
Proof. unfold register. preserve. Qed.

Lemma any_login (e : Env) (payload : LoginIn) :
  preserves J (login e payload).
Proof. unfold login. preserve. Qed.

Lemma any_update_avatar (e : Env) (file : UploadFile) (user : Users.row) :
  preserves J (update_avatar e file user).
Proof. unfold update_avatar, _save_upload. preserve. Qed.

Lemma any_create_post (e : Env) (text : string) (image : option UploadFile)
    (user : Users.row) :
  preserves J (create_post e text image user).
Proof. unfold create_post, _save_upload, _get_post_out. preserve. Qed.

Lemma any_update_post (e : Env) (post_id : Z) (text : string)
    (image : option UploadFile) (remove_image : bool) (user : Users.row) :
  preserves J (update_post e post_id text image remove_image user).
Proof. unfold update_post, _save_upload, _get_post_out. preserve. Qed.

Lemma any_delete_post (post_id : Z) (user : Users.row) :
  preserves J (delete_post post_id user).
Proof. unfold delete_post. preserve. Qed.

Lemma any_feed (limit offset : option Z) (request : option Request) :
  preserves J (feed limit offset request).
Proof. unfold feed, _get_user_by_token. preserve. Qed.

Lemma any_get_post (post_id : Z) (request : Request) :
  preserves J (get_post post_id request).
Proof. unfold get_post, _get_post_out, _get_user_by_token. preserve. Qed.

Lemma any_add_comment (e : Env) (post_id : Z) (payload : CommentIn)
    (user : Users.row) :
  preserves J (add_comment e post_id payload user).
Proof. unfold add_comment. preserve. Qed.

Lemma any_like_post (e : Env) (post_id : Z) (user : Users.row) :
  preserves J (like_post e post_id user).
Proof. unfold like_post. preserve. Qed.

Lemma any_unlike_post (post_id : Z) (user : Users.row) :
  preserves J (unlike_post post_id user).
Proof. unfold unlike_post. preserve. Qed.

End GenericPreservation.

Lemma serve_preserves {rt : PyRuntime} (J : database -> Prop) :
  statements_keep J ->
  forall call w, J (db w) -> J (db (serve call w)).
Proof.
  intros [Hu Hs Hp Hm Hc Hl Ha Hup Hdp Hdl] call w.
  destruct call; cbn [serve].
  - now apply any_register.
  - now apply any_login.
  - apply any_Depends. intros user w0 Hw0. exact Hw0.
  - apply any_Depends. intros user. now apply any_update_avatar.
  - apply any_Depends. intros user. now apply any_create_post.
  - apply any_Depends. intros user. now apply any_update_post.
  - apply any_Depends. intros user. now apply any_delete_post.
  - now apply any_feed.
  - now apply any_get_post.
  - apply any_Depends. intros user. now apply any_add_comment.
  - apply any_Depends. intros user. now apply any_like_post.
  - apply any_Depends. intros user. now apply any_unlike_post.
Qed.

(** ** What no call removes *)

Ltac open_statement Hrun :=
  repeat match type of Hrun with
         | context [if ?b then _ else _] => destruct b; try discriminate Hrun
         end;
  injection Hrun as _ <-.

Ltac keeps_appending :=
  let d := fresh "d" in
  let extra := fresh "extra" in
  let Hd := fresh "Hd" in
  let Hrun := fresh "Hrun" in
  intros d ? ? [extra Hd] Hrun;
  unfold INSERT_INTO_users, INSERT_INTO_sessions, INSERT_INTO_posts,
    INSERT_INTO_media, INSERT_INTO_comments, INSERT_INTO_likes,
    UPDATE_users_avatar, UPDATE_posts, DELETE_FROM_posts, DELETE_FROM_likes
    in Hrun;
  cbv zeta in Hrun;
  open_statement Hrun;
  cbn [users sessions media];
  first [ exists extra; exact Hd
        | rewrite ?map_app, Hd, <- app_assoc; eexists; reflexivity ].

Lemma sessions_appended (l0 : list Sessions.row) :
  statements_keep (fun d => exists extra, sessions d = (l0 ++ extra)%list).
Proof. constructor; intros; keeps_appending. Qed.

Lemma media_appended (l0 : list Media.row) :
  statements_keep (fun d => exists extra, media d = (l0 ++ extra)%list).
Proof. constructor; intros; keeps_appending. Qed.

Lemma user_identity_avatar (url : string) (uid : Z) (us : list Users.row) :
  map user_identity
      (map (fun u =>
              if Users.id u =? uid
              then Users.Row (Users.id u) (Users.name u) (Users.email u)
                     (Users.password_hash u) (Some url) (Users.created_at u)
              else u) us)
  = map user_identity us.
Proof.
  rewrite map_map. apply map_ext. intros u.
  destruct (Users.id u =? uid); reflexivity.
Qed.

Lemma users_appended (l0 : list (Z * string * string * string * string)) :
  statements_keep
    (fun d => exists extra, map user_identity (users d) = (l0 ++ extra)%list).
Proof.
  constructor; intros; try keeps_appending.
  intros d a d' [extra Hd] Hrun. unfold UPDATE_users_avatar in Hrun.
  injection Hrun as _ <-. cbn [users]. rewrite user_identity_avatar.
  exists extra. exact Hd.
Qed.

(** X7.  No call removes or rewrites a session or a media row, and no call
    removes a user or changes a user's id, name, e-mail, password hash or
    creation time: after any call the three tables are the old ones with
    rows appended (users up to their avatar). *)
Theorem calls_only_append {rt : PyRuntime} (call : api_call) (w : world) :
  (exists new_sessions,
      sessions (db (serve call w))
      = (sessions (db w) ++ new_sessions)%list)
  /\ (exists new_media,
         media (db (serve call w)) = (media (db w) ++ new_media)%list)
  /\ (exists new_users,
         map user_identity (users (db (serve call w)))
         = (map user_identity (users (db w)) ++ new_users)%list).
Proof.
  split; [|split].
  - apply (serve_preserves _ (sessions_appended (sessions (db w)))).
    exists []. now rewrite app_nil_r.
  - apply (serve_preserves _ (media_appended (media (db w)))).
    exists []. now rewrite app_nil_r.
  - apply (serve_preserves _ (users_appended (map user_identity (users (db w))))).
    exists []. now rewrite app_nil_r.
Qed.

(** ** Keys and references in reachable worlds *)

Lemma next_rowid_above_seq (seq : Z) (ids : list Z) :
  seq < next_rowid seq ids.
Proof.
  unfold next_rowid. induction ids as [|j ids IH]; cbn; lia.
Qed.

Lemma NoDup_snoc {A : Type} (l : list A) (x : A) :
  NoDup l -> ~ In x l -> NoDup (l ++ [x]).
Proof.
  intros Hnd Hx. apply NoDup_app; [exact Hnd | repeat constructor; cbn; tauto|].
  intros y Hy [<- | []]. contradiction.
Qed.

Lemma NoDup_map_filter {A B : Type} (f : A -> B) (g : A -> bool)
    (l : list A) :
  NoDup (map f l) -> NoDup (map f (filter g l)).
Proof.
  induction l as [|x l IH]; cbn; [trivial|].
  intros Hnd. inversion Hnd as [|? ? Hnotin Hnd']; subst.
  destruct (g x); cbn; [|now apply IH].
  constructor; [|now apply IH].
  intros Hin. apply Hnotin. apply in_map_iff in Hin.
  destruct Hin as (y & Hy & Hin). apply filter_In in Hin.
  rewrite <- Hy. apply in_map. tauto.
Qed.

Lemma existsb_false_not_in {A B : Type} (f : A -> B) (test : A -> bool)
    (b : B) (l : list A) :
  (forall a, f a = b -> test a = true) ->
  existsb test l = false -> ~ In b (map f l).
Proof.
  intros Htest Hex Hin. apply in_map_iff in Hin. destruct Hin as (a & Ha & Hin).
  specialize (Htest a Ha).
  rewrite (existsb_false_forall _ _ Hex a Hin) in Htest. discriminate.
Qed.

Lemma has_user_app (d : database) (us : list Users.row) (uid : Z)
    (rest : list Users.row) :
  users d = us ->
  has_user d uid = true ->
  existsb (fun u => Users.id u =? uid) (us ++ rest) = true.
Proof.
  intros <- Hex. rewrite existsb_app. unfold has_user in Hex.
  now rewrite Hex.
Qed.

Lemma has_post_le (d : database) (pid : Z) :
  (forall p, In p (posts d) -> Posts.id p <= seq_posts (sqlite_sequence d)) ->
  has_post d pid = true -> pid <= seq_posts (sqlite_sequence d).
Proof.
  intros Hseq Hex. unfold has_post in Hex. apply existsb_exists in Hex.
  destruct Hex as (p & Hin & Hid). apply Z.eqb_eq in Hid. subst pid.
  now apply Hseq.
Qed.

Ltac open_refs HJ Hrun :=
  destruct HJ as (Hemail & Htok & Hpair & Hpid & Hsess & Hpseq & Hcseq & Hlseq);
  cbv zeta in Hrun; open_statement Hrun;
  unfold refs_ok, has_user;
  cbn [users posts comments likes sessions sqlite_sequence seq_posts].

Lemma refs_INSERT_INTO_users (name email password_hash created_at : string) :
  keeps refs_ok (INSERT_INTO_users name email password_hash created_at).
Proof.
  intros d a d' HJ Hrun. unfold INSERT_INTO_users in Hrun.
  destruct (existsb _ (users d)) eqn:Hex; [discriminate|].
  open_refs HJ Hrun. repeat split; try assumption.
  - rewrite map_app. apply NoDup_snoc; [exact Hemail|].
    refine (existsb_false_not_in Users.email _ email (users d) _ Hex).
    intros u ->. apply String.eqb_refl.
  - intros s Hs. apply (has_user_app d (users d)); [reflexivity | now apply Hsess].
Qed.

Lemma refs_INSERT_INTO_posts (conn : connection) (author_id : Z)
    (text : string) (image_url : option string) (created_at : string) :
  keeps refs_ok (INSERT_INTO_posts conn author_id text image_url created_at).
Proof.
  intros d a d' HJ Hrun. unfold INSERT_INTO_posts in Hrun.
  open_refs HJ Hrun.
  pose proof (next_rowid_above_seq (seq_posts (sqlite_sequence d))
                (map Posts.id (posts d))) as Habove.
  repeat split; try assumption.
  - rewrite map_app. apply NoDup_snoc; [exact Hpid|].
    intros Hin. apply (next_rowid_fresh (seq_posts (sqlite_sequence d))) in Hin.
    cbn in Hin. lia.
  - intros p Hp. apply in_app_or in Hp. destruct Hp as [Hp | [<- | []]].
    + specialize (Hpseq p Hp). lia.
    + cbn. lia.
  - intros c Hc. specialize (Hcseq c Hc). lia.
  - intros l Hl. specialize (Hlseq l Hl). lia.
Qed.

Lemma refs_INSERT_INTO_media (owner_type : string) (owner_id : Z)
    (url type created_at : string) :
  keeps refs_ok (INSERT_INTO_media owner_type owner_id url type created_at).
Proof.
  intros d a d' HJ Hrun. unfold INSERT_INTO_media in Hrun.
  open_refs HJ Hrun. repeat split; assumption.
Qed.

Lemma refs_UPDATE_users_avatar (url : string) (uid : Z) :
  keeps refs_ok (UPDATE_users_avatar url uid).
Proof.
  intros d a d' HJ Hrun. unfold UPDATE_users_avatar in Hrun.
  open_refs HJ Hrun. repeat split; try assumption.
  - rewrite map_map.
    rewrite (map_ext _ Users.email); [exact Hemail|].
    intros u. destruct (Users.id u =? uid); reflexivity.
  - intros s Hs. specialize (Hsess s Hs). unfold has_user in Hsess.
    rewrite existsb_exists in *. destruct Hsess as (u & Hu & Hid).
    eexists. split; [apply in_map; exact Hu|].
    destruct (Users.id u =? uid); exact Hid.
Qed.

Lemma refs_UPDATE_posts (text : string) (image_url : option string)
    (updated_at : string) (pid : Z) :
  keeps refs_ok (UPDATE_posts text image_url updated_at pid).
Proof.
  intros d a d' HJ Hrun. unfold UPDATE_posts in Hrun.
  open_refs HJ Hrun. repeat split; try assumption.
  - rewrite map_map.
    rewrite (map_ext _ Posts.id); [exact Hpid|].
    intros p. destruct (Posts.id p =? pid); reflexivity.
  - intros p Hp. apply in_map_iff in Hp. destruct Hp as (q & <- & Hq).
    specialize (Hpseq q Hq). destruct (Posts.id q =? pid); exact Hpseq.
Qed.

Lemma refs_DELETE_FROM_posts (conn : connection) (pid : Z) :
  keeps refs_ok (DELETE_FROM_posts conn pid).
Proof.
  intros d a d' HJ Hrun. unfold DELETE_FROM_posts in Hrun.
  destruct HJ as (Hemail & Htok & Hpair & Hpid & Hsess & Hpseq & Hcseq & Hlseq).
  cbv zeta in Hrun. injection Hrun as _ <-.
  unfold refs_ok, has_user.
  cbn [users posts comments likes sessions sqlite_sequence seq_posts].
  repeat split; try assumption.
  - destruct (foreign_keys conn); [now apply NoDup_map_filter | exact Hpair].
  - now apply NoDup_map_filter.
  - intros p Hp. apply filter_In in Hp. now apply Hpseq.
  - intros c Hc. apply Hcseq.
    destruct (foreign_keys conn); [now apply filter_In in Hc | exact Hc].
  - intros l Hl. apply Hlseq.
    destruct (foreign_keys conn); [now apply filter_In in Hl | exact Hl].
Qed.

Lemma refs_DELETE_FROM_likes (post_id user_id : Z) :
  keeps refs_ok (DELETE_FROM_likes post_id user_id).
Proof.
  intros d a d' HJ Hrun. unfold DELETE_FROM_likes in Hrun.
  open_refs HJ Hrun. repeat split; try assumption.
  - now apply NoDup_map_filter.
  - intros l Hl. apply filter_In in Hl. now apply Hlseq.
Qed.

Lemma refs_INSERT_INTO_sessions (conn : connection) (token : string)
    (user_id : Z) (created_at : string) (d d' : database) (a : unit) :
  refs_ok d -> has_user d user_id = true ->
  INSERT_INTO_sessions conn token user_id created_at d = Some (a, d') ->
  refs_ok d'.
Proof.
  intros HJ Huser Hrun. unfold INSERT_INTO_sessions in Hrun.
  destruct (existsb _ (sessions d)) eqn:Hex; [discriminate|].
  open_refs HJ Hrun. repeat split; try assumption.
  - rewrite map_app. apply NoDup_snoc; [exact Htok|].
    refine (existsb_false_not_in Sessions.token _ token (sessions d) _ Hex).
    intros s ->. apply String.eqb_refl.
  - intros s Hs. apply in_app_or in Hs. destruct Hs as [Hs | [<- | []]].
    + now apply Hsess.
    + exact Huser.
Qed.

Lemma refs_INSERT_INTO_comments (conn : connection) (post_id author_id : Z)
    (text created_at : string) (d d' : database) (a : Z) :
  refs_ok d -> has_post d post_id = true ->
  INSERT_INTO_comments conn post_id author_id text created_at d = Some (a, d') ->
  refs_ok d'.
Proof.
  intros HJ Hpost Hrun. unfold INSERT_INTO_comments in Hrun.
  open_refs HJ Hrun. repeat split; try assumption.
  intros c Hc. apply in_app_or in Hc. destruct Hc as [Hc | [<- | []]].
  - now apply Hcseq.
  - cbn. now apply has_post_le.
Qed.

Lemma refs_INSERT_INTO_likes (conn : connection) (post_id user_id : Z)
    (created_at : string) (d d' : database) (a : Z) :
  refs_ok d -> has_post d post_id = true ->
  INSERT_INTO_likes conn post_id user_id created_at d = Some (a, d') ->
  refs_ok d'.
Proof.
  intros HJ Hpost Hrun. unfold INSERT_INTO_likes in Hrun.
  destruct (has_like d post_id user_id) eqn:Hex; [discriminate|].
  open_refs HJ Hrun. repeat split; try assumption.
  - rewrite map_app. apply NoDup_snoc; [exact Hpair|].
    refine (existsb_false_not_in
              (fun l => (Likes.post_id l, Likes.user_id l)) _
              (post_id, user_id) (likes d) _ Hex).
    intros l [= -> ->]. now rewrite !Z.eqb_refl.
  - intros l Hl. apply in_app_or in Hl. destruct Hl as [Hl | [<- | []]].
    + now apply Hlseq.
    + cbn. now apply has_post_le.
Qed.

Lemma INSERT_INTO_users_has_user (name email password_hash created_at : string)
    (d d' : database) (uid : Z) :
  INSERT_INTO_users name email password_hash created_at d = Some (uid, d') ->
  has_user d' uid = true.
Proof.
  unfold INSERT_INTO_users. destruct (existsb _ (users d)); [discriminate|].
  cbv zeta. intros [= <- <-]. unfold has_user. cbn [users].
  rewrite existsb_app. cbn. rewrite Z.eqb_refl. now rewrite orb_true_r.
Qed.

Lemma SELECT_post_by_id_has_post (pid : Z) (d : database) (p : Posts.row) :
  SELECT_post_by_id pid d = Some p -> has_post d pid = true.
Proof.
  unfold SELECT_post_by_id, has_post. intros Hsel.
  destruct (existsb _ (posts d)) eqn:Hex; [reflexivity|].
  apply existsb_find_none in Hex. congruence.
Qed.

Section RefsPreserved.
Context {rt : PyRuntime}.

Lemma refs_register (e : Env) (payload : RegisterIn) :
  preserves refs_ok (register e payload).
Proof.
  intros w HJ. unfold register. run_H.
  destruct (INSERT_INTO_users _ _ _ _ (db w)) as [[uid d1]|] eqn:Husers;
    cbn; [|exact HJ].
  destruct (INSERT_INTO_sessions _ _ _ _ d1) as [[[] d2]|] eqn:Hsessions;
    cbn; [|exact HJ].
  eapply refs_INSERT_INTO_sessions; [| |exact Hsessions].
  - exact (refs_INSERT_INTO_users _ _ _ _ _ _ _ HJ Husers).
  - exact (INSERT_INTO_users_has_user _ _ _ _ _ _ _ Husers).
Qed.

Lemma refs_login (e : Env) (payload : LoginIn) :
  preserves refs_ok (login e payload).
Proof.
  intros w HJ. unfold login. run_H.
  destruct (SELECT_user_by_email _ (db w)) as [u|] eqn:Hsel; cbn; [|exact HJ].
  destruct (_verify_password _ _); cbn; [|exact HJ].
  destruct (INSERT_INTO_sessions _ _ _ _ (db w)) as [[[] d2]|] eqn:Hsessions;
    cbn; [|exact HJ].
  eapply refs_INSERT_INTO_sessions; [exact HJ | |exact Hsessions].
  unfold SELECT_user_by_email in Hsel. apply find_some in Hsel.
  apply has_user_iff. apply in_map. tauto.
Qed.

Lemma refs_add_comment (e : Env) (post_id : Z) (payload : CommentIn)
    (user : Users.row) :
  preserves refs_ok (add_comment e post_id payload user).
Proof.
  intros w HJ. unfold add_comment. run_H.
  destruct (truthy (str_strip (comment_text payload))); cbn; [|exact HJ].
  destruct (SELECT_post_by_id post_id (db w)) as [p|] eqn:Hsel; cbn;
    [|exact HJ].
  refine (refs_INSERT_INTO_comments connect post_id (Users.id user)
            (str_strip (comment_text payload)) (_now_iso e) (db w) _ _
            HJ _ eq_refl).
  now apply SELECT_post_by_id_has_post with (p := p).
Qed.

Lemma refs_like_post (e : Env) (post_id : Z) (user : Users.row) :
  preserves refs_ok (like_post e post_id user).
Proof.
  intros w HJ. unfold like_post. run_H.
  destruct (SELECT_post_by_id post_id (db w)) as [p|] eqn:Hsel; cbn;
    [|exact HJ].
  unfold INSERT_INTO_likes.
  destruct (has_like (db w) post_id (Users.id user)) eqn:Hlike; cbn;
    [exact HJ|].
  refine (refs_INSERT_INTO_likes connect post_id (Users.id user) (_now_iso e)
            (db w) _ _ HJ _ _).
  - now apply SELECT_post_by_id_has_post with (p := p).
  - unfold INSERT_INTO_likes. rewrite Hlike. reflexivity.
Qed.

Lemma serve_refs_ok (call : api_call) (w : world) :
  refs_ok (db w) -> refs_ok (db (serve call w)).
Proof.
  destruct call; cbn [serve].
  - apply refs_register.
  - apply refs_login.
  - apply any_Depends. intros user w0 Hw0. exact Hw0.
  - apply any_Depends. intros user. apply any_update_avatar.
    + exact refs_INSERT_INTO_media.
    + exact refs_UPDATE_users_avatar.
  - apply any_Depends. intros user. apply any_create_post.
    + exact refs_INSERT_INTO_posts.
    + exact refs_INSERT_INTO_media.
  - apply any_Depends. intros user. apply any_update_post.
    + exact refs_INSERT_INTO_media.
    + exact refs_UPDATE_posts.
  - apply any_Depends. intros user. apply any_delete_post.
    exact refs_DELETE_FROM_posts.
  - apply any_feed.
  - apply any_get_post.
  - apply any_Depends. intros user. apply refs_add_comment.
  - apply any_Depends. intros user. apply refs_like_post.
  - apply any_Depends. intros user. apply any_unlike_post.
    exact refs_DELETE_FROM_likes.
Qed.

Lemma empty_refs_ok : refs_ok empty_db.
Proof. repeat split; cbn; try constructor; intros ? []. Qed.

Lemma reachable_refs_ok (w : world) : reachable w -> refs_ok (db w).
Proof.
  induction 1 as [files | call w Hreach IH].
  - exact empty_refs_ok.
  - now apply serve_refs_ok.
Qed.

End RefsPreserved.

Lemma sessions_with_token (ss : list Sessions.row) (s : Sessions.row) :
  NoDup (map Sessions.token ss) -> In s ss ->
  filter (fun x => Sessions.token x =? Sessions.token s)%string ss = [s].
Proof.
  induction ss as [|x ss IH]; cbn; [tauto|].
  intros Hnd Hin. inversion Hnd as [|? ? Hnotin Hnd']; subst.
  destruct Hin as [-> | Hin].
  - rewrite String.eqb_refl. f_equal. apply filter_none.
    intros a Ha. apply String.eqb_neq. intros Heq. apply Hnotin.
    rewrite <- Heq. now apply in_map.
  - assert (Hne : Sessions.token x <> Sessions.token s).
    { intros Heq. apply Hnotin. rewrite Heq. now apply in_map. }
    apply String.eqb_neq in Hne. rewrite Hne. now apply IH.
Qed.

Section ReachableProps.
Context {rt : PyRuntime}.

(** X8.  In every world the service reaches the keys of the schema are unique:
    user ids, e-mails, session tokens, post ids, and the (post, user) pair
    of a like, so that no user is counted twice in the likes of a post. *)
Theorem reachable_keys_unique (w : world) :
  reachable w ->
  NoDup (map Users.id (users (db w)))
  /\ NoDup (map Users.email (users (db w)))
  /\ NoDup (map Sessions.token (sessions (db w)))
  /\ NoDup (map Posts.id (posts (db w)))
  /\ NoDup (map (fun l => (Likes.post_id l, Likes.user_id l)) (likes (db w))).
Proof.
  intros Hreach.
  destruct (reachable_db_ok w Hreach) as (Hids & _).
  destruct (reachable_refs_ok w Hreach)
    as (Hemail & Htok & Hpair & Hpid & _).
  auto.
Qed.

(** X9.  Sessions do not expire: in every world the service reaches, the token
    of every session row resolves, to the user with the session's user id. *)
Theorem sessions_always_resolve (w : world) (s : Sessions.row) :
  reachable w ->
  In s (sessions (db w)) ->
  exists u,
    _get_user_by_token (Sessions.token s) w = (inr (Some u), w)
    /\ Users.id u = Sessions.user_id s
    /\ In u (users (db w)).
Proof.
  intros Hreach Hin.
  destruct (reachable_db_ok w Hreach) as (Hids & _).
  destruct (reachable_refs_ok w Hreach) as (_ & Htok & _ & _ & Hsess & _).
  destruct (has_user_unique (db w) _ Hids (Hsess s Hin))
    as (u & Hfilter & _ & Hu & Hid).
  exists u. split; [|auto].
  rewrite _get_user_by_token_run. unfold SELECT_user_by_token.
  rewrite (sessions_with_token _ s Htok Hin). cbn [flat_map].
  rewrite Hfilter. reflexivity.
Qed.

End ReachableProps.

(** ** Creating a post *)

Section CreatePostProps.
Context {rt : PyRuntime}.

Lemma create_post_inversion (e : Env) (text : string)
    (image : option UploadFile) (user : Users.row) (w w' : world)
    (out : PostOut.t) :
  create_post e text image user w = (inr out, w') ->
  let pid := next_rowid (seq_posts (sqlite_sequence (db w)))
                        (map Posts.id (posts (db w))) in
  let url := option_map
               (fun file => saved_url e file
                              ("post" ++ str_of_int (Users.id user)))
               image in
  truthy (str_strip text) = true
  /\ posts (db w')
     = (posts (db w)
        ++ [Posts.Row pid (Users.id user) (str_strip text) url (_now_iso e)
                      None])%list
  /\ users (db w') = users (db w)
  /\ comments (db w') = comments (db w)
  /\ likes (db w') = likes (db w)
  /\ sessions (db w') = sessions (db w)
  /\ (exists rows, media (db w') = (media (db w) ++ rows)%list
                   /\ forall m, In m rows ->
                        Media.owner_type m = "post" /\ Media.owner_id m = pid
                        /\ Some (Media.url m) = url)
  /\ _get_post_out pid w' = (inr out, w').
Proof.
  unfold create_post. intros Hrun.
  apply bind_inr in Hrun as (? & w1 & Htext & Hrun).
  apply raise_if_inr in Htext as [Htext ->].
  apply negb_false_iff in Htext.
  apply bind_inr in Hrun as (image_url & w2 & Himage & Hrun).
  assert (Hurl : image_url
                 = option_map
                     (fun file => saved_url e file
                                    ("post" ++ str_of_int (Users.id user)))
                     image
                 /\ db w2 = db w).
  { destruct image as [file|]; cbn [option_map].
    - apply bind_inr in Himage as (url & w3 & Hsave & Hret).
      apply _save_upload_inversion in Hsave as [Hdb ->].
      apply ret_inr in Hret as [-> ->]. auto.
    - apply ret_inr in Himage as [-> ->]. auto. }
  destruct Hurl as [-> Hdb2]. cbv zeta in Hrun.
  apply bind_inr in Hrun as (post_id & w3 & Htx & Hout).
  pose proof (_get_post_out_world _ _ _ _ Hout) as <-.
  apply with_connect_inr in Htx.
  apply bind_inr in Htx as (pid & w4 & Hins & Htx).
  apply execute_inr in Hins as [Hins _].
  unfold INSERT_INTO_posts, fk_ok, connect in Hins.
  cbn [foreign_keys negb orb] in Hins. cbv zeta in Hins.
  injection Hins as Hpid Hdb4.
  apply bind_inr in Htx as (? & w5 & Hmedia & Hret).
  apply ret_inr in Hret as [-> <-]. subst pid.
  rewrite Hdb2 in Hdb4, Hmedia, Hout.
  set (new_id := next_rowid (seq_posts (sqlite_sequence (db w)))
                            (map Posts.id (posts (db w)))) in *.
  set (url := option_map
                (fun file => saved_url e file
                               ("post" ++ str_of_int (Users.id user)))
                image) in *.
  assert (Hm : users (db w') = users (db w4)
               /\ posts (db w') = posts (db w4)
               /\ comments (db w') = comments (db w4)
               /\ likes (db w') = likes (db w4)
               /\ sessions (db w') = sessions (db w4)
               /\ exists rows,
                    media (db w') = (media (db w4) ++ rows)%list
                    /\ forall m, In m rows ->
                         Media.owner_type m = "post"
                         /\ Media.owner_id m = new_id
                         /\ Some (Media.url m) = url).
  { destruct url as [u|].
    - destruct (truthy u).
      + apply bind_inr in Hmedia as (? & w6 & Hexec & Hret).
        apply ret_inr in Hret as [_ ->].
        apply execute_inr in Hexec as [Hexec _].
        unfold INSERT_INTO_media in Hexec. injection Hexec as _ Hdb.
        rewrite <- Hdb. cbn. repeat split; try reflexivity.
        eexists. split; [reflexivity|].
        intros m [<- | []]. cbn. auto.
      + apply ret_inr in Hmedia as [_ ->]. repeat split; try reflexivity.
        exists []. split; [now rewrite app_nil_r | intros m []].
    - apply ret_inr in Hmedia as [_ ->]. repeat split; try reflexivity.
      exists []. split; [now rewrite app_nil_r | intros m []]. }
  destruct Hm as (Hu & Hp & Hc & Hl & Hs & rows & Hmedia' & Hrows).
  rewrite Hu, Hp, Hc, Hl, Hs, Hmedia', <- Hdb4.
  cbn [users posts comments likes sessions media].
  split; [exact Htext|]. repeat split; try reflexivity.
  - exists rows. split; [reflexivity | exact Hrows].
  - exact Hout.
Qed.

End CreatePostProps.

Section CreatePostFresh.
Context {rt : PyRuntime}.

Lemma nothing_refers_above (d : database) (pid : Z) :
  refs_ok d -> seq_posts (sqlite_sequence d) < pid ->
  filter (fun p => Posts.id p =? pid) (posts d) = []
  /\ filter (fun c => Comments.post_id c =? pid) (comments d) = []
  /\ filter (fun l => Likes.post_id l =? pid) (likes d) = []
  /\ forall uid, has_like d pid uid = false.
Proof.
  intros (_ & _ & _ & _ & _ & Hpseq & Hcseq & Hlseq) Habove.
  assert (Hp : forall p, In p (posts d) -> (Posts.id p =? pid) = false).
  { intros p Hp. apply Z.eqb_neq. specialize (Hpseq p Hp). lia. }
  assert (Hc : forall c, In c (comments d) ->
                 (Comments.post_id c =? pid) = false).
  { intros c Hc. apply Z.eqb_neq. specialize (Hcseq c Hc). lia. }
  assert (Hl : forall l, In l (likes d) -> (Likes.post_id l =? pid) = false).
  { intros l Hl. apply Z.eqb_neq. specialize (Hlseq l Hl). lia. }
  repeat split; try (now apply filter_none).
  intros uid. unfold has_like. apply not_true_is_false. intros Hex.
  apply existsb_exists in Hex. destruct Hex as (l & Hin & Hl').
  rewrite (Hl l Hin) in Hl'. discriminate.
Qed.

(** X10.  A new post starts clean.  In every world the service reaches, a
    successful [create_post] returns a post whose id no stored post has, with
    the stripped text, the caller as author, no update stamp, and with
    [likes_count = 0] and [comments_count = 0]: rows left behind by deleted
    posts are never counted for it, because post ids are not reused.
    [get_post] for the new id then returns the same view, no comments and
    [liked_by_me = false], whoever asks. *)
Theorem create_post_starts_clean (e : Env) (text : string)
    (image : option UploadFile) (user : Users.row) (w w' : world)
    (out : PostOut.t) :
  reachable w ->
  create_post e text image user w = (inr out, w') ->
  ~ In (PostOut.id out) (map Posts.id (posts (db w)))
  /\ PostOut.text out = str_strip text
  /\ PostOut.author_id out = Users.id user
  /\ PostOut.created_at out = _now_iso e
  /\ PostOut.updated_at out = None
  /\ PostOut.image_url out
     = option_map (fun file => saved_url e file
                                 ("post" ++ str_of_int (Users.id user)))
                  image
  /\ PostOut.likes_count out = 0
  /\ PostOut.comments_count out = 0
  /\ forall request,
       get_post (PostOut.id out) request w'
       = (inr (PostDetailOut.Make out [] false), w').
Proof.
  intros Hreach Hrun. pose proof (reachable_refs_ok w Hreach) as Hrefs.
  apply create_post_inversion in Hrun. cbv zeta in Hrun.
  destruct Hrun as (_ & Hposts & _ & Hcomments & Hlikes & _ & _ & Hout).
  set (pid := next_rowid (seq_posts (sqlite_sequence (db w)))
                         (map Posts.id (posts (db w)))) in *.
  assert (Habove : seq_posts (sqlite_sequence (db w)) < pid)
    by apply next_rowid_above_seq.
  destruct (nothing_refers_above (db w) pid Hrefs Habove)
    as (Hno_post & Hno_comment & Hno_like & Hno_has_like).
  assert (Hview : exists v,
             SELECT_post_view pid (db w') = Some v
             /\ out = PostOut.Make (Posts.id (pv_post v))
                        (Posts.author_id (pv_post v)) (pv_author_name v)
                        (pv_author_avatar_url v) (Posts.text (pv_post v))
                        (Posts.image_url (pv_post v))
                        (Posts.created_at (pv_post v))
                        (Posts.updated_at (pv_post v)) (pv_likes_count v)
                        (pv_comments_count v) false).
  { unfold _get_post_out in Hout. run_H.
    destruct (SELECT_post_view pid (db w')) as [v|]; [|discriminate].
    exists v. split; [reflexivity|]. now injection Hout as <-. }
  destruct Hview as (v & Hv & ->).
  unfold SELECT_post_view in Hv. apply hd_error_In in Hv.
  apply posts_join_users_In in Hv.
  destruct Hv as (Hpost & Hlc & Hcc & _).
  rewrite Hposts, filter_app, Hno_post in Hpost. cbn [filter app] in Hpost.
  cbn [Posts.id] in Hpost. rewrite Z.eqb_refl in Hpost.
  destruct Hpost as [Hpost | []]. rewrite <- Hpost in *.
  cbn [PostOut.id PostOut.text PostOut.author_id PostOut.created_at
       PostOut.updated_at PostOut.image_url PostOut.likes_count
       PostOut.comments_count Posts.id Posts.text Posts.author_id
       Posts.created_at Posts.updated_at Posts.image_url] in *.
  assert (Hlc0 : likes_count_of (db w') pid = 0).
  { unfold likes_count_of. now rewrite Hlikes, Hno_like. }
  assert (Hcc0 : comments_count_of (db w') pid = 0).
  { unfold comments_count_of. now rewrite Hcomments, Hno_comment. }
  split.
  { intros Hin. apply (next_rowid_fresh (seq_posts (sqlite_sequence (db w))))
      in Hin. fold pid in Hin. lia. }
  repeat split; try reflexivity; try congruence.
  intros request. unfold get_post. unfold bind at 1. rewrite Hout.
  run_H. unfold SELECT_comments_of. rewrite Hcomments, Hno_comment.
  cbn [flat_map order_by fold_right map].
  destruct (truthy (bearer_token request)); [|reflexivity].
  rewrite _get_user_by_token_run.
  destruct (SELECT_user_by_token _ (db w')) as [viewer|]; [|reflexivity].
  unfold has_like. rewrite Hlikes. fold (has_like (db w) pid (Users.id viewer)).
  now rewrite Hno_has_like.
Qed.

End CreatePostFresh.

(** ** Comments *)

Section CommentProps.
Context {rt : PyRuntime}.

(** The row [add_comment] inserts into [comments]. *)
Lemma add_comment_success (e : Env) (post_id : Z) (payload : CommentIn)
    (user : Users.row) (w : world) (p : Posts.row) :
  truthy (str_strip (comment_text payload)) = true ->
  SELECT_post_by_id post_id (db w) = Some p ->
  let cid := next_rowid (seq_comments (sqlite_sequence (db w)))
                        (map Comments.id (comments (db w))) in
  let row := Comments.Row cid post_id (Users.id user)
               (str_strip (comment_text payload)) (_now_iso e) in
  exists w',
    add_comment e post_id payload user w
    = (inr (CommentOut.Make cid post_id (Users.id user) (Users.name user)
              (Users.avatar_url user) (str_strip (comment_text payload))
              (_now_iso e)),
       w')
    /\ comments (db w') = (comments (db w) ++ [row])%list
    /\ users (db w') = users (db w)
    /\ posts (db w') = posts (db w)
    /\ likes (db w') = likes (db w).
Proof.
  intros Htext Hsel cid row. unfold add_comment, INSERT_INTO_comments. run_H.
  rewrite Htext. cbn. rewrite Hsel. cbn.
  eexists. split; [reflexivity|]. cbn. auto.
Qed.

(** X11.  [add_comment] checks the text before it looks for the post: a
    text that is empty after [strip] is answered 400 "Текст комментария
    обязателен" whatever the post id, before any statement is run; a
    non-empty text for a post id that SQLite can bind and that no post has
    is answered 404 "Пост не найден"; the world is unchanged in both
    cases. *)
Theorem add_comment_rejections (e : Env) (post_id : Z) (payload : CommentIn)
    (user : Users.row) (w : world) :
  (str_strip (comment_text payload) = "" ->
   add_comment e post_id payload user w
   = (inl (HTTPException 400 "Текст комментария обязателен"), w))
  /\ (str_strip (comment_text payload) <> "" ->
      sqlite_int post_id = true ->
      SELECT_post_by_id post_id (db w) = None ->
      add_comment e post_id payload user w
      = (inl (HTTPException 404 "Пост не найден"), w)).
Proof.
  split.
  - intros Hblank. unfold add_comment. run_H. rewrite Hblank. reflexivity.
  - intros Htext _ Hnone. unfold add_comment. run_H.
    destruct (truthy (str_strip (comment_text payload))) eqn:Ht.
    + cbn. rewrite Hnone. now rewrite world_eta.
    + apply truthy_false_iff in Ht. contradiction.
Qed.

(** X12.  A successful [add_comment] appends one comment row, with a new id, the
    post id, the caller as author and the stripped text; the comment count
    of that post grows by one and the count of every other post stays. *)
Theorem add_comment_appends (e : Env) (post_id : Z) (payload : CommentIn)
    (user : Users.row) (w : world) (p : Posts.row) :
  str_strip (comment_text payload) <> "" ->
  SELECT_post_by_id post_id (db w) = Some p ->
  exists out w',
    add_comment e post_id payload user w = (inr out, w')
    /\ comments (db w')
       = (comments (db w)
          ++ [Comments.Row (CommentOut.id out) post_id (Users.id user)
                           (str_strip (comment_text payload)) (_now_iso e)])%list
    /\ ~ In (CommentOut.id out) (map Comments.id (comments (db w)))
    /\ CommentOut.text out = str_strip (comment_text payload)
    /\ CommentOut.author_id out = Users.id user
    /\ comments_count_of (db w') post_id
       = comments_count_of (db w) post_id + 1
    /\ forall other, other <> post_id ->
         comments_count_of (db w') other = comments_count_of (db w) other.
Proof.
  intros Htext Hsel.
  assert (Ht : truthy (str_strip (comment_text payload)) = true).
  { destruct (truthy _) eqn:Ht; [reflexivity|].
    apply truthy_false_iff in Ht. contradiction. }
  destruct (add_comment_success e post_id payload user w p Ht Hsel)
    as (w' & Hrun & Hcomments & _).
  cbv zeta in Hrun, Hcomments. eexists. exists w'.
  split; [exact Hrun|]. cbn [CommentOut.id CommentOut.text CommentOut.author_id].
  split; [exact Hcomments|]. split.
  { intros Hin.
    apply (next_rowid_fresh (seq_comments (sqlite_sequence (db w)))) in Hin.
    lia. }
  split; [reflexivity|]. split; [reflexivity|].
  unfold comments_count_of. rewrite Hcomments. split.
  - rewrite filter_app, length_app. cbn. rewrite Z.eqb_refl. cbn. lia.
  - intros other Hother. rewrite filter_app, length_app. cbn.
    apply not_eq_sym, Z.eqb_neq in Hother. rewrite Hother. cbn. lia.
Qed.

(** X13.  In every world the service reaches, the comment an authenticated
    caller has just added is among the comments [get_post] returns for the post,
    as [add_comment] returned it. *)
Theorem add_comment_then_get_post (e : Env) (post_id : Z)
    (payload : CommentIn) (request viewer : Request) (user : Users.row)
    (w w' : world) (out : CommentOut.t) :
  reachable w ->
  _require_user request w = (inr user, w) ->
  add_comment e post_id payload user w = (inr out, w') ->
  exists detail,
    get_post post_id viewer w' = (inr detail, w')
    /\ In out (PostDetailOut.comments detail).
Proof.
  intros Hreach Hauth Hrun.
  pose proof (reachable_db_ok w Hreach) as Hok.
  assert (Huser : In user (users (db w))).
  { apply _require_user_run in Hauth. destruct Hauth as [_ Hin]. now apply Hin. }
  assert (Hok' : db_ok (db w')).
  { assert (Hpre : db_ok_with (Some (Users.id user)) (db w)).
    { split; [exact Hok|]. apply has_user_iff. now apply in_map. }
    pose proof (preserves_add_comment e post_id payload user w Hpre) as Hpost.
    rewrite Hrun in Hpost. exact (proj1 Hpost). }
  assert (Hparts : truthy (str_strip (comment_text payload)) = true
                   /\ exists p, SELECT_post_by_id post_id (db w) = Some p).
  { unfold add_comment in Hrun. run_H.
    destruct (truthy (str_strip (comment_text payload))); [|discriminate].
    split; [reflexivity|]. cbn in Hrun.
    destruct (SELECT_post_by_id post_id (db w)) as [p|]; [|discriminate].
    now exists p. }
  destruct Hparts as (Htext & p & Hsel).
  destruct (add_comment_success e post_id payload user w p Htext Hsel)
    as (w1 & Hrun1 & Hcomments & Husers & Hposts & _).
  cbv zeta in Hrun1, Hcomments. rewrite Hrun in Hrun1.
  injection Hrun1 as -> <-.
  assert (Hsel' : SELECT_post_by_id post_id (db w') = Some p).
  { unfold SELECT_post_by_id in *. now rewrite Hposts. }
  destruct (get_post_found post_id viewer w' p Hok' Hsel')
    as (author & _ & Hget).
  eexists. split; [exact Hget|]. cbn [PostDetailOut.comments].
  set (row := Comments.Row
                (next_rowid (seq_comments (sqlite_sequence (db w)))
                            (map Comments.id (comments (db w))))
                post_id (Users.id user) (str_strip (comment_text payload))
                (_now_iso e)) in *.
  apply in_map_iff.
  exists {| cv_comment := row; cv_author_name := Users.name user;
            cv_author_avatar_url := Users.avatar_url user |}.
  split; [reflexivity|]. unfold SELECT_comments_of.
  eapply Permutation_in; [apply order_by_perm|].
  apply in_flat_map. exists row. split.
  - apply filter_In. split.
    + rewrite Hcomments. apply in_or_app. right. now left.
    + cbn. apply Z.eqb_refl.
  - rewrite Husers. cbn [Comments.author_id row].
    rewrite (users_with_id _ user (proj1 Hok) Huser). now left.
Qed.

End CommentProps.

(** ** Likes and counts *)

Section LikeCountProps.

(** X14.  [like_post] then [unlike_post] is a round trip on the [likes] table:
    on an existing post the caller has not liked, the like succeeds, the post
    then counts one more like and is liked by the caller, and the unlike that
    follows leaves the table of likes exactly as it was before. *)
Theorem like_then_unlike (e : Env) (post_id : Z) (user : Users.row)
    (w : world) (p : Posts.row) :
  SELECT_post_by_id post_id (db w) = Some p ->
  has_like (db w) post_id (Users.id user) = false ->
  exists w1 w2,
    like_post e post_id user w = (inr status_ok, w1)
    /\ has_like (db w1) post_id (Users.id user) = true
    /\ likes_count_of (db w1) post_id = likes_count_of (db w) post_id + 1
    /\ unlike_post post_id user w1 = (inr status_ok, w2)
    /\ likes (db w2) = likes (db w)
    /\ likes_count_of (db w2) post_id = likes_count_of (db w) post_id.
Proof.
  intros Hsel Hlike.
  destruct (like_post_first e post_id user w p Hsel Hlike)
    as (w1 & Hrun1 & _ & Hlikes1).
  exists w1. eexists. split; [exact Hrun1|].
  assert (Hkeep : filter (fun l => negb ((Likes.post_id l =? post_id)
                                         && (Likes.user_id l =? Users.id user)))
                         (likes (db w)) = likes (db w)).
  { apply forallb_filter_id. apply forallb_forall. intros l Hl.
    apply negb_true_iff.
    exact (existsb_false_forall _ _ Hlike l Hl). }
  split.
  { unfold has_like. rewrite Hlikes1, existsb_app. cbn.
    rewrite !Z.eqb_refl. cbn. apply orb_true_r. }
  split.
  { unfold likes_count_of. rewrite Hlikes1, filter_app, length_app. cbn.
    rewrite Z.eqb_refl. cbn. lia. }
  unfold unlike_post, DELETE_FROM_likes. run_H.
  split; [reflexivity|]. cbn [likes].
  assert (Hback : filter (fun l => negb ((Likes.post_id l =? post_id)
                                         && (Likes.user_id l =? Users.id user)))
                         (likes (db w1)) = likes (db w)).
  { rewrite Hlikes1, filter_app, Hkeep. cbn. rewrite !Z.eqb_refl. cbn.
    apply app_nil_r. }
  unfold likes_count_of. cbn [likes]. rewrite Hback. auto.
Qed.

(** X15.  For a post id that SQLite can bind, [unlike_post] succeeds and
    removes the like rows of the caller on that post and nothing else:
    every other like row stays, and so do the like counts of all other
    posts, the posts, the comments and the users. *)
Theorem unlike_post_removes_only_own (post_id : Z) (user : Users.row)
    (w : world) :
  sqlite_int post_id = true ->
  exists w',
    unlike_post post_id user w = (inr status_ok, w')
    /\ (forall l, In l (likes (db w')) <->
                  In l (likes (db w))
                  /\ ~ (Likes.post_id l = post_id
                        /\ Likes.user_id l = Users.id user))
    /\ (forall other, other <> post_id ->
          likes_count_of (db w') other = likes_count_of (db w) other)
    /\ posts (db w') = posts (db w)
    /\ comments (db w') = comments (db w)
    /\ users (db w') = users (db w)
    /\ sessions (db w') = sessions (db w).
Proof.
  intros _. unfold unlike_post, DELETE_FROM_likes. run_H.
  eexists. split; [reflexivity|]. cbn [db likes posts comments users sessions].
  split; [|split; [|auto]].
  - intros l. rewrite filter_In, negb_true_iff, andb_false_iff.
    rewrite !Z.eqb_neq. split.
    + intros [Hin Hne]. split; [exact Hin|]. intros [Hp Hu].
      destruct Hne; contradiction.
    + intros [Hin Hne]. split; [exact Hin|].
      destruct (Z.eq_dec (Likes.post_id l) post_id) as [Hp|Hp]; [|now left].
      right. intros Hu. apply Hne. auto.
  - intros other Hother. unfold likes_count_of. cbn [likes]. f_equal. f_equal.
    induction (likes (db w)) as [|l ls IH]; [reflexivity|]. cbn.
    destruct (Likes.post_id l =? post_id) eqn:Hp; cbn.
    + apply Z.eqb_eq in Hp.
      assert (Hneq : (Likes.post_id l =? other) = false).
      { apply Z.eqb_neq. congruence. }
      destruct (Likes.user_id l =? Users.id user); cbn; rewrite ?Hneq;
        exact IH.
    + destruct (Likes.post_id l =? other); cbn; now rewrite IH.
Qed.

End LikeCountProps.

(** ** Uploads *)

Section UploadProps.
Context {rt : PyRuntime}.

Lemma _save_upload_outcome (e : Env) (file : UploadFile) (prefix : string)
    (w : world) :
  let ext := str_lower (path_suffix (filename file)) in
  let name := (prefix ++ "_" ++ token_hex_8 e ++ ext)%string in
  (exists detail,
      _save_upload e file prefix w = (inl (HTTPException 400 detail), w)
      /\ (filename file = ""
          \/ existsb (String.eqb ext) allowed_suffixes = false
          \/ file_read file = ""))
  \/ (_save_upload e file prefix w
      = (inr ("/uploads/" ++ name)%string,
         World (db w) ((name, file_read file) :: upload_dir w))
      /\ filename file <> ""
      /\ existsb (String.eqb ext) allowed_suffixes = true
      /\ file_read file <> "").
Proof.
  cbv zeta. unfold _save_upload, write_bytes, bind, raise_if, ret, raise.
  destruct (truthy (filename file)) eqn:Hname; cbn [negb]; cbv beta iota.
  2:{ left. eexists. split; [reflexivity|]. left.
      now apply truthy_false_iff. }
  destruct (existsb (String.eqb (str_lower (path_suffix (filename file))))
                    allowed_suffixes) eqn:Hext; cbn [negb]; cbv beta iota.
  2:{ left. eexists. split; [reflexivity|]. right. now left. }
  destruct (truthy (file_read file)) eqn:Hbytes; cbn [negb]; cbv beta iota.
  2:{ left. eexists. split; [reflexivity|]. right. right.
      now apply truthy_false_iff. }
  right. split; [reflexivity|].
  split; [intros Heq; apply truthy_false_iff in Heq; congruence|].
  split; [reflexivity|].
  intros Heq. apply truthy_false_iff in Heq. congruence.
Qed.

(** X16.  A rejected upload writes nothing: whenever [_save_upload] raises, the
    exception is a 400, the file has no name, a suffix outside the allowed
    list or no bytes, and neither the upload directory nor the database has
    changed. *)
Theorem save_upload_rejection_writes_nothing (e : Env) (file : UploadFile)
    (prefix : string) (w w' : world) (ex : exn) :
  _save_upload e file prefix w = (inl ex, w') ->
  w' = w
  /\ (exists detail, ex = HTTPException 400 detail)
  /\ (filename file = ""
      \/ existsb (String.eqb (str_lower (path_suffix (filename file))))
                 allowed_suffixes = false
      \/ file_read file = "").
Proof.
  intros Hrun.
  destruct (_save_upload_outcome e file prefix w)
    as [(detail & Hfail & Hwhy) | (Hok & _)]; cbv zeta in *.
  - rewrite Hfail in Hrun. injection Hrun as <- <-. eauto.
  - rewrite Hok in Hrun. discriminate.
Qed.

(** X17.  An accepted upload can be fetched: when [_save_upload] returns a URL
    it is "/uploads/" followed by the generated name, [get_media] of that name
    then returns the bytes of the upload, every other name reads as before, and
    the database is unchanged. *)
Theorem save_upload_then_get_media (e : Env) (file : UploadFile)
    (prefix : string) (w w' : world) (url : string) :
  _save_upload e file prefix w = (inr url, w') ->
  exists name,
    url = ("/uploads/" ++ name)%string
    /\ name = (prefix ++ "_" ++ token_hex_8 e
               ++ str_lower (path_suffix (filename file)))%string
    /\ get_media name w' = (inr (file_read file), w')
    /\ file_read file <> ""
    /\ (forall other, other <> name ->
          get_media other w' = (fst (get_media other w), w'))
    /\ db w' = db w.
Proof.
  intros Hrun.
  destruct (_save_upload_outcome e file prefix w)
    as [(detail & Hfail & _) | (Hok & _ & _ & Hbytes)]; cbv zeta in *.
  - rewrite Hfail in Hrun. discriminate.
  - rewrite Hok in Hrun. injection Hrun as <- <-.
    eexists. split; [reflexivity|]. split; [reflexivity|].
    unfold get_media, read_upload. cbn [upload_dir find fst snd db].
    rewrite String.eqb_refl. cbn. split; [reflexivity|].
    split; [exact Hbytes|]. split; [|reflexivity].
    intros other Hother. apply not_eq_sym, String.eqb_neq in Hother.
    rewrite Hother.
    destruct (find _ (upload_dir w)); reflexivity.
Qed.

(** X18.  [create_post] checks the text before it stores the image, and stores
    the image before it opens the database: a blank text is answered 400
    "Текст поста обязателен" and a rejected image with the exception of
    [_save_upload], and in both cases neither a file nor a row is written. *)
Theorem create_post_rejections (e : Env) (text : string)
    (image : option UploadFile) (user : Users.row) (w : world) :
  (str_strip text = "" ->
   create_post e text image user w
   = (inl (HTTPException 400 "Текст поста обязателен"), w))
  /\ (forall file ex w1,
        str_strip text <> "" ->
        image = Some file ->
        _save_upload e file ("post" ++ str_of_int (Users.id user)) w
        = (inl ex, w1) ->
        create_post e text image user w = (inl ex, w)).
Proof.
  split.
  - intros Hblank. unfold create_post. run_H. rewrite Hblank. reflexivity.
  - intros file ex w1 Htext -> Hsave.
    destruct (_save_upload_outcome e file
                ("post" ++ str_of_int (Users.id user)) w)
      as [(detail & Hfail & _) | (Hok & _)]; cbv zeta in *.
    + rewrite Hfail in Hsave. injection Hsave as <- <-.
      destruct (truthy (str_strip text)) eqn:Ht.
      * unfold create_post, bind, raise_if. rewrite Ht. cbn [negb].
        unfold ret at 1. rewrite Hfail. reflexivity.
      * apply truthy_false_iff in Ht. contradiction.
    + rewrite Hok in Hsave. discriminate.
Qed.

End UploadProps.

(** ** Failed calls *)

Lemma bind_inl {A B : Type} (c : H A) (k : A -> H B) (w w' : world)
    (e : exn) :
  bind c k w = (inl e, w') ->
  c w = (inl e, w')
  \/ exists a w1, c w = (inr a, w1) /\ k a w1 = (inl e, w').
Proof.
  unfold bind. destruct (c w) as [[e1|a] w1].
  - intros [= <- <-]. now left.
  - intros Hk. right. eauto.
Qed.

Lemma with_connect_inl {A : Type} (body : connection -> H A) (w w' : world)
    (e : exn) :
  with_connect body w = (inl e, w') -> db w' = db w.
Proof.
  unfold with_connect. destruct (body connect w) as [[e1|a] w1];
    intros [= <- <-]; reflexivity.
Qed.

Lemma raise_if_world (cond : bool) (e : exn) (w w' : world)
    (r : exn + unit) :
  raise_if cond e w = (r, w') -> w' = w.
Proof.
  unfold raise_if, raise, ret. destruct cond; intros [= <- <-]; reflexivity.
Qed.

Lemma _get_post_out_finds (post_id : Z) (w : world) (p : Posts.row) :
  SELECT_post_by_id post_id (db w) = Some p ->
  has_user (db w) (Posts.author_id p) = true ->
  exists out, _get_post_out post_id w = (inr out, w).
Proof.
  intros Hsel Huser. unfold _get_post_out, SELECT_post_view. run_H.
  unfold SELECT_post_by_id in Hsel. rewrite find_hd_filter in Hsel.
  destruct (filter (fun q => Posts.id q =? post_id) (posts (db w)))
    as [|q qs]; [discriminate|]. injection Hsel as ->.
  unfold posts_join_users. cbn [flat_map].
  unfold has_user in Huser. apply existsb_exists in Huser.
  destruct Huser as (u & Hin & Hid).
  destruct (filter (fun u0 => Users.id u0 =? Posts.author_id p) (users (db w)))
    as [|u0 us] eqn:Hfilter.
  - assert (Hu : In u (filter (fun u0 => Users.id u0 =? Posts.author_id p)
                              (users (db w))))
      by (apply filter_In; auto).
    rewrite Hfilter in Hu. destruct Hu.
  - cbn. eexists. reflexivity.
Qed.

Section FailedCalls.
Context {rt : PyRuntime}.

Lemma save_image_db (e : Env) (image : option UploadFile) (prefix : string)
    (w w2 : world) (r : exn + option string) :
  match image with
  | Some image => url <- _save_upload e image prefix ;; ret (Some url)
  | None => ret None
  end w = (r, w2) ->
  db w2 = db w.
Proof.
  destruct image as [file|].
  - unfold bind.
    destruct (_save_upload e file prefix w) as [[ex|url] w1] eqn:Hsave;
      apply _save_upload_inversion in Hsave; destruct Hsave as [Hdb _];
      unfold ret; intros [= <- <-]; exact Hdb.
  - unfold ret. intros [= <- <-]. reflexivity.
Qed.

Lemma media_step_keeps (pid : Z) (created_at : string)
    (image_url : option string) (w w' : world) (r : exn + unit) :
  match image_url with
  | Some url =>
      if truthy url
      then execute (INSERT_INTO_media "post" pid url "image" created_at) ;;;
           ret tt
      else ret tt
  | None => ret tt
  end w = (r, w') ->
  users (db w') = users (db w) /\ posts (db w') = posts (db w).
Proof.
  destruct image_url as [url|]; [destruct (truthy url)|];
    unfold bind, execute, INSERT_INTO_media, ret; cbn;
    intros [= <- <-]; cbn; auto.
Qed.

Lemma find_app_fresh {A : Type} (f : A -> bool) (l : list A) (a : A) :
  (forall x, In x l -> f x = false) -> f a = true ->
  find f (l ++ [a]) = Some a.
Proof.
  intros Hl Ha. induction l as [|x l IH]; cbn.
  - now rewrite Ha.
  - rewrite (Hl x (or_introl eq_refl)). apply IH.
    intros y Hy. apply Hl. now right.
Qed.

Lemma create_post_failure (e : Env) (text : string)
    (image : option UploadFile) (user : Users.row) (w w' : world)
    (ex : exn) :
  has_user (db w) (Users.id user) = true ->
  create_post e text image user w = (inl ex, w') ->
  db w' = db w.
Proof.
  intros Huser Hrun. unfold create_post in Hrun.
  apply bind_inl in Hrun as [Hrun | (? & w1 & Htext & Hrun)];
    [now apply raise_if_world in Hrun as -> |].
  apply raise_if_world in Htext as ->.
  apply bind_inl in Hrun as [Hrun | (image_url & w2 & Himage & Hrun)];
    [now apply save_image_db in Hrun|].
  apply save_image_db in Himage. rewrite <- Himage. cbv zeta in Hrun.
  apply bind_inl in Hrun as [Hrun | (pid & w3 & Htx & Hout)];
    [now apply with_connect_inl in Hrun|].
  exfalso. apply with_connect_inr in Htx.
  apply bind_inr in Htx as (pid' & w4 & Hins & Htx).
  apply execute_inr in Hins as [Hins _].
  unfold INSERT_INTO_posts, fk_ok, connect in Hins.
  cbn [foreign_keys negb orb] in Hins. cbv zeta in Hins.
  injection Hins as Hpid Hdb4.
  apply bind_inr in Htx as (? & w5 & Hmedia & Hret).
  apply ret_inr in Hret as [-> ->]. subst pid'.
  apply media_step_keeps in Hmedia. destruct Hmedia as [Husers Hposts].
  rewrite <- Hdb4 in Husers, Hposts. cbn [users posts] in Husers, Hposts.
  set (pid := next_rowid (seq_posts (sqlite_sequence (db w2)))
                         (map Posts.id (posts (db w2)))) in *.
  set (row := Posts.Row pid (Users.id user) (str_strip text) image_url
                        (_now_iso e) None) in *.
  assert (Hsel : SELECT_post_by_id pid (db w5) = Some row).
  { unfold SELECT_post_by_id. rewrite Hposts. apply find_app_fresh.
    - intros q Hq. apply Z.eqb_neq. intros Heq.
      apply (in_map Posts.id) in Hq. rewrite Heq in Hq.
      apply (next_rowid_fresh (seq_posts (sqlite_sequence (db w2)))) in Hq.
      fold pid in Hq. lia.
    - cbn. apply Z.eqb_refl. }
  assert (Hauthor : has_user (db w5) (Posts.author_id row) = true).
  { unfold has_user. rewrite Husers. rewrite <- Himage in Huser. exact Huser. }
  destruct (_get_post_out_finds pid w5 row Hsel Hauthor) as (out & Hfound).
  rewrite Hfound in Hout. discriminate.
Qed.

Lemma update_post_failure (e : Env) (post_id : Z) (text : string)
    (image : option UploadFile) (remove_image : bool) (user : Users.row)
    (w w' : world) (ex : exn) :
  has_user (db w) (Users.id user) = true ->
  update_post e post_id text image remove_image user w = (inl ex, w') ->
  db w' = db w.
Proof.
  intros Huser Hrun. unfold update_post in Hrun.
  apply bind_inl in Hrun as [Hrun | (? & w1 & Htext & Hrun)];
    [now apply raise_if_world in Hrun as -> |].
  apply raise_if_world in Htext as ->.
  apply bind_inl in Hrun as [Hrun | (? & w2 & Htx & Hout)];
    [now apply with_connect_inl in Hrun|].
  exfalso.
  apply with_connect_inr in Htx.
  apply bind_inr in Htx as (post & w3 & Hsel & Htx).
  apply fetch_inr in Hsel as [-> ->].
  destruct (SELECT_post_by_id post_id (db w)) as [p|] eqn:Hp; [|discriminate].
  apply bind_inr in Htx as (? & w4 & Hauth & Htx).
  apply raise_if_inr in Hauth as [Hauth ->].
  apply negb_false_iff, Z.eqb_eq in Hauth.
  apply bind_inr in Htx as (image_url & w5 & Himg & Hupd).
  apply execute_inr in Hupd as [Hupd _].
  unfold UPDATE_posts in Hupd. injection Hupd as _ Hdb.
  assert (Hkeep : users (db w5) = users (db w) /\ posts (db w5) = posts (db w)).
  { destruct image as [file|].
    - apply bind_inr in Himg as (url & w6 & Hsave & Himg).
      apply _save_upload_inversion in Hsave as [Hdb6 _].
      apply bind_inr in Himg as (? & w7 & Hmedia & Hret).
      apply execute_inr in Hmedia as [Hmedia _].
      unfold INSERT_INTO_media in Hmedia. injection Hmedia as _ Hdb7.
      apply ret_inr in Hret as [_ ->].
      rewrite <- Hdb7, Hdb6. cbn. auto.
    - destruct remove_image; apply ret_inr in Himg as [_ ->]; auto. }
  destruct Hkeep as [Husers Hposts].
  set (upd := fun q : Posts.row =>
                if Posts.id q =? post_id
                then Posts.Row (Posts.id q) (Posts.author_id q)
                       (str_strip text) image_url (Posts.created_at q)
                       (Some match image with
                             | Some _ => _now_iso_again e
                             | None => _now_iso e
                             end)
                else q) in *.
  assert (Hid : forall q, (Posts.id (upd q) =? post_id) = (Posts.id q =? post_id)).
  { intros q. unfold upd. destruct (Posts.id q =? post_id) eqn:Hq; exact Hq. }
  assert (Hsel' : SELECT_post_by_id post_id (db w2) = Some (upd p)).
  { unfold SELECT_post_by_id in *. rewrite <- Hdb. cbn [posts].
    rewrite Hposts. fold upd.
    rewrite (find_map_preserving _ upd _ Hid), Hp. reflexivity. }
  assert (Hauthor : has_user (db w2) (Posts.author_id (upd p)) = true).
  { unfold has_user. rewrite <- Hdb. cbn [users]. rewrite Husers.
    assert (Ha : Posts.author_id (upd p) = Users.id user).
    { unfold upd. destruct (Posts.id p =? post_id); exact Hauth. }
    rewrite Ha. exact Huser. }
  destruct (_get_post_out_finds post_id w2 (upd p) Hsel' Hauthor)
    as (out & Hfound).
  rewrite Hfound in Hout. discriminate.
Qed.

Lemma update_avatar_failure (e : Env) (file : UploadFile) (user : Users.row)
    (w w' : world) (ex : exn) :
  has_user (db w) (Users.id user) = true ->
  update_avatar e file user w = (inl ex, w') ->
  db w' = db w.
Proof.
  intros Huser Hrun. unfold update_avatar in Hrun.
  apply bind_inl in Hrun as [Hrun | (url & w1 & Hsave & Hrun)];
    [now apply _save_upload_inversion in Hrun|].
  apply _save_upload_inversion in Hsave as [Hdb1 _]. rewrite <- Hdb1.
  apply bind_inl in Hrun as [Hrun | (updated & w2 & Htx & Hout)];
    [now apply with_connect_inl in Hrun|].
  exfalso. apply with_connect_inr in Htx.
  apply bind_inr in Htx as (? & w3 & Hupd & Htx).
  apply execute_inr in Hupd as [Hupd _].
  unfold UPDATE_users_avatar in Hupd. injection Hupd as _ Hdb3.
  apply bind_inr in Htx as (? & w4 & Hmedia & Hsel).
  apply execute_inr in Hmedia as [Hmedia _].
  unfold INSERT_INTO_media in Hmedia. injection Hmedia as _ Hdb4.
  apply fetch_inr in Hsel as [-> ->].
  assert (Hfound : has_user (db w4) (Users.id user) = true).
  { unfold has_user in *. apply existsb_exists in Huser.
    destruct Huser as (u & Hu & Hid). apply existsb_exists.
    rewrite <- Hdb4. cbn [users]. rewrite <- Hdb3. cbn [users]. rewrite Hdb1.
    eexists. split; [apply in_map; exact Hu|].
    destruct (Users.id u =? Users.id user) eqn:Hc; cbn [Users.id];
      [exact Hc | discriminate Hid]. }
  unfold has_user in Hfound. unfold SELECT_user_by_id in Hout.
  destruct (find _ (users (db w4))) as [u|] eqn:Hfind.
  - unfold ret in Hout. discriminate.
  - apply existsb_find_none in Hfind. congruence.
Qed.

Ltac failed_in_tx Hrun :=
  cbv zeta in Hrun;
  repeat match type of Hrun with
         | bind (raise_if _ _) _ _ = _ =>
             let Hcheck := fresh "Hcheck" in
             apply bind_inl in Hrun as [Hrun | (? & ? & Hcheck & Hrun)];
             [now apply raise_if_world in Hrun as ->
             |apply raise_if_world in Hcheck as ->]
         | bind (with_connect _) _ _ = _ =>
             apply bind_inl in Hrun as [Hrun | (? & ? & _ & Hrun)];
             [now apply with_connect_inl in Hrun
             |unfold ret in Hrun; discriminate Hrun]
         end.

Lemma register_failure (e : Env) (payload : RegisterIn) (w w' : world)
    (ex : exn) :
  register e payload w = (inl ex, w') -> db w' = db w.
Proof. intros Hrun. unfold register in Hrun. failed_in_tx Hrun. Qed.

Lemma login_failure (e : Env) (payload : LoginIn) (w w' : world) (ex : exn) :
  login e payload w = (inl ex, w') -> db w' = db w.
Proof. intros Hrun. unfold login in Hrun. failed_in_tx Hrun. Qed.

Lemma delete_post_failure (post_id : Z) (user : Users.row) (w w' : world)
    (ex : exn) :
  delete_post post_id user w = (inl ex, w') -> db w' = db w.
Proof. intros Hrun. unfold delete_post in Hrun. failed_in_tx Hrun. Qed.

Lemma add_comment_failure (e : Env) (post_id : Z) (payload : CommentIn)
    (user : Users.row) (w w' : world) (ex : exn) :
  add_comment e post_id payload user w = (inl ex, w') -> db w' = db w.
Proof. intros Hrun. unfold add_comment in Hrun. failed_in_tx Hrun. Qed.

Lemma like_post_failure (e : Env) (post_id : Z) (user : Users.row)
    (w w' : world) (ex : exn) :
  like_post e post_id user w = (inl ex, w') -> db w' = db w.
Proof. intros Hrun. unfold like_post in Hrun. failed_in_tx Hrun. Qed.

Lemma unlike_post_failure (post_id : Z) (user : Users.row) (w w' : world)
    (ex : exn) :
  unlike_post post_id user w = (inl ex, w') -> db w' = db w.
Proof. intros Hrun. unfold unlike_post in Hrun. failed_in_tx Hrun. Qed.

Lemma Depends_failure {A : Type} (request : Request)
    (handler : Users.row -> H A) (w w' : world) (ex : exn) :
  (forall user w1,
      has_user (db w) (Users.id user) = true ->
      handler user w = (inl ex, w1) -> db w1 = db w) ->
  Depends_require_user request handler w = (inl ex, w') ->
  db w' = db w.
Proof.
  intros Hhandler Hrun. unfold Depends_require_user in Hrun.
  apply bind_inl in Hrun as [Hrun | (user & w1 & Hauth & Hrun)].
  - apply _require_user_run in Hrun. now destruct Hrun as [-> _].
  - apply _require_user_run in Hauth. destruct Hauth as [-> Hin].
    apply (Hhandler user w'); [|exact Hrun].
    apply has_user_iff. apply in_map. now apply Hin.
Qed.

(** X19.  A call that is answered with an exception leaves the database as it
    was: whatever the handler wrote before the exception is rolled back, and
    no handler raises after its transaction is committed.  This holds for
    every call to every route, in every world. *)
Theorem failed_call_changes_nothing (call : api_call) (w : world) (ex : exn) :
  call_error call w = Some ex ->
  db (serve call w) = db w.
Proof.
  assert (Hread : forall (A : Type) (c : H A),
             preserves (fun d => d = db w) c -> db (snd (c w)) = db w).
  { intros A c Hc. now apply Hc. }
  destruct call; cbn [call_error serve];
    match goal with
    | |- error_of (fst ?c) = _ -> _ =>
        destruct c as [[ex'|a] w'] eqn:Hrun; cbn [error_of fst snd];
        [intros _ | discriminate]
    end.
  - now apply register_failure in Hrun.
  - now apply login_failure in Hrun.
  - apply Depends_failure in Hrun; [exact Hrun|].
    intros user w1 _ Hme. unfold me, ret in Hme. discriminate.
  - apply Depends_failure in Hrun; [exact Hrun|].
    intros user w1 Huser. now apply update_avatar_failure.
  - apply Depends_failure in Hrun; [exact Hrun|].
    intros user w1 Huser. now apply create_post_failure.
  - apply Depends_failure in Hrun; [exact Hrun|].
    intros user w1 Huser. now apply update_post_failure.
  - apply Depends_failure in Hrun; [exact Hrun|].
    intros user w1 _. apply delete_post_failure.
  - pose proof (Hread _ _ (any_feed (fun d => d = db w) limit offset request))
      as Hsame. now rewrite Hrun in Hsame.
  - pose proof (Hread _ _ (any_get_post (fun d => d = db w) post_id request))
      as Hsame. now rewrite Hrun in Hsame.
  - apply Depends_failure in Hrun; [exact Hrun|].
    intros user w1 _. apply add_comment_failure.
  - apply Depends_failure in Hrun; [exact Hrun|].
    intros user w1 _. apply like_post_failure.
  - apply Depends_failure in Hrun; [exact Hrun|].
    intros user w1 _. apply unlike_post_failure.
Qed.

End FailedCalls.

(** ** Entries of the feed *)

Section FeedProps.

Lemma flat_map_singletons {A B : Type} (f : A -> list B) (g : A -> B)
    (l : list A) :
  (forall a, In a l -> f a = [g a]) -> flat_map f l = map g l.
Proof.
  induction l as [|a l IH]; cbn; intros Hf; [reflexivity|].
  rewrite (Hf a (or_introl eq_refl)). cbn. f_equal.
  apply IH. intros b Hb. apply Hf. now right.
Qed.

Lemma posts_join_users_posts (liked : Posts.row -> Z) (d : database) :
  db_ok d ->
  map pv_post (posts_join_users liked d (posts d)) = posts d.
Proof.
  intros (Hnd & Hposts & _). unfold posts_join_users.
  rewrite (flat_map_singletons _
             (fun p =>
                match SELECT_user_by_id (Posts.author_id p) d with
                | Some u =>
                    {| pv_post := p;
                       pv_author_name := Users.name u;
                       pv_author_avatar_url := Users.avatar_url u;
                       pv_likes_count := likes_count_of d (Posts.id p);
                       pv_comments_count := comments_count_of d (Posts.id p);
                       pv_liked_by_me := liked p |}
                | None =>
                    {| pv_post := p;
                       pv_author_name := "";
                       pv_author_avatar_url := None;
                       pv_likes_count := 0;
                       pv_comments_count := 0;
                       pv_liked_by_me := 0 |}
                end)).
  - rewrite map_map. rewrite <- (map_id (posts d)) at 2. apply map_ext.
    intros p. destruct (SELECT_user_by_id _ d); reflexivity.
  - intros p Hp.
    destruct (has_user_unique d _ Hnd (Hposts p Hp)) as (u & Hfilter & Hsel & _).
    rewrite Hfilter, Hsel. reflexivity.
Qed.

Lemma limit_offset_map {A B : Type} (f : A -> B) (limit offset : Z)
    (l : list A) :
  limit_offset limit offset (map f l) = map f (limit_offset limit offset l).
Proof. unfold limit_offset. now rewrite skipn_map, firstn_map. Qed.

(** The rows of the feed query, for the viewer the request resolves to. *)
Lemma feed_run (limit offset : option Z) (request : option Request)
    (w : world) :
  exists liked,
    feed limit offset request w
    = (inr (map post_out_of_view
              (limit_offset
                 (Z.max 1 (Z.min (match limit with Some n => n | None => 20 end)
                                 50))
                 (Z.max 0 (match offset with Some n => n | None => 0 end))
                 (order_by created_at_desc
                    (posts_join_users liked (db w) (posts (db w)))))),
       w)
    /\ forall p,
         liked p
         = if truthy (viewer_token request)
           then match SELECT_user_by_token (viewer_token request) (db w) with
                | Some viewer =>
                    if has_like (db w) (Posts.id p) (Users.id viewer)
                    then 1 else 0
                | None => 0
                end
           else 0.
Proof.
  unfold feed. fold (viewer_token request). cbv zeta. unfold bind at 1.
  destruct (truthy (viewer_token request)) eqn:Htok.
  - rewrite _get_user_by_token_run.
    destruct (SELECT_user_by_token (viewer_token request) (db w)) as [u|].
    + run_H. eexists. split; [reflexivity|]. intros p. reflexivity.
    + run_H. exists (fun _ => 0). split; [reflexivity|]. intros p. reflexivity.
  - run_H. exists (fun _ => 0). split; [reflexivity|]. intros p. reflexivity.
Qed.

(** X20.  Every entry of the feed is a stored post, hydrated: it carries the
    post's own columns, the name and avatar of a user whose id is the
    post's author id, the number of like rows and of comment rows of that
    post, and [liked_by_me] is true exactly when the request's token
    resolves to a user who has a like row for that post. *)
Theorem feed_entries_hydrated (limit offset : option Z)
    (request : option Request) (w : world) (out : list PostOut.t)
    (o : PostOut.t) :
  fst (feed limit offset request w) = inr out ->
  In o out ->
  exists p author,
    In p (posts (db w))
    /\ In author (users (db w))
    /\ Users.id author = Posts.author_id p
    /\ o = PostOut.Make (Posts.id p) (Posts.author_id p) (Users.name author)
             (Users.avatar_url author) (Posts.text p) (Posts.image_url p)
             (Posts.created_at p) (Posts.updated_at p)
             (likes_count_of (db w) (Posts.id p))
             (comments_count_of (db w) (Posts.id p))
             (PostOut.liked_by_me o)
    /\ (PostOut.liked_by_me o = true <->
        viewer_token request <> ""
        /\ exists viewer,
             SELECT_user_by_token (viewer_token request) (db w) = Some viewer
             /\ has_like (db w) (Posts.id p) (Users.id viewer) = true).
Proof.
  destruct (feed_run limit offset request w) as (liked & Hrun & Hliked).
  rewrite Hrun. cbn [fst]. intros [= <-] Hin.
  apply in_map_iff in Hin. destruct Hin as (v & <- & Hv).
  apply limit_offset_In in Hv.
  apply (Permutation_in _ (Permutation_sym (order_by_perm _ _ _))) in Hv.
  apply posts_join_users_In in Hv.
  destruct Hv as (Hp & Hlc & Hcc & Hl & u & Hu & Hid & Hname & Havatar).
  exists (pv_post v), u. split; [exact Hp|]. split; [exact Hu|].
  split; [exact Hid|]. unfold post_out_of_view. cbn [PostOut.liked_by_me].
  split; [now rewrite Hname, Havatar, Hlc, Hcc|].
  rewrite Hl, Hliked.
  destruct (truthy (viewer_token request)) eqn:Htok.
  - assert (Hne : viewer_token request <> "").
    { intros Heq. apply truthy_false_iff in Heq. congruence. }
    destruct (SELECT_user_by_token _ (db w)) as [viewer|].
    + destruct (has_like (db w) (Posts.id (pv_post v)) (Users.id viewer))
        eqn:Hhas; cbn.
      * split; [intros _; split; [exact Hne|]; now exists viewer | reflexivity].
      * split; [discriminate|]. intros (_ & viewer' & [= <-] & Hhas').
        congruence.
    + cbn. split; [discriminate|]. intros (_ & viewer & Hsome & _).
      discriminate.
  - cbn. split; [discriminate|]. intros (Hne & _).
    apply truthy_false_iff in Htok. contradiction.
Qed.

(** X21.  In every world the service reaches, and with an effective offset
    that SQLite can bind, the feed lists every post exactly once: its ids
    are the page (limit and offset clamped) of the ids of a rearrangement
    of the posts table, so the join with the authors neither drops nor
    doubles a post. *)
Theorem feed_pages_all_posts {rt : PyRuntime} (limit offset : option Z)
    (request : option Request) (w : world) :
  reachable w ->
  sqlite_int (Z.max 0 (match offset with Some n => n | None => 0 end)) = true ->
  exists out ordered,
    feed limit offset request w = (inr out, w)
    /\ Permutation ordered (posts (db w))
    /\ map PostOut.id out
       = map Posts.id
           (limit_offset
              (Z.max 1 (Z.min (match limit with Some n => n | None => 20 end)
                              50))
              (Z.max 0 (match offset with Some n => n | None => 0 end))
              ordered).
Proof.
  intros Hreach _. pose proof (reachable_db_ok w Hreach) as Hok.
  destruct (feed_run limit offset request w) as (liked & Hrun & _).
  eexists. exists (map pv_post
                     (order_by created_at_desc
                        (posts_join_users liked (db w) (posts (db w))))).
  split; [exact Hrun|]. split.
  - rewrite <- (posts_join_users_posts liked (db w) Hok) at 2.
    apply Permutation_map, Permutation_sym, order_by_perm.
  - rewrite limit_offset_map, !map_map. reflexivity.
Qed.

End FeedProps.

(** ** What an update leaves alone *)

Section UpdateFrame.
Context {rt : PyRuntime}.

(** X22.  A successful [update_post] changes the text, the image URL and the
    update stamp of the posts with that id and nothing else: every post
    keeps its id, author and creation time, every other post is as it was,
    and the users, comments, likes and sessions are untouched, so the counts
    in the returned view are the counts from before the call. *)
Theorem update_post_keeps_the_rest (e : Env) (post_id : Z) (text : string)
    (image : option UploadFile) (remove_image : bool) (user : Users.row)
    (w w' : world) (out : PostOut.t) :
  update_post e post_id text image remove_image user w = (inr out, w') ->
  map Posts.id (posts (db w')) = map Posts.id (posts (db w))
  /\ map Posts.author_id (posts (db w')) = map Posts.author_id (posts (db w))
  /\ map Posts.created_at (posts (db w'))
     = map Posts.created_at (posts (db w))
  /\ filter (fun q => negb (Posts.id q =? post_id)) (posts (db w'))
     = filter (fun q => negb (Posts.id q =? post_id)) (posts (db w))
  /\ users (db w') = users (db w)
  /\ comments (db w') = comments (db w)
  /\ likes (db w') = likes (db w)
  /\ sessions (db w') = sessions (db w)
  /\ PostOut.id out = post_id
  /\ PostOut.text out = str_strip text
  /\ PostOut.likes_count out = likes_count_of (db w) post_id
  /\ PostOut.comments_count out = comments_count_of (db w) post_id.
Proof.
  intros Hrun. apply update_post_inversion in Hrun.
  destruct Hrun
    as (_ & p & _ & _ & Hposts & Husers & Hcomments & Hlikes
        & Hsessions & Hout).
  set (upd := fun q : Posts.row =>
                if Posts.id q =? post_id
                then updated_row (str_strip text)
                       (next_image_url e image remove_image user p)
                       (update_stamp e image) q
                else q) in Hposts.
  assert (Hsame : forall (B : Type) (f : Posts.row -> B),
             (forall q, f (upd q) = f q) ->
             map f (posts (db w')) = map f (posts (db w))).
  { intros B f Hf. rewrite Hposts, map_map. now apply map_ext. }
  assert (Hother : forall qs,
             filter (fun q => negb (Posts.id q =? post_id)) (map upd qs)
             = filter (fun q => negb (Posts.id q =? post_id)) qs).
  { induction qs as [|q qs IH]; [reflexivity|]. cbn [map filter].
    assert (Hid : (Posts.id (upd q) =? post_id) = (Posts.id q =? post_id)).
    { unfold upd. destruct (Posts.id q =? post_id) eqn:Hq; exact Hq. }
    rewrite Hid, IH.
    destruct (Posts.id q =? post_id) eqn:Hq; cbn [negb]; [reflexivity|].
    unfold upd. now rewrite Hq. }
  split; [apply Hsame; intros q; unfold upd;
          destruct (Posts.id q =? post_id); reflexivity|].
  split; [apply Hsame; intros q; unfold upd;
          destruct (Posts.id q =? post_id); reflexivity|].
  split; [apply Hsame; intros q; unfold upd;
          destruct (Posts.id q =? post_id); reflexivity|].
  split; [rewrite Hposts; apply Hother|].
  split; [exact Husers|]. split; [exact Hcomments|].
  split; [exact Hlikes|]. split; [exact Hsessions|].
  unfold _get_post_out in Hout. run_H.
  destruct (SELECT_post_view post_id (db w')) as [v|] eqn:Hv; [|discriminate].
  injection Hout as <-.
  cbn [PostOut.id PostOut.text PostOut.likes_count PostOut.comments_count].
  unfold SELECT_post_view in Hv. apply hd_error_In in Hv.
  apply posts_join_users_In in Hv. destruct Hv as (Hv & Hlc & Hcc & _).
  apply filter_In in Hv. destruct Hv as [Hv Hvid].
  rewrite Hposts in Hv. apply in_map_iff in Hv. destruct (Hv) as (q & Hq & _).
  assert (Hqid : (Posts.id q =? post_id) = true).
  { destruct (Posts.id q =? post_id) eqn:Hc; [reflexivity|]. exfalso.
    rewrite <- Hq in Hvid. unfold upd in Hvid. rewrite Hc in Hvid.
    congruence. }
  unfold upd in Hq. rewrite Hqid in Hq. apply Z.eqb_eq in Hvid.
  split; [exact Hvid|].
  rewrite Hlc, Hcc, Hvid. unfold likes_count_of, comments_count_of.
  rewrite Hlikes, Hcomments, <- Hq. cbn [updated_row Posts.text]. auto.
Qed.

End UpdateFrame.

(** ** Avatars *)

Section AvatarProps.
Context {rt : PyRuntime}.

(** The row [UPDATE users SET avatar_url] leaves of a user row. *)
Lemma SELECT_user_by_token_map (upd : Users.row -> Users.row)
    (d d' : database) (tok : string) :
  (forall u, Users.id (upd u) = Users.id u) ->
  sessions d' = sessions d ->
  users d' = map upd (users d) ->
  SELECT_user_by_token tok d' = option_map upd (SELECT_user_by_token tok d).
Proof.
  intros Hid Hsessions Husers. unfold SELECT_user_by_token.
  rewrite Hsessions, Husers.
  assert (Hfilter : forall k us,
             filter (fun u => Users.id u =? k) (map upd us)
             = map upd (filter (fun u => Users.id u =? k) us)).
  { intros k us. induction us as [|u us IH]; [reflexivity|]. cbn.
    rewrite Hid. destruct (Users.id u =? k); cbn; now rewrite IH. }
  induction (filter (fun s => Sessions.token s =? tok)%string (sessions d))
    as [|s ss IH]; [reflexivity|].
  cbn [flat_map]. rewrite Hfilter.
  destruct (filter (fun u => Users.id u =? Sessions.user_id s) (users d))
    as [|u us]; [exact IH | reflexivity].
Qed.

Lemma update_avatar_inversion (e : Env) (file : UploadFile)
    (user : Users.row) (w w' : world) (out : UserOut.t) :
  update_avatar e file user w = (inr out, w') ->
  let url := saved_url e file
               ("user" ++ str_of_int (Users.id user) ++ "_avatar") in
  let upd := fun u : Users.row =>
               if Users.id u =? Users.id user
               then Users.Row (Users.id u) (Users.name u) (Users.email u)
                      (Users.password_hash u) (Some url) (Users.created_at u)
               else u in
  users (db w') = map upd (users (db w))
  /\ sessions (db w') = sessions (db w)
  /\ posts (db w') = posts (db w)
  /\ comments (db w') = comments (db w)
  /\ likes (db w') = likes (db w)
  /\ media (db w')
     = (media (db w)
        ++ [Media.Row (next_rowid (seq_media (sqlite_sequence (db w)))
                                  (map Media.id (media (db w))))
                      "user" (Users.id user) url "image" (_now_iso e)])%list
  /\ exists updated,
       SELECT_user_by_id (Users.id user) (db w') = Some updated
       /\ out = UserOut.Make (Users.id updated) (Users.name updated)
                  (Users.email updated) (Users.avatar_url updated)
                  (Users.created_at updated).
Proof.
  intros Hrun. cbv zeta. unfold update_avatar in Hrun.
  apply bind_inr in Hrun as (url & w1 & Hsave & Hrun).
  apply _save_upload_inversion in Hsave as [Hdb1 ->].
  apply bind_inr in Hrun as (updated & w2 & Htx & Hout).
  apply with_connect_inr in Htx.
  apply bind_inr in Htx as (? & w3 & Hupd & Htx).
  apply execute_inr in Hupd as [Hupd _].
  unfold UPDATE_users_avatar in Hupd. injection Hupd as _ Hdb3.
  apply bind_inr in Htx as (? & w4 & Hmedia & Hsel).
  apply execute_inr in Hmedia as [Hmedia _].
  unfold INSERT_INTO_media in Hmedia. injection Hmedia as _ Hdb4.
  apply fetch_inr in Hsel as [-> ->].
  destruct (SELECT_user_by_id (Users.id user) (db w4)) as [row|] eqn:Hrow;
    [|discriminate].
  apply ret_inr in Hout as [-> <-].
  rewrite <- Hdb4. cbn [users sessions posts comments likes media sqlite_sequence
                        seq_media].
  rewrite <- Hdb3. cbn [users sessions posts comments likes media sqlite_sequence
                        seq_media].
  rewrite Hdb1. repeat split; try reflexivity.
  exists row. split; [|reflexivity].
  rewrite <- Hrow. unfold SELECT_user_by_id. rewrite <- Hdb4. cbn [users].
  rewrite <- Hdb3. cbn [users]. now rewrite Hdb1.
Qed.

(** X23.  In every world the service reaches, a successful [update_avatar] of an
    authenticated caller returns the caller's id, name, e-mail and creation
    time with the URL of the saved file as avatar; the caller's token then
    resolves to the row with the new avatar; every user with another id,
    every post, comment, like and session is as before. *)
Theorem update_avatar_sets_only_avatar (e : Env) (file : UploadFile)
    (request : Request) (user : Users.row) (w w' : world) (out : UserOut.t) :
  reachable w ->
  _require_user request w = (inr user, w) ->
  update_avatar e file user w = (inr out, w') ->
  let url := saved_url e file
               ("user" ++ str_of_int (Users.id user) ++ "_avatar") in
  let updated := Users.Row (Users.id user) (Users.name user)
                   (Users.email user) (Users.password_hash user) (Some url)
                   (Users.created_at user) in
  out = UserOut.Make (Users.id user) (Users.name user) (Users.email user)
          (Some url) (Users.created_at user)
  /\ _require_user request w' = (inr updated, w')
  /\ (forall other, Users.id other <> Users.id user ->
        (In other (users (db w')) <-> In other (users (db w))))
  /\ posts (db w') = posts (db w)
  /\ comments (db w') = comments (db w)
  /\ likes (db w') = likes (db w)
  /\ sessions (db w') = sessions (db w).
Proof.
  intros Hreach Hauth Hrun. cbv zeta.
  pose proof (reachable_db_ok w Hreach) as (Hnd & _).
  assert (Huser : In user (users (db w))).
  { apply _require_user_run in Hauth. destruct Hauth as [_ Hin]. now apply Hin. }
  apply update_avatar_inversion in Hrun. cbv zeta in Hrun.
  set (url := saved_url e file
                ("user" ++ str_of_int (Users.id user) ++ "_avatar")) in *.
  set (upd := fun u : Users.row =>
                if Users.id u =? Users.id user
                then Users.Row (Users.id u) (Users.name u) (Users.email u)
                       (Users.password_hash u) (Some url) (Users.created_at u)
                else u) in *.
  destruct Hrun as (Husers & Hsessions & Hposts & Hcomments & Hlikes & _
                    & row & Hrow & ->).
  assert (Hid : forall u, Users.id (upd u) = Users.id u).
  { intros u. unfold upd. destruct (Users.id u =? Users.id user); reflexivity. }
  assert (Hupd_user : upd user
                      = Users.Row (Users.id user) (Users.name user)
                          (Users.email user) (Users.password_hash user)
                          (Some url) (Users.created_at user)).
  { unfold upd. now rewrite Z.eqb_refl. }
  assert (Hrow' : row = upd user).
  { unfold SELECT_user_by_id in Hrow. rewrite Husers in Hrow.
    rewrite (find_map_preserving (fun u => Users.id u =? Users.id user) upd)
      in Hrow by (intros u; now rewrite Hid).
    rewrite find_hd_filter, (users_with_id _ user Hnd Huser) in Hrow.
    cbn in Hrow. now injection Hrow as <-. }
  rewrite Hrow', Hupd_user. cbn [Users.id Users.name Users.email
                                Users.avatar_url Users.created_at].
  split; [reflexivity|]. split.
  { assert (Htok : truthy (bearer_token request) = true
                   /\ SELECT_user_by_token (bearer_token request) (db w)
                      = Some user).
    { unfold _require_user in Hauth. cbv zeta in Hauth.
      unfold bind, raise_if in Hauth.
      destruct (truthy (bearer_token request)); [|discriminate].
      split; [reflexivity|]. cbn [negb] in Hauth. unfold ret at 1 in Hauth.
      rewrite _get_user_by_token_run in Hauth.
      destruct (SELECT_user_by_token _ (db w)); [|discriminate].
      unfold ret in Hauth. now injection Hauth as ->. }
    destruct Htok as [Htruthy Hsel].
    unfold _require_user. cbv zeta. unfold bind, raise_if.
    rewrite Htruthy. cbn [negb]. unfold ret at 1.
    rewrite _get_user_by_token_run.
    rewrite (SELECT_user_by_token_map upd (db w) (db w') _ Hid Hsessions Husers).
    rewrite Hsel. cbn [option_map]. now rewrite Hupd_user. }
  split; [|auto].
  intros other Hother. rewrite Husers, in_map_iff. split.
  - intros (u & Hu & Hin). unfold upd in Hu.
    destruct (Users.id u =? Users.id user) eqn:Hc.
    + exfalso. apply Hother. rewrite <- Hu. cbn. now apply Z.eqb_eq.
    + now subst u.
  - intros Hin. exists other. split; [|exact Hin].
    unfold upd. apply Z.eqb_neq in Hother. now rewrite Hother.
Qed.

End AvatarProps.

(** ** Tokens across calls *)

Section TokenProps.
Context {rt : PyRuntime}.

Lemma same_id_same_user (us : list Users.row) (a b : Users.row) :
  NoDup (map Users.id us) -> In a us -> In b us ->
  Users.id a = Users.id b -> a = b.
Proof.
  intros Hnd Ha Hb Hid.
  assert (Hin : In b (filter (fun x => Users.id x =? Users.id a) us)).
  { apply filter_In. split; [exact Hb|]. apply Z.eqb_eq. now symmetry. }
  rewrite (users_with_id us a Hnd Ha) in Hin.
  destruct Hin as [Heq | []]. exact Heq.
Qed.

(** X24.  No call logs anyone out.  In every world the service reaches, a token
    that resolves to a user still resolves after any call to any route, and
    to a user row with the same id, name, e-mail, password hash and creation
    time. *)
Theorem token_survives_every_call (call : api_call) (w : world)
    (tok : string) (u : Users.row) :
  reachable w ->
  _get_user_by_token tok w = (inr (Some u), w) ->
  exists u',
    _get_user_by_token tok (serve call w) = (inr (Some u'), serve call w)
    /\ user_identity u' = user_identity u.
Proof.
  intros Hreach Hres. rewrite _get_user_by_token_run in Hres.
  injection Hres as Hsel.
  unfold SELECT_user_by_token in Hsel. apply hd_error_In in Hsel.
  apply in_flat_map in Hsel. destruct Hsel as (s & Hs & Hu).
  apply filter_In in Hs. destruct Hs as [Hs Htok]. apply String.eqb_eq in Htok.
  apply filter_In in Hu. destruct Hu as [Hu Hid]. apply Z.eqb_eq in Hid.
  assert (Hreach' : reachable (serve call w)) by now apply reachable_serve.
  destruct (reachable_db_ok _ Hreach') as (Hids & _).
  destruct (reachable_refs_ok _ Hreach') as (_ & Htoks & _ & _ & Hsess & _).
  assert (Hs' : In s (sessions (db (serve call w)))).
  { destruct (serve_preserves _ (sessions_appended (sessions (db w))) call w)
      as (extra & Hextra); [exists []; now rewrite app_nil_r|].
    rewrite Hextra. apply in_or_app. now left. }
  destruct (has_user_unique (db (serve call w)) _ Hids (Hsess s Hs'))
    as (u' & Hfilter & _ & Hu' & Hid').
  exists u'. split.
  - rewrite _get_user_by_token_run. f_equal. f_equal.
    unfold SELECT_user_by_token. rewrite <- Htok.
    rewrite (sessions_with_token _ s Htoks Hs'). cbn [flat_map].
    now rewrite Hfilter.
  - destruct (serve_preserves _
                (users_appended (map user_identity (users (db w)))) call w)
      as (extra & Hextra); [exists []; now rewrite app_nil_r|].
    assert (Hin : In (user_identity u)
                     (map user_identity (users (db (serve call w))))).
    { rewrite Hextra. apply in_or_app. left. now apply in_map. }
    apply in_map_iff in Hin. destruct Hin as (u'' & Hidentity & Hu'').
    assert (Hsame : Users.id u'' = Users.id u').
    { unfold user_identity in Hidentity. injection Hidentity as Hi _ _ _ _.
      congruence. }
    rewrite <- (same_id_same_user _ u'' u' Hids Hu'' Hu' Hsame).
    exact Hidentity.
Qed.

(** X25.  The three reading routes write nothing: answering [GET /users/me],
    [GET /feed] or [GET /posts/{id}] leaves the database and the upload
    directory exactly as they were, whatever the request. *)
Theorem reading_routes_write_nothing (w : world) :
  (forall request, serve (GET_users_me request) w = w)
  /\ (forall limit offset request,
         serve (GET_feed limit offset request) w = w)
  /\ (forall post_id request, serve (GET_posts post_id request) w = w).
Proof.
  split; [|split].
  - intros request. cbn [serve]. unfold Depends_require_user, bind.
    destruct (_require_user request w) as [[ex|user] w1] eqn:Hauth;
      apply _require_user_run in Hauth; destruct Hauth as [-> _]; reflexivity.
  - intros limit offset request. cbn [serve].
    destruct (feed_run limit offset request w) as (liked & Hrun & _).
    now rewrite Hrun.
  - intros post_id request. cbn [serve]. unfold get_post. unfold bind at 1.
    destruct (_get_post_out post_id w) as [[ex|post] w1] eqn:Hout;
      apply _get_post_out_world in Hout; subst w1; [reflexivity|].
    run_H.
    destruct (truthy (bearer_token request)); [|reflexivity].
    rewrite _get_user_by_token_run.
    destruct (SELECT_user_by_token _ (db w)); reflexivity.
Qed.

End TokenProps.

(** * The further properties on the session *)

(** Alice's stored hash verifies her password. *)
Lemma hash_then_verify_witness :
  has_char "$" "00aa" = false
  /\ _verify_password (rt := ascii_runtime) "secret1"
       (_hash_password (rt := ascii_runtime) "secret1" "00aa") = true.
Proof.
  assert (Hsalt : has_char "$" "00aa" = false) by reflexivity.
  split; [exact Hsalt|].
  exact (hash_then_verify (rt := ascii_runtime) "secret1" "00aa" Hsalt).
Defined.

(** Bob's stored hash is the hash of his password under some salt. *)
Lemma verify_only_hashes_witness :
  _verify_password (rt := ascii_runtime) "secret2"
    (Users.password_hash Session.bob) = true
  /\ exists salt,
       Users.password_hash Session.bob
       = _hash_password (rt := ascii_runtime) "secret2" salt.
Proof.
  assert (Hver : _verify_password (rt := ascii_runtime) "secret2"
                   (Users.password_hash Session.bob) = true)
    by (vm_compute; reflexivity).
  split; [exact Hver|].
  destruct (verify_only_hashes (rt := ascii_runtime) "secret2"
              (Users.password_hash Session.bob) Hver) as (salt & _ & Heq).
  exists salt. exact Heq.
Defined.

(** Alice's token authenticates her with and without the "Bearer " prefix. *)
Lemma bearer_header_authenticates_witness :
  (Session.alice_token <> ""
   /\ has_char "B" Session.alice_token = false
   /\ _get_user_by_token Session.alice_token Session.now
      = (inr (Some Session.alice), Session.now))
  /\ _require_user (Session.bearer Session.alice_token) Session.now
     = (inr Session.alice, Session.now)
  /\ _require_user {| Authorization := Some Session.alice_token |} Session.now
     = (inr Session.alice, Session.now).
Proof.
  assert (Hne : Session.alice_token <> "") by (vm_compute; discriminate).
  assert (HB : has_char "B" Session.alice_token = false)
    by (vm_compute; reflexivity).
  assert (Hres : _get_user_by_token Session.alice_token Session.now
                 = (inr (Some Session.alice), Session.now))
    by (vm_compute; reflexivity).
  split; [split; [assumption | split; assumption]|].
  exact (bearer_header_authenticates Session.alice_token Session.alice
           Session.now Hne HB Hres).
Defined.

(** A request without a header is answered 401. *)
Lemma require_user_outcome_witness :
  Authorization Session.anonymous = None
  /\ fst (_require_user Session.anonymous Session.now)
     = inl (HTTPException 401 "Требуется авторизация").
Proof.
  assert (Hnone : Authorization Session.anonymous = None) by reflexivity.
  split; [exact Hnone|].
  destruct (require_user_outcome Session.anonymous Session.now)
    as (_ & _ & Hheader & _).
  exact (Hheader Hnone).
Defined.

(** Alice logs in again: the new token resolves to a stored user. *)
Lemma login_token_resolves_witness :
  (reachable (rt := ascii_runtime) Session.now
   /\ login (rt := ascii_runtime) Requests.env Requests.alice_credentials
      Session.now
      = (inr {| token := "1:xx:1700000000:dev-secret-change-me" |},
         snd Requests.alice_logs_in))
  /\ exists u,
       _get_user_by_token "1:xx:1700000000:dev-secret-change-me"
         (snd Requests.alice_logs_in)
       = (inr (Some u), snd Requests.alice_logs_in).
Proof.
  assert (Hreach : reachable (rt := ascii_runtime) Session.now)
    by apply session_reachable.
  assert (Hrun : login (rt := ascii_runtime) Requests.env Requests.alice_credentials
      Session.now
                 = (inr {| token := "1:xx:1700000000:dev-secret-change-me" |},
                    snd Requests.alice_logs_in))
    by (vm_compute; reflexivity).
  split; [split; assumption|].
  destruct (login_token_resolves (rt := ascii_runtime) Requests.env
              Requests.alice_credentials Session.now
              (snd Requests.alice_logs_in) _ Hreach Hrun)
    as (u & _ & _ & Hres).
  exists u. exact Hres.
Defined.

(** Alice registers and then logs in under another spelling of her e-mail. *)
Lemma register_then_login_witness :
  (register (rt := ascii_runtime) (Session.env "aa" "2024-01-01T10:00:00")
     Session.alice_signup Session.start
   = (inr {| token := Session.alice_token |}, Requests.alice_registered)
   /\ has_char "$" (token_hex_8 (Session.env "aa" "2024-01-01T10:00:00"))
      = false)
  /\ exists out' w'',
       login (rt := ascii_runtime) Requests.env Requests.alice_credentials
         Requests.alice_registered = (inr out', w'')
       /\ _get_user_by_token (token out') w''
          = (inr (Some Session.alice), w'').
Proof.
  assert (Hrun : register (rt := ascii_runtime)
                   (Session.env "aa" "2024-01-01T10:00:00")
                   Session.alice_signup Session.start
                 = (inr {| token := Session.alice_token |},
                    Requests.alice_registered))
    by (vm_compute; reflexivity).
  assert (Hsalt : has_char "$"
                    (token_hex_8 (Session.env "aa" "2024-01-01T10:00:00"))
                  = false)
    by (vm_compute; reflexivity).
  split; [split; assumption|].
  exact (register_then_login (rt := ascii_runtime)
           (Session.env "aa" "2024-01-01T10:00:00") Requests.env
           Session.alice_signup Requests.alice_credentials Session.start
           Requests.alice_registered _ Hrun Hsalt eq_refl eq_refl eq_refl).
Defined.

(** The keys of the session's world are unique. *)
Lemma reachable_keys_unique_witness :
  reachable (rt := ascii_runtime) Session.now
  /\ NoDup (map Users.email (users (db Session.now)))
  /\ NoDup (map Sessions.token (sessions (db Session.now))).
Proof.
  assert (Hreach : reachable (rt := ascii_runtime) Session.now)
    by apply session_reachable.
  split; [exact Hreach|].
  destruct (reachable_keys_unique (rt := ascii_runtime) Session.now Hreach)
    as (_ & Hemails & Htokens & _).
  split; assumption.
Defined.

(** Bob's session row resolves to Bob. *)
Lemma sessions_always_resolve_witness :
  (reachable (rt := ascii_runtime) Session.now
   /\ In (Sessions.Row Session.bob_token 2 "2024-01-01T10:01:00Z")
         (sessions (db Session.now)))
  /\ exists u,
       _get_user_by_token Session.bob_token Session.now
       = (inr (Some u), Session.now)
       /\ Users.id u = 2.
Proof.
  assert (Hreach : reachable (rt := ascii_runtime) Session.now)
    by apply session_reachable.
  assert (Hin : In (Sessions.Row Session.bob_token 2 "2024-01-01T10:01:00Z")
                   (sessions (db Session.now)))
    by (vm_compute; right; left; reflexivity).
  split; [split; assumption|].
  destruct (sessions_always_resolve (rt := ascii_runtime) Session.now _
              Hreach Hin) as (u & Hres & Hid & _).
  exists u. split; assumption.
Defined.

(** Bob's new post has no likes and no comments, and reads back as such. *)
Lemma create_post_starts_clean_witness :
  (reachable (rt := ascii_runtime) Session.now
   /\ create_post (rt := ascii_runtime) Requests.env " hi " None Session.bob
      Session.now
      = (inr (PostOut.Make 2 2 "Bob" None "hi" None "2024-01-01T11:00:00Z"
                None 0 0 false),
         snd Requests.bob_posts))
  /\ forall request,
       get_post 2 request (snd Requests.bob_posts)
       = (inr (PostDetailOut.Make
                 (PostOut.Make 2 2 "Bob" None "hi" None "2024-01-01T11:00:00Z"
                    None 0 0 false) [] false),
          snd Requests.bob_posts).
Proof.
  assert (Hreach : reachable (rt := ascii_runtime) Session.now)
    by apply session_reachable.
  assert (Hrun : create_post (rt := ascii_runtime) Requests.env " hi " None Session.bob
      Session.now
                 = (inr (PostOut.Make 2 2 "Bob" None "hi" None
                           "2024-01-01T11:00:00Z" None 0 0 false),
                    snd Requests.bob_posts))
    by (vm_compute; reflexivity).
  split; [split; assumption|].
  destruct (create_post_starts_clean (rt := ascii_runtime) Requests.env
              " hi " None Session.bob Session.now (snd Requests.bob_posts) _
              Hreach Hrun)
    as (_ & _ & _ & _ & _ & _ & _ & _ & Hget).
  exact Hget.
Defined.

(** A blank comment on a post that does not exist is answered 400, a
    comment with a text 404. *)
Lemma add_comment_rejections_witness :
  (ascii_strip "  " = ""
   /\ add_comment (rt := ascii_runtime) Requests.env 7
        {| comment_text := "  " |} Session.bob Session.now
      = (inl (HTTPException 400 "Текст комментария обязателен"), Session.now))
  /\ (ascii_strip "hi" <> ""
      /\ sqlite_int 7 = true
      /\ SELECT_post_by_id 7 (db Session.now) = None)
  /\ add_comment (rt := ascii_runtime) Requests.env 7
       {| comment_text := "hi" |} Session.bob Session.now
     = (inl (HTTPException 404 "Пост не найден"), Session.now).
Proof.
  assert (Hblank : ascii_strip "  " = "") by reflexivity.
  assert (Htext : ascii_strip "hi" <> "") by (vm_compute; discriminate).
  assert (Hseven : sqlite_int 7 = true) by reflexivity.
  assert (Hnone : SELECT_post_by_id 7 (db Session.now) = None)
    by (vm_compute; reflexivity).
  split; [split; [exact Hblank|]|split; [split; [|split]; assumption|]].
  - exact (proj1 (add_comment_rejections (rt := ascii_runtime) Requests.env 7
                    {| comment_text := "  " |} Session.bob Session.now)
                 Hblank).
  - exact (proj2 (add_comment_rejections (rt := ascii_runtime) Requests.env 7
                    {| comment_text := "hi" |} Session.bob Session.now)
                 Htext Hseven Hnone).
Defined.

(** Alice's comment is the second comment of her post. *)
Lemma add_comment_appends_witness :
  (ascii_strip " thanks " <> ""
   /\ SELECT_post_by_id 1 (db Session.now) = Some Session.hello)
  /\ exists out w',
       add_comment (rt := ascii_runtime) Requests.env 1
         {| comment_text := " thanks " |} Session.alice Session.now
       = (inr out, w')
       /\ comments_count_of (db w') 1 = comments_count_of (db Session.now) 1 + 1.
Proof.
  assert (Htext : ascii_strip " thanks " <> "") by (vm_compute; discriminate).
  assert (Hsel : SELECT_post_by_id 1 (db Session.now) = Some Session.hello)
    by (vm_compute; reflexivity).
  split; [split; assumption|].
  destruct (add_comment_appends (rt := ascii_runtime) Requests.env 1
              {| comment_text := " thanks " |} Session.alice Session.now
              Session.hello Htext Hsel)
    as (out & w' & Hrun & _ & _ & _ & _ & Hcount & _).
  exists out, w'. split; assumption.
Defined.

(** Alice's comment is in the detail view an anonymous reader gets. *)
Lemma add_comment_then_get_post_witness :
  (reachable (rt := ascii_runtime) Session.now
   /\ _require_user Requests.as_alice Session.now
      = (inr Session.alice, Session.now)
   /\ add_comment (rt := ascii_runtime) Requests.env 1
      {| comment_text := " thanks " |} Session.alice Session.now
      = (inr (CommentOut.Make 2 1 1 "Alice" None "thanks"
                "2024-01-01T11:00:00Z"),
         snd Requests.alice_comments))
  /\ exists detail,
       get_post 1 Session.anonymous (snd Requests.alice_comments)
       = (inr detail, snd Requests.alice_comments)
       /\ In (CommentOut.Make 2 1 1 "Alice" None "thanks"
                "2024-01-01T11:00:00Z")
             (PostDetailOut.comments detail).
Proof.
  assert (Hreach : reachable (rt := ascii_runtime) Session.now)
    by apply session_reachable.
  assert (Huser : _require_user Requests.as_alice Session.now
                  = (inr Session.alice, Session.now))
    by (vm_compute; reflexivity).
  assert (Hrun : add_comment (rt := ascii_runtime) Requests.env 1
      {| comment_text := " thanks " |} Session.alice Session.now
                 = (inr (CommentOut.Make 2 1 1 "Alice" None "thanks"
                           "2024-01-01T11:00:00Z"),
                    snd Requests.alice_comments))
    by (vm_compute; reflexivity).
  split; [split; [assumption | split; assumption]|].
  exact (add_comment_then_get_post (rt := ascii_runtime) Requests.env 1
           {| comment_text := " thanks " |} Requests.as_alice
           Session.anonymous Session.alice Session.now
           (snd Requests.alice_comments) _ Hreach Huser Hrun).
Defined.

(** Alice likes her post and takes the like back. *)
Lemma like_then_unlike_witness :
  (SELECT_post_by_id 1 (db Session.now) = Some Session.hello
   /\ has_like (db Session.now) 1 (Users.id Session.alice) = false)
  /\ exists w1 w2,
       like_post Requests.env 1 Session.alice Session.now
       = (inr status_ok, w1)
       /\ unlike_post 1 Session.alice w1 = (inr status_ok, w2)
       /\ likes (db w2) = likes (db Session.now).
Proof.
  assert (Hsel : SELECT_post_by_id 1 (db Session.now) = Some Session.hello)
    by (vm_compute; reflexivity).
  assert (Hlike : has_like (db Session.now) 1 (Users.id Session.alice) = false)
    by (vm_compute; reflexivity).
  split; [split; assumption|].
  destruct (like_then_unlike Requests.env 1 Session.alice Session.now
              Session.hello Hsel Hlike)
    as (w1 & w2 & Hrun & _ & _ & Hback & Hsame & _).
  exists w1, w2. split; [assumption | split; assumption].
Defined.

(** Bob takes his like back: no like is left, and the comment stays. *)
Lemma unlike_post_removes_only_own_witness :
  sqlite_int 1 = true
  /\ exists w',
       unlike_post 1 Session.bob Session.now = (inr status_ok, w')
       /\ (forall l, In l (likes (db w')) -> Likes.user_id l <> 2)
       /\ comments (db w') = comments (db Session.now).
Proof.
  assert (Hone : sqlite_int 1 = true) by reflexivity.
  split; [exact Hone|].
  destruct (unlike_post_removes_only_own 1 Session.bob Session.now Hone)
    as (w' & Hrun & Hlikes & _ & _ & Hcomments & _).
  exists w'. split; [exact Hrun|]. split; [|exact Hcomments].
  intros l Hl Hbob. apply Hlikes in Hl. destruct Hl as [Hin Hnot].
  apply Hnot. split; [|exact Hbob].
  assert (Hall : forall l', In l' (likes (db Session.now)) ->
                            Likes.post_id l' = 1).
  { intros l' Hl'. vm_compute in Hl'. destruct Hl' as [<- | []]. reflexivity. }
  exact (Hall l Hin).
Defined.

(** A text file offered as an image is refused and nothing is written. *)
Lemma save_upload_rejection_writes_nothing_witness :
  _save_upload (rt := ascii_runtime) Requests.env Requests.notes "post2"
      Session.now
  = (inl (HTTPException 400 "Недопустимый формат изображения"),
     snd Requests.notes_upload)
  /\ snd Requests.notes_upload = Session.now.
Proof.
  assert (Hrun : _save_upload (rt := ascii_runtime) Requests.env Requests.notes "post2"
      Session.now
                 = (inl (HTTPException 400 "Недопустимый формат изображения"),
                    snd Requests.notes_upload))
    by (vm_compute; reflexivity).
  split; [exact Hrun|].
  exact (proj1 (save_upload_rejection_writes_nothing (rt := ascii_runtime)
                  Requests.env Requests.notes "post2" Session.now
                  (snd Requests.notes_upload) _ Hrun)).
Defined.

(** Bob's portrait is stored under the lower-cased suffix and reads back. *)
Lemma save_upload_then_get_media_witness :
  _save_upload (rt := ascii_runtime) Requests.env Requests.portrait "post2"
      Session.now
  = (inr "/uploads/post2_00xx.jpg", snd Requests.portrait_upload)
  /\ exists name,
       "/uploads/post2_00xx.jpg" = ("/uploads/" ++ name)%string
       /\ get_media name (snd Requests.portrait_upload)
          = (inr "pixels", snd Requests.portrait_upload).
Proof.
  assert (Hrun : _save_upload (rt := ascii_runtime) Requests.env Requests.portrait "post2"
      Session.now
                 = (inr "/uploads/post2_00xx.jpg",
                    snd Requests.portrait_upload))
    by (vm_compute; reflexivity).
  split; [exact Hrun|].
  destruct (save_upload_then_get_media (rt := ascii_runtime) Requests.env
              Requests.portrait "post2" Session.now
              (snd Requests.portrait_upload) _ Hrun)
    as (name & Hurl & _ & Hget & _).
  exists name. split; assumption.
Defined.

(** A blank post with a picture is refused before the picture is stored. *)
Lemma create_post_rejections_witness :
  ascii_strip "   " = ""
  /\ create_post (rt := ascii_runtime) Requests.env "   "
       (Some Requests.portrait) Session.bob Session.now
     = (inl (HTTPException 400 "Текст поста обязателен"), Session.now).
Proof.
  assert (Hblank : ascii_strip "   " = "") by reflexivity.
  split; [exact Hblank|].
  exact (proj1 (create_post_rejections (rt := ascii_runtime) Requests.env
                  "   " (Some Requests.portrait) Session.bob Session.now)
               Hblank).
Defined.

(** Bob's second like of the same post is refused and nothing changes. *)
Lemma failed_call_changes_nothing_witness :
  call_error (rt := ascii_runtime) Requests.bob_likes_again Session.now
  = Some (HTTPException 400 "Лайк уже поставлен")
  /\ db (serve (rt := ascii_runtime) Requests.bob_likes_again Session.now)
     = db Session.now.
Proof.
  assert (Herr : call_error (rt := ascii_runtime) Requests.bob_likes_again
                   Session.now
                 = Some (HTTPException 400 "Лайк уже поставлен"))
    by (vm_compute; reflexivity).
  split; [exact Herr|].
  exact (failed_call_changes_nothing (rt := ascii_runtime)
           Requests.bob_likes_again Session.now _ Herr).
Defined.

(** The entry of Bob's feed is Alice's post, with its counts. *)
Lemma feed_entries_hydrated_witness :
  (fst (feed None None (Some Requests.as_bob) Session.now)
   = inr [PostOut.Make 1 1 "Alice" None "hello"
            (Some "/uploads/post1_00cc.png") "2024-01-01T10:02:00Z" None
            1 1 true]
   /\ In (PostOut.Make 1 1 "Alice" None "hello"
            (Some "/uploads/post1_00cc.png") "2024-01-01T10:02:00Z" None
            1 1 true)
         [PostOut.Make 1 1 "Alice" None "hello"
            (Some "/uploads/post1_00cc.png") "2024-01-01T10:02:00Z" None
            1 1 true])
  /\ exists p author,
       In p (posts (db Session.now))
       /\ In author (users (db Session.now))
       /\ Users.id author = Posts.author_id p.
Proof.
  assert (Hrun : fst (feed None None (Some Requests.as_bob) Session.now)
                 = inr [PostOut.Make 1 1 "Alice" None "hello"
                          (Some "/uploads/post1_00cc.png")
                          "2024-01-01T10:02:00Z" None 1 1 true])
    by (vm_compute; reflexivity).
  assert (Hin : In (PostOut.Make 1 1 "Alice" None "hello"
                      (Some "/uploads/post1_00cc.png") "2024-01-01T10:02:00Z"
                      None 1 1 true)
                   [PostOut.Make 1 1 "Alice" None "hello"
                      (Some "/uploads/post1_00cc.png") "2024-01-01T10:02:00Z"
                      None 1 1 true])
    by (left; reflexivity).
  split; [split; assumption|].
  destruct (feed_entries_hydrated None None (Some Requests.as_bob)
              Session.now _ _ Hrun Hin)
    as (p & author & Hp & Ha & Hid & _).
  exists p, author. split; [assumption | split; assumption].
Defined.

(** The anonymous feed of the session pages a rearrangement of its posts. *)
Lemma feed_pages_all_posts_witness :
  (reachable (rt := ascii_runtime) Session.now
   /\ sqlite_int (Z.max 0 0) = true)
  /\ exists out ordered,
       feed (Some 5) (Some 0) None Session.now = (inr out, Session.now)
       /\ Permutation ordered (posts (db Session.now))
       /\ map PostOut.id out = map Posts.id (limit_offset 5 0 ordered).
Proof.
  assert (Hreach : reachable (rt := ascii_runtime) Session.now)
    by apply session_reachable.
  assert (Hoffset : sqlite_int (Z.max 0 0) = true) by reflexivity.
  split; [split; assumption|].
  exact (feed_pages_all_posts (rt := ascii_runtime) (Some 5) (Some 0) None
           Session.now Hreach Hoffset).
Defined.

(** Alice's edit keeps the comments, the likes and the counts of her post. *)
Lemma update_post_keeps_the_rest_witness :
  update_post (rt := ascii_runtime) Requests.env 1 "hello again" None false
      Session.alice Session.now
  = (inr (PostOut.Make 1 1 "Alice" None "hello again"
            (Some "/uploads/post1_00cc.png") "2024-01-01T10:02:00Z"
            (Some "2024-01-01T11:00:00Z") 1 1 false),
     snd Requests.alice_edits)
  /\ comments (db (snd Requests.alice_edits)) = comments (db Session.now)
  /\ likes (db (snd Requests.alice_edits)) = likes (db Session.now).
Proof.
  assert (Hrun : update_post (rt := ascii_runtime) Requests.env 1 "hello again" None false
      Session.alice Session.now
                 = (inr (PostOut.Make 1 1 "Alice" None "hello again"
                           (Some "/uploads/post1_00cc.png")
                           "2024-01-01T10:02:00Z"
                           (Some "2024-01-01T11:00:00Z") 1 1 false),
                    snd Requests.alice_edits))
    by (vm_compute; reflexivity).
  split; [exact Hrun|].
  destruct (update_post_keeps_the_rest (rt := ascii_runtime) Requests.env 1
              "hello again" None false Session.alice Session.now
              (snd Requests.alice_edits) _ Hrun)
    as (_ & _ & _ & _ & _ & Hcomments & Hlikes & _).
  split; assumption.
Defined.

(** Bob's new avatar shows when his token is resolved again. *)
Lemma update_avatar_sets_only_avatar_witness :
  (reachable (rt := ascii_runtime) Session.now
   /\ _require_user Requests.as_bob Session.now
      = (inr Session.bob, Session.now)
   /\ update_avatar (rt := ascii_runtime) Requests.env Requests.portrait
      Session.bob Session.now
      = (inr (UserOut.Make 2 "Bob" "bob@example.com"
                (Some "/uploads/user2_avatar_00xx.jpg")
                "2024-01-01T10:01:00Z"),
         snd Requests.bob_sets_avatar))
  /\ _require_user Requests.as_bob (snd Requests.bob_sets_avatar)
     = (inr (Users.Row 2 "Bob" "bob@example.com" "00bb$00bbsecret2"
               (Some "/uploads/user2_avatar_00xx.jpg")
               "2024-01-01T10:01:00Z"),
        snd Requests.bob_sets_avatar)
  /\ posts (db (snd Requests.bob_sets_avatar)) = posts (db Session.now).
Proof.
  assert (Hreach : reachable (rt := ascii_runtime) Session.now)
    by apply session_reachable.
  assert (Huser : _require_user Requests.as_bob Session.now
                  = (inr Session.bob, Session.now))
    by (vm_compute; reflexivity).
  assert (Hrun : update_avatar (rt := ascii_runtime) Requests.env Requests.portrait
      Session.bob Session.now
                 = (inr (UserOut.Make 2 "Bob" "bob@example.com"
                           (Some "/uploads/user2_avatar_00xx.jpg")
                           "2024-01-01T10:01:00Z"),
                    snd Requests.bob_sets_avatar))
    by (vm_compute; reflexivity).
  split; [split; [assumption | split; assumption]|].
  destruct (update_avatar_sets_only_avatar (rt := ascii_runtime) Requests.env
              Requests.portrait Requests.as_bob Session.bob Session.now
              (snd Requests.bob_sets_avatar) _ Hreach Huser Hrun)
    as (_ & Hagain & _ & Hposts & _).
  split; [exact Hagain | exact Hposts].
Defined.

(** Alice's token still resolves after Bob's refused second like. *)
Lemma token_survives_every_call_witness :
  (reachable (rt := ascii_runtime) Session.now
   /\ _get_user_by_token Session.alice_token Session.now
      = (inr (Some Session.alice), Session.now))
  /\ exists u',
       _get_user_by_token Session.alice_token
         (serve (rt := ascii_runtime) Requests.bob_likes_again Session.now)
       = (inr (Some u'),
          serve (rt := ascii_runtime) Requests.bob_likes_again Session.now)
       /\ user_identity u' = user_identity Session.alice.
Proof.
  assert (Hreach : reachable (rt := ascii_runtime) Session.now)
    by apply session_reachable.
  assert (Hres : _get_user_by_token Session.alice_token Session.now
                 = (inr (Some Session.alice), Session.now))
    by (vm_compute; reflexivity).
  split; [split; assumption|].
  exact (token_survives_every_call (rt := ascii_runtime)
           Requests.bob_likes_again Session.now Session.alice_token
           Session.alice Hreach Hres).
Defined.

(** An anonymous feed request with limit 500 and offset -3. *)
Lemma feed_clamped_ordered_witness :
  sqlite_int (Z.max 0 (-3)) = true
  /\ exists out,
    feed (Some 500) (Some (-3)) (Some Session.anonymous) Session.now
    = (inr out, Session.now)
    /\ Z.of_nat (length out) <= 50
    /\ Forall (fun o => PostOut.liked_by_me o = false) out.
Proof.
  assert (Hoffset : sqlite_int (Z.max 0 (-3)) = true) by reflexivity.
  split; [exact Hoffset|].
  destruct (feed_clamped_ordered (Some 500) (Some (-3))
              (Some Session.anonymous) Session.now Hoffset)
    as (out & Hrun & _ & _ & _ & _ & Hlen & _ & Hanon).
  exists out. split; [exact Hrun|]. split; [exact Hlen|].
  apply Hanon. left. reflexivity.
Defined.

(** Bob reads the post he commented on and liked; nobody finds post 7. *)
Lemma get_post_detail_witness :
  (reachable (rt := ascii_runtime) Session.now
   /\ sqlite_int 1 = true /\ sqlite_int 7 = true)
  /\ (exists detail,
         get_post 1 (Session.bearer Session.bob_token) Session.now
         = (inr detail, Session.now)
         /\ PostOut.likes_count (PostDetailOut.post detail) = 1
         /\ map CommentOut.text (PostDetailOut.comments detail) = ["nice"]
         /\ PostDetailOut.liked_by_me detail = true)
  /\ get_post 7 Session.anonymous Session.now
     = (inl (HTTPException 404 "Пост не найден"), Session.now).
Proof.
  assert (Hreach : reachable (rt := ascii_runtime) Session.now)
    by apply session_reachable.
  assert (Hone : sqlite_int 1 = true) by reflexivity.
  assert (Hseven : sqlite_int 7 = true) by reflexivity.
  split; [split; [exact Hreach | split; assumption]|]. split.
  - pose proof (get_post_detail (rt := ascii_runtime) 1
                  (Session.bearer Session.bob_token) Session.now Hreach Hone)
      as Hd.
    assert (Hsel : SELECT_post_by_id 1 (db Session.now) = Some Session.hello)
      by (vm_compute; reflexivity).
    rewrite Hsel in Hd.
    destruct Hd as (author & views & liked & Hrun & _ & _ & _ & _ & _ & Hliked).
    eexists. split; [exact Hrun|].
    assert (Hval : get_post 1 (Session.bearer Session.bob_token) Session.now
                   = (inr (PostDetailOut.Make
                             (PostOut.Make 1 1 "Alice" None "hello"
                                (Some "/uploads/post1_00cc.png")
                                "2024-01-01T10:02:00Z" None 1 1 false)
                             [CommentOut.Make 1 1 2 "Bob" None "nice"
                                "2024-01-01T10:03:00Z"]
                             true),
                      Session.now))
      by (vm_compute; reflexivity).
    rewrite Hval in Hrun. injection Hrun as _ _ Hcomments _.
    cbn [PostDetailOut.post PostDetailOut.comments PostDetailOut.liked_by_me
         PostOut.likes_count].
    split; [reflexivity|]. split; [now rewrite <- Hcomments|].
    apply Hliked. split; [vm_compute; discriminate|].
    exists Session.bob. split; vm_compute; reflexivity.
  - exact (get_post_detail (rt := ascii_runtime) 7 Session.anonymous
             Session.now Hreach Hseven).
Defined.
